(** * jasmin_cloud.provider.openstack: the OpenStack provider

    A shallow embedding of [src/jasmin_cloud/provider/openstack.py] and the
    properties its specification states about it.

    Python values are embedded as follows.
    - [str] is [string]; [str.lower], [str.replace], [str.capitalize] and the
      [in] operator are written out below on 8-bit characters: letters,
      digits and white space outside ASCII are not treated as such.
    - an exception is a constructor of [exn]; a call that can raise returns a
      [result].
    - a [dict] is a [gmap]; a missing key is [None] and the code that indexes
      it raises [KeyError] explicitly. *)

From Stdlib Require Import ZArith QArith_base Ascii String List Bool Lia.
From stdpp Require Import base option gmap strings list fin_maps.

Local Open Scope Z_scope.
Local Open Scope string_scope.

Set Warnings "-register-all".

(** ** Python strings *)

Module PyStr.

(** [c.lower()] on one character: only [A]..[Z] change. *)
Definition lower_ascii (c : ascii) : ascii :=
  let n := N_of_ascii c in
  if ((65 <=? n) && (n <=? 90))%N then ascii_of_N (n + 32) else c.

(** [c.upper()] on one character: only [a]..[z] change. *)
Definition upper_ascii (c : ascii) : ascii :=
  let n := N_of_ascii c in
  if ((97 <=? n) && (n <=? 122))%N then ascii_of_N (n - 32) else c.

(** [s.lower()] *)
Fixpoint lower (s : string) : string :=
  match s with
  | EmptyString => EmptyString
  | String c s' => String (lower_ascii c) (lower s')
  end.

(** [s.capitalize()]: first character upper-cased, the rest lower-cased. *)
Definition capitalize (s : string) : string :=
  match s with
  | EmptyString => EmptyString
  | String c s' => String (upper_ascii c) (lower s')
  end.

(** [s.startswith(p)] *)
Fixpoint startswith (p s : string) : bool :=
  match p, s with
  | EmptyString, _ => true
  | String a p', String b s' => if Ascii.eqb a b then startswith p' s' else false
  | String _ _, EmptyString => false
  end.

(** [needle in hay] *)
Fixpoint contains (needle hay : string) : bool :=
  startswith needle hay ||
  match hay with
  | EmptyString => false
  | String _ hay' => contains needle hay'
  end.

(** [s.replace(old, new)] for a non-empty [old]: the occurrences of [old]
    are replaced from the left, without overlap.  [skip] counts the
    characters of an occurrence that are still to be dropped. *)
Fixpoint replace_from (old new s : string) (skip : nat) : string :=
  match s with
  | EmptyString => EmptyString
  | String c s' =>
      match skip with
      | S k => replace_from old new s' k
      | O =>
          if startswith old s
          then new ++ replace_from old new s' (String.length old - 1)
          else String c (replace_from old new s' O)
      end
  end.

Definition replace (old new s : string) : string := replace_from old new s O.

(** [s[:n]] *)
Fixpoint take (n : nat) (s : string) : string :=
  match n, s with
  | S k, String c s' => String c (take k s')
  | _, _ => EmptyString
  end.

(** Truth value of a string: the empty string is false. *)
Definition truthy (s : string) : bool :=
  match s with EmptyString => false | _ => true end.

End PyStr.

(** ** Exceptions and results *)

(** The classes of [jasmin_cloud.provider.errors] that the provider raises. *)
Inductive error_class :=
| Error
| AuthenticationError
| PermissionDeniedError
| ObjectNotFoundError
| QuotaExceededError
| BadInputError
| InvalidOperationError
| ImproperlyConfiguredError
| CommunicationError.

(** The key carried by a [KeyError]. *)
Inductive key := KStr (s : string) | KInt (n : Z).

Inductive exn :=
| Errors (c : error_class) (message : string)
    (* jasmin_cloud.provider.errors.<c>(message) *)
| ResourceNotFound (details : string)
    (* openstack.exceptions.ResourceNotFound, a subclass of HttpException *)
| HttpException (status_code : Z) (details : string)
    (* openstack.exceptions.HttpException, any other subclass *)
| HttpError (http_status : Z) (message : string)
    (* keystoneauth1.exceptions.http.HttpError: no status_code attribute *)
| SDKException (message : string)
    (* openstack.exceptions.SDKException outside HttpException *)
| ClientException (message : string)
    (* keystoneauth1.exceptions.base.ClientException outside HttpError *)
| RequestsConnectionError
    (* requests.exceptions.ConnectionError *)
| KeyError (k : key)
| ValueError (message : string)
| TypeError (message : string)
| AttributeError (message : string).

Inductive result (A : Type) :=
| Return (a : A)
| Raise (e : exn).
Arguments Return {A} a.
Arguments Raise {A} e.

(** ** Resource names in messages *)

Definition _REPLACEMENTS : list (string * string) :=
  [ ("instance", "machine");
    ("Instance", "Machine");
    ("flavorRef", "size");
    ("flavor", "size");
    ("Flavor", "Size") ].

(** [functools.reduce(lambda a, x: a.replace(x[0], x[1]), _REPLACEMENTS, message)] *)
Definition _replace_resource_names (message : string) : string :=
  fold_left (fun a x => PyStr.replace (fst x) (snd x) a) _REPLACEMENTS message.

(** ** convert_sdk_exceptions *)

Definition quota_message : string :=
  "Requested operation would exceed at least one quota. " ++
  "Please check your tenancy quotas.".

(** The status code and the message of an exception caught by the clause
    [except (exceptions.HttpException, keystone_exceptions.http.HttpError)]:
    an SDK exception has [status_code] and its [details] are rewritten, a raw
    session exception has [http_status] and its [message] is taken as it is. *)
Definition status_and_message (e : exn) : option (Z * string) :=
  match e with
  | HttpException status_code details =>
      Some (status_code, _replace_resource_names details)
  | HttpError http_status message => Some (http_status, message)
  | _ => None
  end.

(** The status and the text that the failed response carried, before any
    rewriting. *)
Definition response_of (e : exn) : option (Z * string) :=
  match e with
  | HttpException status_code details => Some (status_code, details)
  | HttpError http_status message => Some (http_status, message)
  | _ => None
  end.

(** What the handler of the second [except] clause raises. *)
Definition translate_status (status_code : Z) (message : string) : exn :=
  if (status_code =? 400)%Z then Errors BadInputError message
  else if (status_code =? 401)%Z then Errors AuthenticationError "Your session has expired"
  else if (status_code =? 403)%Z then
    if PyStr.contains "quota exceeded" (PyStr.lower message)
    then Errors QuotaExceededError quota_message
    else Errors PermissionDeniedError "Permission denied"
  else if (status_code =? 404)%Z then Errors ObjectNotFoundError message
  else if (status_code =? 409)%Z then
    if PyStr.contains "quota exceeded" (PyStr.lower message)
    then Errors QuotaExceededError quota_message
    else Errors InvalidOperationError message
  else Errors CommunicationError "Error communicating with OpenStack API".

(** The exception that leaves the wrapper when the wrapped function raised
    [e].  An exception that no clause catches leaves unchanged. *)
Definition convert_exception (e : exn) : exn :=
  match e with
  | ResourceNotFound details =>
      Errors ObjectNotFoundError
        (_replace_resource_names (PyStr.replace "404 Not Found: " "" details))
  | HttpException _ _ | HttpError _ _ =>
      match status_and_message e with
      | Some (status_code, message) => translate_status status_code message
      | None => e
      end
  | SDKException _ | ClientException _ =>
      Errors Error "Unknown error in OpenStack SDK"
  | _ => e
  end.

(** The wrapper applied to the outcome of the wrapped function. *)
Definition convert_result {A} (r : result A) : result A :=
  match r with
  | Return a => Return a
  | Raise e => Raise (convert_exception e)
  end.

(** ** Built-in conversions *)

(** The ASCII characters that [int] and [str.strip] treat as white space. *)
Definition is_space (c : ascii) : bool :=
  let n := N_of_ascii c in
  (((9 <=? n) && (n <=? 13)) || ((28 <=? n) && (n <=? 32)))%N.

Fixpoint lstrip (s : string) : string :=
  match s with
  | String c s' => if is_space c then lstrip s' else s
  | EmptyString => EmptyString
  end.

Fixpoint rstrip (s : string) : string :=
  match s with
  | EmptyString => EmptyString
  | String c s' =>
      match rstrip s' with
      | EmptyString => if is_space c then EmptyString else String c EmptyString
      | r => String c r
      end
  end.

Definition digit_value (c : ascii) : option Z :=
  let n := N_of_ascii c in
  if ((48 <=? n) && (n <=? 57))%N then Some (Z.of_N n - 48) else None.

(** Decimal digits, with single underscores allowed between two digits.
    [after_digit] tells whether the previous character was a digit. *)
Fixpoint int_digits (s : string) (acc : Z) (after_digit : bool) : option Z :=
  match s with
  | EmptyString => if after_digit then Some acc else None
  | String c s' =>
      if Ascii.eqb c "_"
      then (if after_digit then int_digits s' acc false else None)
      else match digit_value c with
           | Some d => int_digits s' (10 * acc + d) true
           | None => None
           end
  end.

(** [int(s)] for a [str]: [None] stands for the [ValueError] it raises.
    (The limit that recent interpreters put on the number of digits is not
    part of this model.) *)
Definition py_int (s : string) : option Z :=
  match rstrip (lstrip s) with
  | String "+" s' => int_digits s' 0 false
  | String "-" s' => Z.opp <$> int_digits s' 0 false
  | s' => int_digits s' 0 false
  end.

(** [bool(n)] for an [int]. *)
Definition py_bool (n : Z) : bool := negb (n =? 0)%Z.

(** [bool(int(s))]: the conversion of a flag stored as text. *)
Definition flag_of_str (s : string) : result bool :=
  match py_int s with
  | Some n => Return (py_bool n)
  | None => Raise (ValueError ("invalid literal for int() with base 10: " ++ s))
  end.

(** ** JSON bodies *)

Inductive json :=
| JNull
| JBool (b : bool)
| JInt (n : Z)
| JStr (s : string)
| JList (l : list json)
| JDict (items : list (string * json)).

Fixpoint assoc {A} (k : string) (items : list (string * A)) : option A :=
  match items with
  | [] => None
  | (k', v) :: rest => if String.eqb k' k then Some v else assoc k rest
  end.

(** [j[k]] for a string key [k]. *)
Definition getitem (j : json) (k : string) : result json :=
  match j with
  | JDict items =>
      match assoc k items with
      | Some v => Return v
      | None => Raise (KeyError (KStr k))
      end
  | JNull => Raise (TypeError "'NoneType' object is not subscriptable")
  | JBool _ => Raise (TypeError "'bool' object is not subscriptable")
  | JInt _ => Raise (TypeError "'int' object is not subscriptable")
  | JStr _ => Raise (TypeError "string indices must be integers")
  | JList _ => Raise (TypeError "list indices must be integers or slices, not str")
  end.

(** ** The [requests] library, as far as the provider uses it *)

Module requests.

(** A response: its status, its headers (a case-insensitive dictionary, kept
    under lower-cased names) and its decoded body. *)
Record Response (B : Type) := mkResponse {
  status_code : Z;
  headers : gmap string string;
  body : B
}.
Arguments mkResponse {B} _ _ _.
Arguments status_code {B} _.
Arguments headers {B} _.
Arguments body {B} _.

(** [requests.post] and [requests.get] either raise
    [requests.exceptions.ConnectionError] or return a response. *)
Inductive outcome (B : Type) :=
| ConnectionFailed
| Responded (res : Response B).
Arguments ConnectionFailed {B}.
Arguments Responded {B} res.

(** [res.headers[name]] *)
Definition header {B} (res : Response B) (name : string) : option string :=
  headers res !! PyStr.lower name.

(** [res.raise_for_status()] raises [HTTPError] for the client and server
    error statuses; the function tells whether it raises. *)
Definition raise_for_status {B} (res : Response B) : bool :=
  ((400 <=? status_code res) && (status_code res <? 600))%Z.

End requests.

(** ** Sessions and tenancies *)

Module Tenancy.
Record t := mk { id : string; name : string }.
End Tenancy.

(** An entry of the [projects] list of the identity service: an absent key
    is [None]. *)
Module Project.
Record t := mk { id : option string; name : option string; enabled : option bool }.
End Project.

(** The connection that [connection.from_config] builds for a tenancy. *)
Module Connection.
Record t := mk { auth_url : string; token : string; project_id : string;
                 interface : string; verify : bool }.
End Connection.

Module Provider.
Record t := mk {
  auth_url : string;
  domain : string;
  interface : string;
  secondary_network_id : option string;
  verify_ssl : bool
}.
End Provider.

Module UnscopedSession.
Record t := mk {
  auth_url : string;
  username : string;
  token : string;
  interface : string;
  secondary_network_id : option string;
  verify_ssl : bool
}.
End UnscopedSession.

Module ScopedSession.
Record t := mk {
  username : string;
  tenancy_id : string;
  tenancy_name : string;
  connection : Connection.t;
  secondary_network_id : option string;
  interface : string
}.
End ScopedSession.

(** The password identity payload of a token request. *)
Record password_identity := mkIdentity {
  identity_name : string;
  identity_domain : string;
  identity_password : string
}.

(** The identity service as the provider reaches it: the answer to a token
    request, the answer to a project listing, and the outcome of building a
    connection scoped to a project. *)
Record identity_service := mkIdentityService {
  post_tokens : string -> password_identity -> bool -> requests.outcome unit;
  get_projects : string -> string -> bool -> requests.outcome (option (list Project.t));
  from_config : Connection.t -> result Connection.t
}.

(** Provider.authenticate.  [requests.post] is called before the first
    [try]: a connection error it raises is not handled. *)
Definition authenticate (ks : identity_service) (self : Provider.t)
    (username password : string) : result UnscopedSession.t :=
  match post_tokens ks (Provider.auth_url self ++ "/auth/tokens")
          (mkIdentity username (Provider.domain self) password)
          (Provider.verify_ssl self) with
  | requests.ConnectionFailed => Raise RequestsConnectionError
  | requests.Responded res =>
      if requests.raise_for_status res then
        if (requests.status_code res =? 401)%Z
        then Raise (Errors AuthenticationError "Invalid username or password")
        else Raise (Errors CommunicationError "Unexpected response from OpenStack")
      else
        match requests.header res "X-Subject-Token" with
        | Some token =>
            Return (UnscopedSession.mk (Provider.auth_url self) username token
                      (Provider.interface self)
                      (Provider.secondary_network_id self)
                      (Provider.verify_ssl self))
        | None =>
            Raise (Errors CommunicationError "Unable to extract token from response")
        end
  end.

(** The generator of [tenancies]: the enabled projects, in order; a missing
    key raises [KeyError]. *)
Fixpoint enabled_tenancies (projects : list Project.t) : result (list Tenancy.t) :=
  match projects with
  | [] => Return []
  | p :: rest =>
      match Project.enabled p with
      | None => Raise (KeyError (KStr "enabled"))
      | Some false => enabled_tenancies rest
      | Some true =>
          match Project.id p, Project.name p with
          | None, _ => Raise (KeyError (KStr "id"))
          | Some _, None => Raise (KeyError (KStr "name"))
          | Some i, Some n =>
              match enabled_tenancies rest with
              | Return ts => Return (Tenancy.mk i n :: ts)
              | Raise e => Raise e
              end
          end
      end
  end.

(** UnscopedSession.tenancies *)
Definition tenancies (ks : identity_service) (self : UnscopedSession.t)
    : result (list Tenancy.t) :=
  match get_projects ks (UnscopedSession.auth_url self ++ "/auth/projects")
          (UnscopedSession.token self) (UnscopedSession.verify_ssl self) with
  | requests.ConnectionFailed => Raise RequestsConnectionError
  | requests.Responded res =>
      if requests.raise_for_status res then
        if (requests.status_code res =? 401)%Z
        then Raise (Errors AuthenticationError "Your session has expired")
        else if (requests.status_code res =? 403)%Z
        then Raise (Errors PermissionDeniedError "Permission denied")
        else Raise (Errors CommunicationError "Unexpected response from OpenStack")
      else
        let r :=
          match requests.body res with
          | None => Raise (KeyError (KStr "projects"))
          | Some projects => enabled_tenancies projects
          end in
        match r with
        | Raise (KeyError _) =>
            Raise (Errors CommunicationError
                     "Unable to extract tenancy information from response")
        | _ => r
        end
  end.

(** The first statement of [scoped_session]: a tenancy is taken as it is, an
    id is looked up among [self.tenancies()]. *)
Definition resolve_tenancy (ks : identity_service) (self : UnscopedSession.t)
    (tenancy : Tenancy.t + string) : result Tenancy.t :=
  match tenancy with
  | inl t => Return t
  | inr tenancy_id =>
      match tenancies ks self with
      | Raise e => Raise e
      | Return ts =>
          match List.find (fun t => String.eqb (Tenancy.id t) tenancy_id) ts with
          | Some t => Return t
          | None =>
              Raise (Errors ObjectNotFoundError
                       ("Could not find tenancy with ID " ++ tenancy_id))
          end
      end
  end.

(** The configuration that [scoped_session] passes to
    [connection.from_config]. *)
Definition cloud_config (self : UnscopedSession.t) (t : Tenancy.t) : Connection.t :=
  Connection.mk (UnscopedSession.auth_url self) (UnscopedSession.token self)
    (Tenancy.id t) (UnscopedSession.interface self)
    (UnscopedSession.verify_ssl self).

(** The body of [scoped_session], before the decorator.  The handler
    [except exceptions.HttpException] also catches [ResourceNotFound], whose
    status is not 401 or 403, and raises it again. *)
Definition scoped_session_body (ks : identity_service) (self : UnscopedSession.t)
    (tenancy : Tenancy.t + string) : result ScopedSession.t :=
  match resolve_tenancy ks self tenancy with
  | Raise e => Raise e
  | Return t =>
      match from_config ks (cloud_config self t) with
      | Return connection =>
          Return (ScopedSession.mk (UnscopedSession.username self) (Tenancy.id t)
                    (Tenancy.name t) connection
                    (UnscopedSession.secondary_network_id self)
                    (UnscopedSession.interface self))
      | Raise (HttpException status_code details) =>
          if ((status_code =? 401) || (status_code =? 403))%Z
          then Raise (Errors ObjectNotFoundError
                        ("Could not find tenancy with ID " ++ Tenancy.id t))
          else Raise (HttpException status_code details)
      | Raise e => Raise e
      end
  end.

(** UnscopedSession.scoped_session, decorated with [convert_sdk_exceptions] *)
Definition scoped_session (ks : identity_service) (self : UnscopedSession.t)
    (tenancy : Tenancy.t + string) : result ScopedSession.t :=
  convert_result (scoped_session_body ks self tenancy).

(** ** Resources of the SDK *)

(** [compute.get_limits().absolute] *)
Record AbsoluteLimits := mkAbsoluteLimits {
  total_cores : Z;
  total_cores_used : Z;
  total_ram : Z;
  total_ram_used : Z;
  instances : Z;
  instances_used : Z
}.

Module SdkImage.
Record t := mk {
  id : string;
  name : option string;
  visibility : string;
  size : option Z;
  jasmin_type : option string;
  jasmin_nat_allowed : option string
}.
End SdkImage.

(** An entry of [sdk_server.addresses[network]]. *)
Record Address := mkAddress {
  addr : string;
  version : Z;
  ip_type : string   (* the key OS-EXT-IPS:type *)
}.

Module SdkServer.
Record t := mk {
  id : string;
  name : string;
  image : gmap string string;
  flavor : gmap string string;
  status : string;
  fault : option (gmap string string);
  task_state : option string;
  power_state : Z;
  metadata : option (gmap string string);
  addresses : gmap string (list Address);
  attached_volumes : list (gmap string string);
  user_id : string;
  created_at : string
}.
End SdkServer.

Module Port.
Record t := mk {
  id : string;
  device_owner : string;
  device_id : string;
  network_id : string
}.
End Port.

Module Network.
Record t := mk { id : string; name : string }.
End Network.

Module FloatingIP.
Record t := mk {
  id : string;
  floating_ip_address : string;
  port_id : option string
}.
End FloatingIP.

(** An entry of [sdk_volume.attachments]. *)
Record Attachment := mkAttachment {
  server_id : string;
  device : string
}.

Module SdkVolume.
Record t := mk {
  id : string;
  name : option string;
  status : string;
  size : Z;
  attachments : list Attachment
}.
End SdkVolume.

(** ** Data transfer objects *)

Module Quota.
Record t := mk {
  resource : string;
  units : option string;
  allocated : json;
  used : json
}.
End Quota.

Module Image.
Record t := mk {
  id : string;
  vm_type : string;
  name : option string;
  is_public : bool;
  nat_allowed : bool;
  size : Q
}.
End Image.

(** The time stamp that [dateutil.parser.parse] returns. *)
Record datetime := mkDatetime {
  year : Z; month : Z; day : Z;
  hour : Z; minute : Z; second : Z; microsecond : Z;
  utcoffset : option Z
}.

Module Machine.
Record Status := mkStatus {
  type : string;            (* the name of the member of Status.Type *)
  status_name : string;
  details : option string
}.
Record t := mk {
  id : string;
  name : string;
  image_id : string;
  size_id : string;
  status : Status;
  power_state : string;
  task : option string;
  internal_ip : option string;
  external_ip : option string;
  nat_allowed : bool;
  attached_volume_ids : list string;
  owner : string;
  created : datetime
}.
End Machine.

Module ExternalIp.
Record t := mk { external_ip : string; machine_id : option string }.
End ExternalIp.

Module Volume.
(** dto.Volume.Status, the members that the provider names. *)
Inductive Status :=
| CREATING | AVAILABLE | ATTACHING | DETACHING | IN_USE | DELETING | ERROR | OTHER.
Record t := mk {
  id : string;
  name : string;
  status : Status;
  size : Z;
  machine_id : option string;
  device : option string
}.
Definition Status_eqb (a b : Status) : bool :=
  match a, b with
  | CREATING, CREATING | AVAILABLE, AVAILABLE | ATTACHING, ATTACHING
  | DETACHING, DETACHING | IN_USE, IN_USE | DELETING, DELETING
  | ERROR, ERROR | OTHER, OTHER => true
  | _, _ => false
  end.
End Volume.

(** ** The cloud behind a connection *)

(** The calls that the provider makes through its connection. *)
Inductive api_call :=
| compute_get_limits
| compute_list_servers
| compute_get_server (id : string)
| compute_create_volume_attachment (machine volume_id : string)
| image_get (id : string)
| network_ports (device_owner device_id network_id : option string)
| network_find_network (id : string)
| network_find_port (id : string)
| network_ips (port_id floating_ip_address : option string)
| network_update_ip (fip_id : string) (port_id : option string)
| block_store_volumes
| block_store_get_volume (id : string)
| session_get_endpoint (service_type interface : string)
| session_get (url : string).

(** The state of the services.  [faults] names the calls that the services
    answer with a failure, and the exception the SDK raises for it. *)
Record cloud := mkCloud {
  limits : AbsoluteLimits;
  servers : list SdkServer.t;
  images : list SdkImage.t;
  ports : list Port.t;
  networks : list Network.t;
  floating_ips : list FloatingIP.t;
  stored_volumes : list SdkVolume.t;
  endpoints : gmap (string * string) string;
  documents : gmap string json;
  attach_device : string;
  faults : api_call -> option exn
}.

(** What a scoped session runs against: the cloud, the two memoization
    tables of the session ([functools.lru_cache] on [find_image] and on
    [_tenant_network]) and the calls made so far, latest first. *)
Record world := mkWorld {
  backend : cloud;
  image_cache : gmap string Image.t;
  network_cache : option (option Network.t);
  calls : list api_call
}.

Definition set_backend (c : cloud) (w : world) : world :=
  mkWorld c (image_cache w) (network_cache w) (calls w).
Definition set_image_cache (m : gmap string Image.t) (w : world) : world :=
  mkWorld (backend w) m (network_cache w) (calls w).
Definition set_network_cache (n : option (option Network.t)) (w : world) : world :=
  mkWorld (backend w) (image_cache w) n (calls w).
Definition record_call (c : api_call) (w : world) : world :=
  mkWorld (backend w) (image_cache w) (network_cache w) (c :: calls w).

Definition set_floating_ips (l : list FloatingIP.t) (c : cloud) : cloud :=
  mkCloud (limits c) (servers c) (images c) (ports c) (networks c) l (stored_volumes c)
    (endpoints c) (documents c) (attach_device c) (faults c).
Definition set_volumes (l : list SdkVolume.t) (c : cloud) : cloud :=
  mkCloud (limits c) (servers c) (images c) (ports c) (networks c) (floating_ips c) l
    (endpoints c) (documents c) (attach_device c) (faults c).

(** ** Computations that raise and change the world *)

Definition M (A : Type) : Type := world -> result A * world.

Definition ret {A} (a : A) : M A := fun w => (Return a, w).
Definition raise {A} (e : exn) : M A := fun w => (Raise e, w).
Definition bind {A B} (m : M A) (k : A -> M B) : M B :=
  fun w =>
    match m w with
    | (Return a, w') => k a w'
    | (Raise e, w') => (Raise e, w')
    end.
Definition lift {A} (r : result A) : M A := fun w => (r, w).

Notation "x <- m ;; k" := (bind m (fun x => k))
  (at level 100, m at next level, right associativity).
Notation "m ;;; k" := (bind m (fun _ => k))
  (at level 100, right associativity).

(** [try: m except <clauses>]: [handler e] is the clause that catches [e]. *)
Definition try_except {A} (m : M A) (handler : exn -> option (M A)) : M A :=
  fun w =>
    match m w with
    | (Raise e, w') =>
        match handler e with
        | Some h => h w'
        | None => (Raise e, w')
        end
    | r => r
    end.

(** The decorator [convert_sdk_exceptions]. *)
Definition convert_sdk_exceptions {A} (f : M A) : M A :=
  fun w => let (r, w') := f w in (convert_result r, w').

(** A call to a service: it is recorded, fails if the cloud says so, and
    otherwise answers from (and may change) the state of the cloud. *)
Definition call {A} (c : api_call) (answer : cloud -> result A * cloud) : M A :=
  fun w =>
    let w := record_call c w in
    match faults (backend w) c with
    | Some e => (Raise e, w)
    | None => let (r, b) := answer (backend w) in (r, set_backend b w)
    end.

Definition read {A} (c : api_call) (answer : cloud -> result A) : M A :=
  call c (fun b => (answer b, b)).

Definition opt_matches (filter : option string) (value : option string) : bool :=
  match filter with
  | None => true
  | Some f => match value with Some v => String.eqb f v | None => false end
  end.

Definition not_found {A} (what id : string) : result A :=
  Raise (ResourceNotFound ("404 Not Found: " ++ what ++ " " ++ id ++ " could not be found.")).

Definition get_limits : M AbsoluteLimits :=
  read compute_get_limits (fun b => Return (limits b)).

Definition list_servers : M (list SdkServer.t) :=
  read compute_list_servers (fun b => Return (servers b)).

Definition get_server (id : string) : M SdkServer.t :=
  read (compute_get_server id) (fun b =>
    match List.find (fun s => String.eqb (SdkServer.id s) id) (servers b) with
    | Some s => Return s
    | None => not_found "Instance" id
    end).

Definition get_image (id : string) : M SdkImage.t :=
  read (image_get id) (fun b =>
    match List.find (fun i => String.eqb (SdkImage.id i) id) (images b) with
    | Some i => Return i
    | None => not_found "Image" id
    end).

(** The ports that a listing with these filters returns. *)
Definition select_ports (device_owner device_id network_id : option string)
    (l : list Port.t) : list Port.t :=
  List.filter (fun p =>
    opt_matches device_owner (Some (Port.device_owner p)) &&
    opt_matches device_id (Some (Port.device_id p)) &&
    opt_matches network_id (Some (Port.network_id p))) l.

Definition list_ports (device_owner device_id network_id : option string)
    : M (list Port.t) :=
  read (network_ports device_owner device_id network_id) (fun b =>
    Return (select_ports device_owner device_id network_id (ports b))).

Definition find_network (id : string) : M (option Network.t) :=
  read (network_find_network id) (fun b =>
    Return (List.find (fun n => String.eqb (Network.id n) id) (networks b))).

Definition find_port (id : string) : M (option Port.t) :=
  read (network_find_port id) (fun b =>
    Return (List.find (fun p => String.eqb (Port.id p) id) (ports b))).

(** The floating IPs that a listing with these filters returns. *)
Definition select_ips (port_id floating_ip_address : option string)
    (l : list FloatingIP.t) : list FloatingIP.t :=
  List.filter (fun f =>
    opt_matches port_id (FloatingIP.port_id f) &&
    opt_matches floating_ip_address (Some (FloatingIP.floating_ip_address f))) l.

Definition list_ips (port_id floating_ip_address : option string)
    : M (list FloatingIP.t) :=
  read (network_ips port_id floating_ip_address) (fun b =>
    Return (select_ips port_id floating_ip_address (floating_ips b))).

(** [network.update_ip(fip, port_id = p)]: the binding of the floating IP is
    replaced in the cloud and the updated resource is returned. *)
Definition rebind (fip_id : string) (p : option string) (f : FloatingIP.t) : FloatingIP.t :=
  if String.eqb (FloatingIP.id f) fip_id
  then FloatingIP.mk (FloatingIP.id f) (FloatingIP.floating_ip_address f) p
  else f.

Definition update_ip (fip : FloatingIP.t) (p : option string) : M FloatingIP.t :=
  call (network_update_ip (FloatingIP.id fip) p) (fun b =>
    (Return (FloatingIP.mk (FloatingIP.id fip) (FloatingIP.floating_ip_address fip) p),
     set_floating_ips (List.map (rebind (FloatingIP.id fip) p) (floating_ips b)) b)).

Definition list_volumes : M (list SdkVolume.t) :=
  read block_store_volumes (fun b => Return (stored_volumes b)).

Definition get_volume (id : string) : M SdkVolume.t :=
  read (block_store_get_volume id) (fun b =>
    match List.find (fun v => String.eqb (SdkVolume.id v) id) (stored_volumes b) with
    | Some v => Return v
    | None => not_found "Volume" id
    end).

(** [compute.create_volume_attachment(machine, volume_id = id)]: the volume
    is recorded as in use by the machine. *)
Definition attached (machine volume_id dev : string) (v : SdkVolume.t) : SdkVolume.t :=
  if String.eqb (SdkVolume.id v) volume_id
  then SdkVolume.mk (SdkVolume.id v) (SdkVolume.name v) "in-use" (SdkVolume.size v)
         [mkAttachment machine dev]
  else v.

Definition create_volume_attachment (machine volume_id : string) : M unit :=
  call (compute_create_volume_attachment machine volume_id) (fun b =>
    (Return tt,
     set_volumes (List.map (attached machine volume_id (attach_device b)) (stored_volumes b)) b)).

Definition get_endpoint (service_type interface : string) : M (option string) :=
  read (session_get_endpoint service_type interface) (fun b =>
    Return (endpoints b !! (service_type, interface))).

(** [session.get(url).json()] *)
Definition session_get_json (url : string) : M json :=
  read (session_get url) (fun b =>
    match documents b !! url with
    | Some j => Return j
    | None => Raise (HttpError 404 "Not Found")
    end).

(** ** ScopedSession *)

(** [d[k]] for a dictionary of strings. *)
Definition dict_item (d : gmap string string) (k : string) : result string :=
  match d !! k with
  | Some v => Return v
  | None => Raise (KeyError (KStr k))
  end.

(** [tuple(f(x) for x in l)]: the first exception ends the iteration. *)
Fixpoint for_each {A B} (f : A -> M B) (l : list A) : M (list B) :=
  match l with
  | [] => ret []
  | x :: rest => y <- f x;; ys <- for_each f rest;; ret (y :: ys)
  end.

(** [x + suffix] where [x] may be [None]. *)
Definition concat_endpoint (ep : option string) (suffix : string) : result string :=
  match ep with
  | Some e => Return (e ++ suffix)
  | None => Raise (TypeError "unsupported operand type(s) for +: 'NoneType' and 'str'")
  end.

(** ScopedSession.quotas ([self._log] only writes to the log and is left
    out here and below). *)
Definition quotas (self : ScopedSession.t) : M (list Quota.t) :=
  convert_sdk_exceptions (
    compute_limits <- get_limits;;
    let quotas :=
      [ Quota.mk "cpus" None
          (JInt (total_cores compute_limits)) (JInt (total_cores_used compute_limits));
        Quota.mk "ram" (Some "MB")
          (JInt (total_ram compute_limits)) (JInt (total_ram_used compute_limits));
        Quota.mk "machines" None
          (JInt (instances compute_limits)) (JInt (instances_used compute_limits)) ] in
    network_ep <- get_endpoint "network" (ScopedSession.interface self);;
    url <- lift (concat_endpoint network_ep "/v2.0/quotas/");;
    network_quotas <- session_get_json (url ++ ScopedSession.tenancy_id self);;
    quota <- lift (getitem network_quotas "quota");;
    floatingip <- lift (getitem quota "floatingip");;
    ips <- list_ips None None;;
    let quotas := (quotas ++
      [ Quota.mk "external_ips" None floatingip (JInt (Z.of_nat (List.length ips))) ])%list in
    volume_ep <- get_endpoint "volume" (ScopedSession.interface self);;
    url <- lift (concat_endpoint volume_ep "/limits");;
    volume_limits <- session_get_json url;;
    let absolute (k : string) : result json :=
      match getitem volume_limits "limits" with
      | Return l =>
          match getitem l "absolute" with
          | Return a => getitem a k
          | Raise e => Raise e
          end
      | Raise e => Raise e
      end in
    storage <- lift (absolute "maxTotalVolumeGigabytes");;
    storage_used <- lift (absolute "totalGigabytesUsed");;
    vols <- lift (absolute "maxTotalVolumes");;
    vols_used <- lift (absolute "totalVolumesUsed");;
    ret (quotas ++
      [ Quota.mk "storage" (Some "GB") storage storage_used;
        Quota.mk "volumes" None vols vols_used ])%list).

(** [x or default] for an optional string. *)
Definition str_or (x : option string) (d : string) : string :=
  match x with
  | Some s => if PyStr.truthy s then s else d
  | None => d
  end.

(** ScopedSession._from_sdk_image: the size in bytes becomes a size in MB
    (an exact quotient here, a float in the program). *)
Definition _from_sdk_image (sdk_image : SdkImage.t) : result Image.t :=
  match flag_of_str (str_or (SdkImage.jasmin_nat_allowed sdk_image) "1") with
  | Raise e => Raise e
  | Return nat_allowed =>
      match SdkImage.size sdk_image with
      | None =>
          Raise (TypeError "float() argument must be a string or a number, not 'NoneType'")
      | Some size =>
          Return (Image.mk (SdkImage.id sdk_image)
                    (str_or (SdkImage.jasmin_type sdk_image) "UNKNOWN")
                    (SdkImage.name sdk_image)
                    (String.eqb (SdkImage.visibility sdk_image) "public")
                    nat_allowed
                    (Qmake size (1024 * 1024)))
      end
  end.

(** ScopedSession.find_image: [functools.lru_cache] keeps the images that
    were returned, and [convert_sdk_exceptions] is applied around it. *)
Definition find_image (id : string) : M Image.t :=
  convert_sdk_exceptions (fun w =>
    match image_cache w !! id with
    | Some image => (Return image, w)
    | None =>
        match (sdk_image <- get_image id;; lift (_from_sdk_image sdk_image)) w with
        | (Return image, w') =>
            (Return image, set_image_cache (<[id := image]> (image_cache w')) w')
        | r => r
        end
    end).

(** ScopedSession._tenant_network, memoized once it has returned. *)
Definition _tenant_network : M (option Network.t) :=
  fun w =>
    match network_cache w with
    | Some network => (Return network, w)
    | None =>
        match (router_ports <- list_ports (Some "network:router_interface") None None;;
               match router_ports with
               | [] => raise (Errors ImproperlyConfiguredError
                                "Could not find tenancy network")
               | port :: _ => find_network (Port.network_id port)
               end) w with
        | (Return network, w') => (Return network, set_network_cache (Some network) w')
        | r => r
        end
    end.

Definition _POWER_STATES : gmap Z string :=
  <[0 := "Unknown"]> (<[1 := "Running"]> (<[3 := "Paused"]> (<[4 := "Shut down"]>
    (<[6 := "Crashed"]> (<[7 := "Suspended"]> ∅))))).

(** The flag that the metadata of an instance carries, if any. *)
Definition nat_allowed_metadata (sdk_server : SdkServer.t) : option string :=
  match SdkServer.metadata sdk_server with
  | Some metadata => metadata !! "jasmin_nat_allowed"
  | None => None
  end.

(** [bool(int(sdk_server.metadata['jasmin_nat_allowed']))] *)
Definition nat_allowed_of_metadata (sdk_server : SdkServer.t) : result bool :=
  match SdkServer.metadata sdk_server with
  | None => Raise (TypeError "'NoneType' object is not subscriptable")
  | Some metadata =>
      match metadata !! "jasmin_nat_allowed" with
      | None => Raise (KeyError (KStr "jasmin_nat_allowed"))
      | Some v => flag_of_str v
      end
  end.

(** The first statement of [_from_sdk_server]: the flag of the metadata, and
    under [TypeError] or [KeyError] the flag of the image, or [True] when the
    image is not found. *)
Definition resolve_nat_allowed (sdk_server : SdkServer.t) : M bool :=
  try_except (lift (nat_allowed_of_metadata sdk_server))
    (fun e =>
       match e with
       | TypeError _ | KeyError _ =>
           Some (try_except
                   (image_id <- lift (dict_item (SdkServer.image sdk_server) "id");;
                    image <- find_image image_id;;
                    ret (Image.nat_allowed image))
                   (fun e' =>
                      match e' with
                      | Errors ObjectNotFoundError _ => Some (ret true)
                      | _ => None
                      end))
       | _ => None
       end).

(** [ip_of_type] of [_from_sdk_server]: the first IPv4 address of the type on
    the tenant network. *)
Definition ip_of_type (sdk_server : SdkServer.t) (network : option Network.t)
    (type : string) : result (option string) :=
  match network with
  | None => Raise (AttributeError "'NoneType' object has no attribute 'name'")
  | Some n =>
      Return (addr <$>
        List.find (fun a => (version a =? 4)%Z && String.eqb (ip_type a) type)
          (default [] (SdkServer.addresses sdk_server !! Network.name n)))
  end.

Fixpoint result_map {A B} (f : A -> result B) (l : list A) : result (list B) :=
  match l with
  | [] => Return []
  | x :: rest =>
      match f x with
      | Raise e => Raise e
      | Return y =>
          match result_map f rest with
          | Raise e => Raise e
          | Return ys => Return (y :: ys)
          end
      end
  end.

Section Machines.

(** The names of the members of [dto.Machine.Status.Type] (the module [dto]
    is not among the sources). *)
Variable Machine_Status_Type : list string.

(** [dateutil.parser.parse]; [None] stands for the [ValueError] it raises. *)
Variable dateutil_parse : string -> option datetime.

(** [getattr(dto.Machine.Status.Type, status, dto.Machine.Status.Type.OTHER)] *)
Definition status_type (status : string) : string :=
  if existsb (String.eqb status) Machine_Status_Type then status else "OTHER".

(** ScopedSession._from_sdk_server *)
Definition _from_sdk_server (sdk_server : SdkServer.t) : M Machine.t :=
  nat_allowed <- resolve_nat_allowed sdk_server;;
  let status := SdkServer.status sdk_server in
  let fault := default ∅ (SdkServer.fault sdk_server) !! "message" in
  let task := SdkServer.task_state sdk_server in
  network <- _tenant_network;;
  image_id <- lift (dict_item (SdkServer.image sdk_server) "id");;
  size_id <- lift (dict_item (SdkServer.flavor sdk_server) "id");;
  let machine_status :=
    Machine.mkStatus (status_type status) status
      (match fault with
       | Some f => if PyStr.truthy f then Some (_replace_resource_names f) else None
       | None => None
       end) in
  power_state <- lift (match _POWER_STATES !! SdkServer.power_state sdk_server with
                       | Some s => Return s
                       | None => Raise (KeyError (KInt (SdkServer.power_state sdk_server)))
                       end);;
  let task := match task with
              | Some t => if PyStr.truthy t then Some (PyStr.capitalize t) else None
              | None => None
              end in
  internal_ip <- lift (ip_of_type sdk_server network "fixed");;
  external_ip <- lift (ip_of_type sdk_server network "floating");;
  attached <- lift (result_map (fun v => dict_item v "id")
                      (SdkServer.attached_volumes sdk_server));;
  created <- lift (match dateutil_parse (SdkServer.created_at sdk_server) with
                   | Some d => Return d
                   | None => Raise (ValueError "Unknown string format")
                   end);;
  ret (Machine.mk (SdkServer.id sdk_server) (SdkServer.name sdk_server)
         image_id size_id machine_status power_state task internal_ip external_ip
         nat_allowed attached (SdkServer.user_id sdk_server) created).

(** ScopedSession.machines *)
Definition machines : M (list Machine.t) :=
  convert_sdk_exceptions (
    servers <- list_servers;;
    for_each _from_sdk_server servers).

(** ScopedSession.find_machine *)
Definition find_machine (id : string) : M Machine.t :=
  convert_sdk_exceptions (
    sdk_server <- get_server id;;
    _from_sdk_server sdk_server).

(** ScopedSession._from_sdk_floatingip *)
Definition _from_sdk_floatingip (sdk_floatingip : FloatingIP.t) : M ExternalIp.t :=
  match FloatingIP.port_id sdk_floatingip with
  | Some port_id =>
      if PyStr.truthy port_id then
        port <- find_port port_id;;
        match port with
        | Some p =>
            ret (ExternalIp.mk (FloatingIP.floating_ip_address sdk_floatingip)
                   (Some (Port.device_id p)))
        | None =>
            raise (AttributeError "'NoneType' object has no attribute 'device_id'")
        end
      else ret (ExternalIp.mk (FloatingIP.floating_ip_address sdk_floatingip) None)
  | None => ret (ExternalIp.mk (FloatingIP.floating_ip_address sdk_floatingip) None)
  end.

(** [machine if isinstance(machine, dto.Machine) else self.find_machine(machine)] *)
Definition resolve_machine (machine : Machine.t + string) : M Machine.t :=
  match machine with
  | inl m => ret m
  | inr id => find_machine id
  end.

(** [ip.external_ip if isinstance(ip, dto.ExternalIp) else ip] *)
Definition address_of (ip : ExternalIp.t + string) : string :=
  match ip with
  | inl e => ExternalIp.external_ip e
  | inr address => address
  end.

(** ScopedSession.attach_external_ip *)
Definition attach_external_ip (ip : ExternalIp.t + string)
    (machine : Machine.t + string) : M ExternalIp.t :=
  convert_sdk_exceptions (
    machine <- resolve_machine machine;;
    let ip := address_of ip in
    if negb (Machine.nat_allowed machine) then
      raise (Errors InvalidOperationError
               "Machine is not allowed to have an external IP address.")
    else
      tenant_net <- _tenant_network;;
      tenant_net_id <- lift (match tenant_net with
                             | Some n => Return (Network.id n)
                             | None => Raise (AttributeError
                                          "'NoneType' object has no attribute 'id'")
                             end);;
      machine_ports <- list_ports None (Some (Machine.id machine)) (Some tenant_net_id);;
      match machine_ports with
      | [] => raise (Errors ImproperlyConfiguredError
                       "Machine is not connected to tenancy network.")
      | port :: _ =>
          bound <- list_ips (Some (Port.id port)) None;;
          match bound with
          | current :: _ => _ <- update_ip current None;; ret tt
          | [] => ret tt
          end;;;
          matching <- list_ips None (Some ip);;
          match matching with
          | [] => raise (Errors ObjectNotFoundError
                           ("Could not find external IP '" ++ ip ++ "'"))
          | fip :: _ =>
              updated <- update_ip fip (Some (Port.id port));;
              _from_sdk_floatingip updated
          end
      end).

End Machines.

Definition _VOLUME_STATUSES : gmap string Volume.Status :=
  <["creating" := Volume.CREATING]> (
  <["available" := Volume.AVAILABLE]> (
  <["attaching" := Volume.ATTACHING]> (
  <["detaching" := Volume.DETACHING]> (
  <["in-use" := Volume.IN_USE]> (
  <["deleting" := Volume.DELETING]> (
  <["error" := Volume.ERROR]> (
  <["error_deleting" := Volume.ERROR]> (
  <["error_backing-up" := Volume.ERROR]> (
  <["error_restoring" := Volume.ERROR]> (
  <["error_extending" := Volume.ERROR]> ∅)))))))))).

(** The status of [_from_sdk_volume]:
    [_VOLUME_STATUSES.get(status.lower(), dto.Volume.Status.OTHER)] *)
Definition volume_status (status : string) : Volume.Status :=
  default Volume.OTHER (_VOLUME_STATUSES !! PyStr.lower status).

(** ScopedSession._from_sdk_volume *)
Definition _from_sdk_volume (sdk_volume : SdkVolume.t) : Volume.t :=
  let status := volume_status (SdkVolume.status sdk_volume) in
  let attachment := match SdkVolume.attachments sdk_volume with
                    | a :: _ => Some a
                    | [] => None
                    end in
  Volume.mk (SdkVolume.id sdk_volume)
    (str_or (SdkVolume.name sdk_volume) (PyStr.take 13 (SdkVolume.id sdk_volume)))
    status
    (SdkVolume.size sdk_volume)
    (server_id <$> attachment)
    (device <$> attachment).

(** ScopedSession.volumes *)
Definition volumes : M (list Volume.t) :=
  convert_sdk_exceptions (
    vs <- list_volumes;;
    ret (List.map _from_sdk_volume vs)).

(** ScopedSession.find_volume *)
Definition find_volume (id : string) : M Volume.t :=
  convert_sdk_exceptions (
    volume <- get_volume id;;
    ret (_from_sdk_volume volume)).

(** [volume if isinstance(volume, dto.Volume) else self.find_volume(volume)] *)
Definition resolve_volume (volume : Volume.t + string) : M Volume.t :=
  match volume with
  | inl v => ret v
  | inr id => find_volume id
  end.

(** [machine.id if isinstance(machine, dto.Machine) else machine] *)
Definition machine_id_of (machine : Machine.t + string) : string :=
  match machine with
  | inl m => Machine.id m
  | inr id => id
  end.

(** ScopedSession.attach_volume *)
Definition attach_volume (volume : Volume.t + string) (machine : Machine.t + string)
    : M Volume.t :=
  convert_sdk_exceptions (
    volume <- resolve_volume volume;;
    let machine := machine_id_of machine in
    if decide (Volume.machine_id volume = Some machine) then ret volume
    else if negb (Volume.Status_eqb (Volume.status volume) Volume.AVAILABLE) then
      raise (Errors InvalidOperationError "Volume must be AVAILABLE before attaching.")
    else
      create_volume_attachment machine (Volume.id volume);;;
      find_volume (Volume.id volume)).

(** ** Scanning a text for the quota phrase

    A left-to-right scan that decides ['quota exceeded' in text]: the state
    is the number of characters of the phrase matched so far, and 14 once
    the phrase has been seen.  The phrase starts with the only [q] it has,
    so after a mismatch the scan restarts at 1 on a [q] and at 0 otherwise. *)

Definition quota_phrase : string := "quota exceeded".

Fixpoint drop (n : nat) (s : string) : string :=
  match n, s with
  | S k, String _ s' => drop k s'
  | _, _ => s
  end.

Definition phrase_step (k : nat) (c : ascii) : nat :=
  if (14 <=? k)%nat then k else
  match String.get k quota_phrase with
  | Some p => if Ascii.eqb c p then S k else if Ascii.eqb c "q" then 1%nat else 0%nat
  | None => 0%nat
  end.

Fixpoint phrase_run (k : nat) (s : string) : nat :=
  match s with
  | EmptyString => k
  | String c s' => phrase_run (phrase_step k c) s'
  end.

(** ** A small cloud to run the provider on *)

Module Sample.

Definition provider : Provider.t :=
  Provider.mk "https://keystone.example/v3" "Default" "public" None true.

Definition unscoped : UnscopedSession.t :=
  UnscopedSession.mk "https://keystone.example/v3" "alice" "token-1" "public" None true.

Definition tenancy : Tenancy.t := Tenancy.mk "p1" "project-one".

Definition projects : list Project.t :=
  [ Project.mk (Some "p0") (Some "disabled-project") (Some false);
    Project.mk (Some "p1") (Some "project-one") (Some true) ].

(** An identity service that answers a token request with the given status
    and headers, and the outcome [scoping] to a scoped connection. *)
Definition keystone (status : Z) (hs : gmap string string)
    (scoping : result unit) : identity_service :=
  mkIdentityService
    (fun _ _ _ => requests.Responded (requests.mkResponse status hs tt))
    (fun _ _ _ => requests.Responded (requests.mkResponse 200 ∅ (Some projects)))
    (fun conf => match scoping with
                 | Return _ => Return conf
                 | Raise e => Raise e
                 end).

Definition token_header : gmap string string := {[ "x-subject-token" := "token-1" ]}.

Definition session : ScopedSession.t :=
  ScopedSession.mk "alice" "p1" "project-one"
    (Connection.mk "https://keystone.example/v3" "token-1" "p1" "public" true)
    None "public".

Definition image_nat : SdkImage.t :=
  SdkImage.mk "img-1" (Some "ubuntu") "public" (Some 2097152) (Some "linux") None.

Definition image_no_nat : SdkImage.t :=
  SdkImage.mk "img-2" (Some "internal") "private" (Some 1048576) None (Some "0").

Definition server (id : string) (image_id : string) (power_state : Z)
    (metadata : option (gmap string string)) : SdkServer.t :=
  SdkServer.mk id "web" {[ "id" := image_id ]} {[ "id" := "flavor-1" ]}
    "ACTIVE" None (Some "rebooting") power_state metadata
    {[ "tenant-net" := [ mkAddress "192.168.0.5" 4 "fixed";
                         mkAddress "172.16.0.9" 4 "floating" ] ]}
    [ {[ "id" := "vol-1" ]} ] "user-1" "2018-03-01T10:00:00Z".

Definition flagged (v : string) : option (gmap string string) :=
  Some {[ "jasmin_nat_allowed" := v ]}.

Definition servers : list SdkServer.t :=
  [ server "srv-1" "img-1" 1 (flagged "0");
    server "srv-2" "img-2" 4 (Some ∅);
    server "srv-3" "img-gone" 1 None;
    server "srv-4" "img-1" 5 (flagged "1");
    server "srv-5" "img-1" 1 (flagged "yes") ].

Definition ports : list Port.t :=
  [ Port.mk "port-r" "network:router_interface" "router-1" "net-1";
    Port.mk "port-1" "compute:nova" "srv-1" "net-1";
    Port.mk "port-4" "compute:nova" "srv-4" "net-1" ].

Definition floating_ips : list FloatingIP.t :=
  [ FloatingIP.mk "fip-1" "172.16.0.9" (Some "port-4");
    FloatingIP.mk "fip-2" "172.16.0.10" None ].

Definition volumes : list SdkVolume.t :=
  [ SdkVolume.mk "vol-1" (Some "data") "in-use" 10 [ mkAttachment "srv-1" "/dev/vdb" ];
    SdkVolume.mk "0123456789abcdef" None "error_managing" 5 [];
    SdkVolume.mk "vol-3" (Some "scratch") "Available" 20 [] ].

Definition documents : gmap string json :=
  {[ "https://network.example/v2.0/quotas/p1" :=
       JDict [ ("quota", JDict [ ("floatingip", JInt 5) ]) ];
     "https://volume.example/limits" :=
       JDict [ ("limits", JDict [ ("absolute", JDict [
                 ("maxTotalVolumeGigabytes", JInt 1000);
                 ("totalGigabytesUsed", JInt 35);
                 ("maxTotalVolumes", JInt 10);
                 ("totalVolumesUsed", JInt 3) ]) ]) ] ]}.

Definition the_cloud : cloud :=
  mkCloud (mkAbsoluteLimits 20 4 51200 8192 10 2)
    servers [ image_nat; image_no_nat ] ports [ Network.mk "net-1" "tenant-net" ]
    floating_ips volumes
    {[ ("network", "public") := "https://network.example";
       ("volume", "public") := "https://volume.example" ]}
    documents "/dev/vdc" (fun _ => None).

Definition the_world : world := mkWorld the_cloud ∅ None [].

Definition Machine_Status_Type : list string := [ "BUILD"; "ACTIVE"; "ERROR"; "OTHER" ].

(** A reader of time stamps that accepts one text. *)
Definition dateutil_parse (s : string) : option datetime :=
  if String.eqb s "2018-03-01T10:00:00Z"
  then Some (mkDatetime 2018 3 1 10 0 0 0 (Some 0))
  else None.

Definition machine_4 : Machine.t :=
  Machine.mk "srv-4" "web" "img-1" "flavor-1" (Machine.mkStatus "ACTIVE" "ACTIVE" None)
    "Running" None (Some "192.168.0.5") (Some "172.16.0.9") true [ "vol-1" ] "user-1"
    (mkDatetime 2018 3 1 10 0 0 0 (Some 0)).

End Sample.

(** ** Scanning a text for a word

    The scan of the quota phrase, for any word whose first character occurs
    only once in it: the state is the number of characters of the word
    matched so far, and the length of the word once it has been seen. *)

Fixpoint occurs (c : ascii) (s : string) : bool :=
  match s with
  | EmptyString => false
  | String a s' => Ascii.eqb c a || occurs c s'
  end.

Definition first_unique (word : string) : bool :=
  match word with
  | EmptyString => false
  | String q rest => negb (occurs q rest)
  end.

Definition scan_step (word : string) (k : nat) (c : ascii) : nat :=
  if (String.length word <=? k)%nat then k else
  match String.get k word with
  | Some p =>
      if Ascii.eqb c p then S k
      else match word with
           | String q _ => if Ascii.eqb c q then 1%nat else 0%nat
           | EmptyString => 0%nat
           end
  | None => 0%nat
  end.

Fixpoint scan (word : string) (k : nat) (s : string) : nat :=
  match s with
  | EmptyString => k
  | String c s' => scan word (scan_step word k c) s'
  end.

(** The exceptions of the SDK and of keystoneauth, which the wrapper names
    in its [except] clauses. *)
Definition is_backend_exception (e : exn) : bool :=
  match e with
  | ResourceNotFound _ | HttpException _ _ | HttpError _ _
  | SDKException _ | ClientException _ => true
  | _ => false
  end.

(** Whether an entry of the project list is enabled. *)
Definition is_enabled (p : Project.t) : bool :=
  match Project.enabled p with
  | Some true => true
  | _ => false
  end.

(** An identity service whose project list has an enabled entry without a
    name. *)
Definition keystone_without_name : identity_service :=
  mkIdentityService
    (fun _ _ _ => requests.ConnectionFailed)
    (fun _ _ _ => requests.Responded
       (requests.mkResponse 200 ∅
          (Some [ Project.mk (Some "p1") None (Some true) ])))
    (fun c => Return c).

(** ScopedSession.external_ips *)
Definition external_ips : M (list ExternalIp.t) :=
  convert_sdk_exceptions (
    fips <- list_ips None None;;
    for_each _from_sdk_floatingip fips).

(** ScopedSession.find_external_ip *)
Definition find_external_ip (ip : string) : M ExternalIp.t :=
  convert_sdk_exceptions (
    matching <- list_ips None (Some ip);;
    match matching with
    | [] => raise (Errors ObjectNotFoundError
                     ("Could not find external IP '" ++ ip ++ "'"))
    | fip :: _ => _from_sdk_floatingip fip
    end).

(** ScopedSession.detach_external_ip *)
Definition detach_external_ip (ip : ExternalIp.t + string) : M ExternalIp.t :=
  convert_sdk_exceptions (
    let ip := address_of ip in
    matching <- list_ips None (Some ip);;
    match matching with
    | [] => raise (Errors ObjectNotFoundError
                     ("Could not find external IP '" ++ ip ++ "'"))
    | fip :: _ =>
        updated <- update_ip fip None;;
        _from_sdk_floatingip updated
    end).

Definition set_servers (l : list SdkServer.t) (c : cloud) : cloud :=
  mkCloud (limits c) l (images c) (ports c) (networks c) (floating_ips c)
    (stored_volumes c) (endpoints c) (documents c) (attach_device c) (faults c).

(** ** More of the small cloud *)

Module Demo.

(** The cloud of [Sample] with the three servers that can be listed. *)
Definition cloud_of_three : cloud :=
  set_servers [ Sample.server "srv-1" "img-1" 1 (Sample.flagged "0");
                Sample.server "srv-2" "img-2" 4 (Some ∅);
                Sample.server "srv-3" "img-gone" 1 None ] Sample.the_cloud.

Definition world_of_three : world := mkWorld cloud_of_three ∅ None [].

(** A machine that may not have an external IP. *)
Definition machine_1 : Machine.t :=
  Machine.mk "srv-1" "web" "img-1" "flavor-1" (Machine.mkStatus "ACTIVE" "ACTIVE" None)
    "Running" None (Some "192.168.0.5") None false [ "vol-1" ] "user-1"
    (mkDatetime 2018 3 1 10 0 0 0 (Some 0)).

(** A machine without a port on the tenant network. *)
Definition machine_2 : Machine.t :=
  Machine.mk "srv-2" "web" "img-2" "flavor-1" (Machine.mkStatus "ACTIVE" "ACTIVE" None)
    "Shut down" None None None true [] "user-1"
    (mkDatetime 2018 3 1 10 0 0 0 (Some 0)).

(** The world of [Sample] once the tenant network has been looked up. *)
Definition world_with_network : world :=
  mkWorld Sample.the_cloud ∅ (Some (Some (Network.mk "net-1" "tenant-net")))
    [ network_find_network "net-1";
      network_ports (Some "network:router_interface") None None ].

End Demo.

(** ** The requests that change machines, volumes and addresses

    The operations below also list flavors and routers, and ask the
    services to create and delete resources.  A request that a
    service accepts changes the cloud as [accept] says: how a service carries
    a request out, and how soon, is not fixed here. *)

Module SdkFlavor.
Record t := mk {
  id : string;
  name : string;
  vcpus : Z;
  ram : Z;
  disk : Z;
  is_disabled : bool
}.
End SdkFlavor.

Module Size.
Record t := mk { id : string; name : string; cpus : Z; ram : Z; disk : Z }.
End Size.

Module Router.
Record t := mk { id : string; external_gateway_info : option (gmap string string) }.
End Router.

Module Keypair.
Record t := mk { name : string; public_key : string }.
End Keypair.

Inductive request :=
| compute_flavors
| compute_find_keypair (name : string)
| compute_create_keypair (name public_key : string)
| compute_create_server (name image_id flavor_id : string) (networks : list string)
    (metadata : gmap string string) (key_name : option string)
| compute_delete_server (id : string)
| network_routers
| network_create_ip (floating_network_id : string)
| block_store_delete_volume (id : string)
| compute_delete_volume_attachment (volume_id machine_id : string).

Record services := mkServices {
  flavors : list SdkFlavor.t;
  keypairs : list Keypair.t;
  routers : list Router.t;
  accept : request -> cloud -> cloud;  (* the cloud once a request is accepted *)
  new_id : request -> string;          (* the id of the resource a request creates *)
  created_ip : request -> FloatingIP.t;
  refused : request -> option exn      (* the requests that fail, and how *)
}.

(** The world of a scoped session, with the other services and the requests
    made to them so far, latest first. *)
Record xworld := mkXworld {
  base : world;
  other : services;
  requests : list request
}.

Definition set_base (w : world) (x : xworld) : xworld :=
  mkXworld w (other x) (requests x).
Definition set_other (s : services) (x : xworld) : xworld :=
  mkXworld (base x) s (requests x).
Definition record_request (q : request) (x : xworld) : xworld :=
  mkXworld (base x) (other x) (q :: requests x).

Definition add_keypair (k : Keypair.t) (s : services) : services :=
  mkServices (flavors s) (keypairs s ++ [k])%list (routers s)
    (accept s) (new_id s) (created_ip s) (refused s).

Definition Mx (A : Type) : Type := xworld -> result A * xworld.

Definition retx {A} (a : A) : Mx A := fun x => (Return a, x).
Definition raisex {A} (e : exn) : Mx A := fun x => (Raise e, x).
Definition bindx {A B} (m : Mx A) (k : A -> Mx B) : Mx B :=
  fun x =>
    match m x with
    | (Return a, x') => k a x'
    | (Raise e, x') => (Raise e, x')
    end.

Notation "x <~ m ;; k" := (bindx m (fun x => k))
  (at level 100, m at next level, right associativity).
Notation "m ~;; k" := (bindx m (fun _ => k))
  (at level 100, right associativity).

(** A computation of the first part, run on the world it knows. *)
Definition liftx {A} (m : M A) : Mx A :=
  fun x => let (r, w) := m (base x) in (r, set_base w x).

Definition try_exceptx {A} (m : Mx A) (handler : exn -> option (Mx A)) : Mx A :=
  fun x =>
    match m x with
    | (Raise e, x') =>
        match handler e with
        | Some h => h x'
        | None => (Raise e, x')
        end
    | r => r
    end.

(** The decorator [convert_sdk_exceptions] on these computations. *)
Definition convert_sdk_exceptionsx {A} (f : Mx A) : Mx A :=
  fun x => let (r, x') := f x in (convert_result r, x').

(** A request that only asks. *)
Definition ask {A} (q : request) (answer : services -> result A) : Mx A :=
  fun x =>
    let x := record_request q x in
    match refused (other x) q with
    | Some e => (Raise e, x)
    | None => (answer (other x), x)
    end.

(** A request that changes the cloud when it is accepted. *)
Definition order {A} (q : request) (answer : services -> result A) : Mx A :=
  fun x =>
    let x := record_request q x in
    match refused (other x) q with
    | Some e => (Raise e, x)
    | None =>
        (answer (other x),
         set_base (set_backend (accept (other x) q (backend (base x))) (base x)) x)
    end.

(** The name of a member of [dto.Volume.Status]. *)
Definition Status_name (s : Volume.Status) : string :=
  match s with
  | Volume.CREATING => "CREATING"
  | Volume.AVAILABLE => "AVAILABLE"
  | Volume.ATTACHING => "ATTACHING"
  | Volume.DETACHING => "DETACHING"
  | Volume.IN_USE => "IN_USE"
  | Volume.DELETING => "DELETING"
  | Volume.ERROR => "ERROR"
  | Volume.OTHER => "OTHER"
  end.

(** ScopedSession._from_sdk_flavor *)
Definition _from_sdk_flavor (sdk_flavor : SdkFlavor.t) : Size.t :=
  Size.mk (SdkFlavor.id sdk_flavor) (SdkFlavor.name sdk_flavor)
    (SdkFlavor.vcpus sdk_flavor) (SdkFlavor.ram sdk_flavor) (SdkFlavor.disk sdk_flavor).

(** ScopedSession.sizes *)
Definition sizes : Mx (list Size.t) :=
  convert_sdk_exceptionsx (
    all_flavors <~ ask compute_flavors (fun s => Return (flavors s));;
    let enabled := List.filter (fun f => negb (SdkFlavor.is_disabled f)) all_flavors in
    retx (List.map _from_sdk_flavor enabled)).

(** [try: return self.find_volume(id) except errors.ObjectNotFoundError:
    return None] *)
Definition find_volume_or_none (id : string) : Mx (option Volume.t) :=
  try_exceptx (v <~ liftx (find_volume id);; retx (Some v))
    (fun e => match e with
              | Errors ObjectNotFoundError _ => Some (retx None)
              | _ => None
              end).

(** ScopedSession.delete_volume *)
Definition delete_volume (volume : Volume.t + string) : Mx (option Volume.t) :=
  convert_sdk_exceptionsx (
    volume <~ liftx (resolve_volume volume);;
    if negb (Volume.Status_eqb (Volume.status volume) Volume.AVAILABLE ||
             Volume.Status_eqb (Volume.status volume) Volume.ERROR) then
      raisex (Errors InvalidOperationError
                ("Cannot delete volume with status " ++
                 Status_name (Volume.status volume) ++ "."))
    else
      order (block_store_delete_volume (Volume.id volume)) (fun _ => Return tt) ~;;
      find_volume_or_none (Volume.id volume)).

(** ScopedSession.detach_volume *)
Definition detach_volume (volume : Volume.t + string) : Mx Volume.t :=
  convert_sdk_exceptionsx (
    volume <~ liftx (resolve_volume volume);;
    match Volume.machine_id volume with
    | Some machine_id =>
        if PyStr.truthy machine_id then
          order (compute_delete_volume_attachment (Volume.id volume) machine_id)
            (fun _ => Return tt) ~;;
          liftx (find_volume (Volume.id volume))
        else retx volume
    | None => retx volume
    end).

(** ScopedSession.allocate_external_ip *)
Definition allocate_external_ip : Mx ExternalIp.t :=
  convert_sdk_exceptionsx (
    all_routers <~ ask network_routers (fun s => Return (routers s));;
    match all_routers with
    | [] => raisex (Errors ImproperlyConfiguredError "Could not find tenancy router.")
    | router :: _ =>
        extnet <~ (fun x =>
                     (match Router.external_gateway_info router with
                      | Some info => dict_item info "network_id"
                      | None => Raise (TypeError "'NoneType' object is not subscriptable")
                      end, x));;
        fip <~ order (network_create_ip extnet)
                 (fun s => Return (created_ip s (network_create_ip extnet)));;
        liftx (_from_sdk_floatingip fip)
    end).

(** [self.connection.compute.find_keypair(name, False)] *)
Definition find_keypair (name : string) : Mx Keypair.t :=
  ask (compute_find_keypair name) (fun s =>
    match List.find (fun k => String.eqb (Keypair.name k) name) (keypairs s) with
    | Some k => Return k
    | None => not_found "Keypair" name
    end).

(** [self.connection.compute.create_keypair(name = ..., public_key = ...)] *)
Definition create_keypair (name public_key : string) : Mx Keypair.t :=
  fun x =>
    let x := record_request (compute_create_keypair name public_key) x in
    match refused (other x) (compute_create_keypair name public_key) with
    | Some e => (Raise e, x)
    | None =>
        let k := Keypair.mk name public_key in
        (Return k, set_other (add_keypair k (other x)) x)
    end.

Section MachineOperations.

Variable Machine_Status_Type : list string.
Variable dateutil_parse : string -> option datetime.

(** [hashlib.md5(base64.b64decode(ssh_key.split()[1])).hexdigest()]: the
    digest of the second field of a public key, or the exception of a key
    that has no second field or does not decode. *)
Variable fingerprint : string -> result string.

(** ScopedSession._get_or_create_keypair *)
Definition _get_or_create_keypair (self : ScopedSession.t) (ssh_key : string)
    : Mx Keypair.t :=
  digest <~ (fun x => (fingerprint ssh_key, x));;
  let key_name := ScopedSession.username self ++ "-" ++ digest in
  try_exceptx (find_keypair key_name)
    (fun e => match e with
              | ResourceNotFound _ => Some (create_keypair key_name ssh_key)
              | _ => None
              end).

(** ScopedSession.create_machine *)
Definition create_machine (self : ScopedSession.t) (name : string)
    (image : Image.t + string) (size : Size.t + string) (ssh_key : option string)
    : Mx Machine.t :=
  convert_sdk_exceptionsx (
    image <~ try_exceptx
               (match image with
                | inl i => retx i
                | inr id => liftx (find_image id)
                end)
               (fun e => match e with
                         | Errors ObjectNotFoundError _ =>
                             Some (raisex (Errors BadInputError "Invalid image provided"))
                         | _ => None
                         end);;
    let size := match size with inl s => Size.id s | inr id => id end in
    tenant_net <~ liftx _tenant_network;;
    tenant_net_id <~ (fun x =>
                        (match tenant_net with
                         | Some n => Return (Network.id n)
                         | None => Raise (AttributeError
                                      "'NoneType' object has no attribute 'id'")
                         end, x));;
    networks <~ match ScopedSession.secondary_network_id self with
                | Some secondary =>
                    if PyStr.truthy secondary then
                      found <~ liftx (find_network secondary);;
                      retx (match found with
                            | Some _ => [tenant_net_id; secondary]
                            | None => [tenant_net_id]
                            end)
                    else retx [tenant_net_id]
                | None => retx [tenant_net_id]
                end;;
    keypair <~ match ssh_key with
               | Some k =>
                   if PyStr.truthy k then
                     keypair <~ _get_or_create_keypair self k;; retx (Some keypair)
                   else retx None
               | None => retx None
               end;;
    let metadata : gmap string string :=
      <[ "jasmin_nat_allowed" := if Image.nat_allowed image then "1" else "0" ]>
      (<[ "jasmin_type" := Image.vm_type image ]>
      (<[ "jasmin_organisation" := ScopedSession.tenancy_name self ]> ∅)) in
    let create := compute_create_server name (Image.id image) size networks metadata
                    (Keypair.name <$> keypair) in
    server_id <~ order create (fun s => Return (new_id s create));;
    liftx (find_machine Machine_Status_Type dateutil_parse server_id)).

(** ScopedSession.delete_machine *)
Definition delete_machine (machine : Machine.t + string) : Mx (option Machine.t) :=
  convert_sdk_exceptionsx (
    let machine := machine_id_of machine in
    order (compute_delete_server machine) (fun _ => Return tt) ~;;
    try_exceptx (m <~ liftx (find_machine Machine_Status_Type dateutil_parse machine);;
                 retx (Some m))
      (fun e => match e with
                | Errors ObjectNotFoundError _ => Some (retx None)
                | _ => None
                end)).

End MachineOperations.

(** ** The form authenticators of [azimuth_auth] *)

Module FormAuthenticator.

(** What [authenticate] raises: [requests.exceptions.HTTPError] from
    [raise_for_status], or another exception. *)
Inductive raised :=
| HTTPError (status_code : Z)
| Other (e : exn).

Inductive answer (A : Type) :=
| Returned (a : A)
| Raised (r : raised).
Arguments Returned {A} a.
Arguments Raised {A} r.

(** The identity of a token request: the method and its fields. *)
Inductive identity :=
| password (domain name password : string)
| application_credential (id secret : string).

Inductive authenticator :=
| PasswordAuthenticator (auth_url domain : string) (verify_ssl : bool)
| ApplicationCredentialAuthenticator (auth_url : string) (verify_ssl : bool).

(** [str.rstrip('/')] *)
Definition strip_slash_rev (s : list ascii) : list ascii :=
  List.fold_right (fun c acc =>
     match acc with
     | [] => if Ascii.eqb c "/" then [] else [c]
     | _ => c :: acc
     end) [] s.

Definition rstrip_slash (s : string) : string :=
  string_of_list_ascii (strip_slash_rev (list_ascii_of_string s)).

(** [self.auth_url], set by [__init__] *)
Definition auth_url (self : authenticator) : string :=
  match self with
  | PasswordAuthenticator url _ _ => rstrip_slash url
  | ApplicationCredentialAuthenticator url _ => rstrip_slash url
  end.

(** [self.token_url] *)
Definition token_url (self : authenticator) : string :=
  auth_url self ++ "/auth/tokens".

Definition form_item (form_data : gmap string string) (k : string) : answer string :=
  match form_data !! k with
  | Some v => Returned v
  | None => Raised (Other (KeyError (KStr k)))
  end.

(** PasswordAuthenticator.get_identity and
    ApplicationCredentialAuthenticator.get_identity *)
Definition get_identity (self : authenticator) (form_data : gmap string string)
    : answer identity :=
  match self with
  | PasswordAuthenticator _ domain _ =>
      match form_item form_data "username" with
      | Raised r => Raised r
      | Returned name =>
          match form_item form_data "password" with
          | Raised r => Raised r
          | Returned pass => Returned (password domain name pass)
          end
      end
  | ApplicationCredentialAuthenticator _ _ =>
      match form_item form_data "application_credential_id" with
      | Raised r => Raised r
      | Returned id =>
          match form_item form_data "application_credential_secret" with
          | Raised r => Raised r
          | Returned secret => Returned (application_credential id secret)
          end
      end
  end.

(** OpenStackFormAuthenticator.authenticate, over the [requests.post] of the
    token request. *)
Definition authenticate (post : string -> identity -> requests.outcome unit)
    (self : authenticator) (form_data : gmap string string)
    : answer (option string) :=
  match get_identity self form_data with
  | Raised r => Raised r
  | Returned id =>
      match post (token_url self) id with
      | requests.ConnectionFailed => Raised (Other RequestsConnectionError)
      | requests.Responded response =>
          if (requests.status_code response =? 201)%Z then
            match requests.header response "X-Subject-Token" with
            | Some token => Returned (Some token)
            | None => Raised (Other (KeyError (KStr "X-Subject-Token")))
            end
          else if ((requests.status_code response =? 401) ||
                   (requests.status_code response =? 404))%Z then
            Returned None
          else if requests.raise_for_status response then
            Raised (HTTPError (requests.status_code response))
          else Returned None
      end
  end.

End FormAuthenticator.

(** A compute service keeps the metadata of a request to create a server:
    the server that is then found under the id of the created server
    carries the metadata of the request. *)
Definition keeps_metadata (s : services) : Prop :=
  forall name image_id flavor_id networks metadata key_name c sdk_server,
    List.find
      (fun v => String.eqb (SdkServer.id v)
         (new_id s (compute_create_server name image_id flavor_id networks
                      metadata key_name)))
      (servers (accept s (compute_create_server name image_id flavor_id networks
                            metadata key_name) c)) = Some sdk_server ->
    SdkServer.metadata sdk_server = Some metadata.

(** ** Services for the small cloud *)

Module Site.

Definition flavors : list SdkFlavor.t :=
  [ SdkFlavor.mk "flavor-1" "small" 1 1024 10 false;
    SdkFlavor.mk "flavor-0" "retired" 2 2048 20 true;
    SdkFlavor.mk "flavor-2" "large" 4 8192 40 false ].

Definition routers : list Router.t :=
  [ Router.mk "router-1" (Some {[ "network_id" := "ext-net" ]});
    Router.mk "router-2" (Some {[ "network_id" := "other-net" ]}) ].

(** Servers and volumes are created and deleted at once. *)
Definition accept (q : request) (c : cloud) : cloud :=
  match q with
  | compute_create_server name image_id flavor_id _ metadata _ =>
      set_servers
        (SdkServer.mk "srv-9" name {[ "id" := image_id ]} {[ "id" := flavor_id ]}
           "BUILD" None (Some "scheduling") 0 (Some metadata) ∅ [] "user-1"
           "2018-03-01T10:00:00Z" :: servers c) c
  | compute_delete_server id =>
      set_servers
        (List.filter (fun s => negb (String.eqb (SdkServer.id s) id)) (servers c)) c
  | block_store_delete_volume id =>
      set_volumes
        (List.filter (fun v => negb (String.eqb (SdkVolume.id v) id))
           (stored_volumes c)) c
  | _ => c
  end.

Definition the_services : services :=
  mkServices flavors [] routers accept (fun _ => "srv-9")
    (fun _ => FloatingIP.mk "fip-9" "172.16.0.99" None) (fun _ => None).

Definition the_world : xworld := mkXworld Sample.the_world the_services [].

(** A digest for every key. *)
Definition fingerprint (ssh_key : string) : result string :=
  Return "0cc175b9c0f1b6a831c399e269772661".

(** A token service that answers every request with the given status. *)
Definition post (status : Z) (url : string) (id : FormAuthenticator.identity)
    : requests.outcome unit :=
  requests.Responded
    (requests.mkResponse status {[ "x-subject-token" := "token-1" ]} tt).

Definition form_data : gmap string string :=
  <[ "username" := "alice" ]> (<[ "password" := "secret" ]> ∅).

End Site.

(** * Properties *)

(** ** The model at work *)

Example replace_resource_names_example :
  _replace_resource_names "flavorRef flavor Flavor Instance instance instances" =
  "size size Size Machine machine machines".
Proof. vm_compute. reflexivity. Qed.

Example py_int_examples :
  py_int " -12_3 " = Some (-123) /\ py_int "007" = Some 7 /\ py_int "+7" = Some 7 /\
  py_int "1.5" = None /\ py_int "" = None /\ py_int "1__2" = None /\
  py_int "- 1" = None /\ py_int "yes" = None.
Proof. vm_compute. repeat split; reflexivity. Qed.

Example convert_exception_examples :
  convert_exception (HttpException 409 "Cannot delete instance while flavor is locked") =
    Errors InvalidOperationError "Cannot delete machine while size is locked" /\
  convert_exception (HttpError 403 "QUOTA EXCEEDED for floating ips") =
    Errors QuotaExceededError quota_message /\
  convert_exception (ResourceNotFound "404 Not Found: Instance abc could not be found.") =
    Errors ObjectNotFoundError "Machine abc could not be found." /\
  convert_exception (KeyError (KInt 5)) = KeyError (KInt 5).
Proof. vm_compute. repeat split; reflexivity. Qed.

Example find_machine_example :
  fst (find_machine Sample.Machine_Status_Type Sample.dateutil_parse "srv-1"
         Sample.the_world) =
  Return (Machine.mk "srv-1" "web" "img-1" "flavor-1"
            (Machine.mkStatus "ACTIVE" "ACTIVE" None) "Running" (Some "Rebooting")
            (Some "192.168.0.5") (Some "172.16.0.9") false [ "vol-1" ] "user-1"
            (mkDatetime 2018 3 1 10 0 0 0 (Some 0))).
Proof. vm_compute. reflexivity. Qed.

Example volumes_example :
  fst (volumes Sample.the_world) =
  Return [ Volume.mk "vol-1" "data" Volume.IN_USE 10 (Some "srv-1") (Some "/dev/vdb");
           Volume.mk "0123456789abcdef" "0123456789abc" Volume.OTHER 5 None None;
           Volume.mk "vol-3" "scratch" Volume.AVAILABLE 20 None None ].
Proof. vm_compute. reflexivity. Qed.

Example attach_volume_example :
  let r := attach_volume (inr "vol-3") (inr "srv-2") Sample.the_world in
  fst r = Return (Volume.mk "vol-3" "scratch" Volume.IN_USE 20 (Some "srv-2")
                    (Some "/dev/vdc")) /\
  calls (snd r) = [ block_store_get_volume "vol-3";
                    compute_create_volume_attachment "srv-2" "vol-3";
                    block_store_get_volume "vol-3" ].
Proof. vm_compute. split; reflexivity. Qed.

(** ** Strings *)

Lemma startswith_cons a p b s :
  PyStr.startswith (String a p) (String b s) = Ascii.eqb a b && PyStr.startswith p s.
Proof. simpl. destruct (Ascii.eqb a b); reflexivity. Qed.

Lemma contains_cons n c h :
  PyStr.contains n (String c h) = PyStr.startswith n (String c h) || PyStr.contains n h.
Proof. reflexivity. Qed.

Lemma contains_startswith n h : PyStr.startswith n h = true -> PyStr.contains n h = true.
Proof. destruct h; simpl; intros ->; reflexivity. Qed.

Lemma startswith_nil s : PyStr.startswith "" s = true.
Proof. destruct s; reflexivity. Qed.

Lemma contains_absorb n h :
  PyStr.startswith n h || PyStr.contains n h = PyStr.contains n h.
Proof.
  destruct (PyStr.startswith n h) eqn:E; [|reflexivity].
  symmetry. apply contains_startswith, E.
Qed.

Lemma phrase_run_absorb t : phrase_run 14 t = 14%nat.
Proof. induction t as [|c t IH]; [reflexivity|exact IH]. Qed.

Ltac eval_ascii_eqb :=
  repeat match goal with
  | |- context [Ascii.eqb ?a ?b] =>
      let v := eval vm_compute in (Ascii.eqb a b) in
      match v with
      | true => change (Ascii.eqb a b) with true
      | false => change (Ascii.eqb a b) with false
      end
  end.

Ltac split_on_char c :=
  repeat match goal with
  | |- context [Ascii.eqb c ?x] => destruct (Ascii.eqb_spec c x) as [->|?]
  end.

Lemma phrase_run_correct t : forall k, (k <= 14)%nat ->
  Nat.eqb (phrase_run k t) 14 =
  Nat.eqb k 14 || PyStr.startswith (drop k quota_phrase) t || PyStr.contains quota_phrase t.
Proof.
  induction t as [|c t IH]; intros k Hk.
  - do 15 (destruct k as [|k]; [vm_compute; reflexivity|]). lia.
  - do 14 (destruct k as [|k];
      [ change (phrase_run ?n (String c t)) with (phrase_run (phrase_step n c) t);
        rewrite contains_cons; unfold phrase_step, quota_phrase;
        cbn [drop Nat.leb String.get];
        rewrite !startswith_cons;
        rewrite ?(Ascii.eqb_sym _ c);
        split_on_char c; try congruence;
        rewrite ?phrase_run_absorb;
        rewrite ?IH by lia;
        unfold quota_phrase;
        cbn [Nat.eqb drop orb andb];
        eval_ascii_eqb; cbn [orb andb];
        rewrite ?startswith_nil, ?contains_absorb, ?orb_false_r;
        repeat match goal with
        | |- context [PyStr.startswith ?p t] => destruct (PyStr.startswith p t)
        end;
        reflexivity
      |]).
    destruct k as [|k]; [|lia].
    change (phrase_run 14 (String c t)) with (phrase_run 14 t).
    rewrite phrase_run_absorb. reflexivity.
Qed.

Lemma append_cons c a b : String c a ++ b = String c (a ++ b).
Proof. reflexivity. Qed.

Lemma lower_app a b : PyStr.lower (a ++ b) = PyStr.lower a ++ PyStr.lower b.
Proof.
  induction a as [|c a IH]; [reflexivity|].
  rewrite append_cons. cbn [PyStr.lower]. now rewrite append_cons, IH.
Qed.

Lemma phrase_run_app a : forall k b,
  phrase_run k (a ++ b) = phrase_run (phrase_run k a) b.
Proof.
  induction a as [|c a IH]; intros k b; [reflexivity|].
  rewrite append_cons. cbn [phrase_run]. apply IH.
Qed.

Lemma phrase_run_ge t : forall k, (14 <= k)%nat -> phrase_run k t = k.
Proof.
  induction t as [|c t IH]; intros k Hk; simpl; [reflexivity|].
  unfold phrase_step. destruct (Nat.leb_spec 14 k); [apply IH; assumption|lia].
Qed.

Lemma drop_length n : forall s, (String.length (drop n s) <= String.length s)%nat.
Proof.
  induction n as [|n IH]; intros [|c s]; simpl; try lia.
  specialize (IH s). lia.
Qed.

Lemma replace_from_skip old new s : forall skip,
  PyStr.replace_from old new s skip = PyStr.replace_from old new (drop skip s) 0.
Proof.
  induction s as [|c s IH]; intros [|k]; try reflexivity.
  simpl. apply IH.
Qed.

Lemma startswith_split old : forall s,
  PyStr.startswith old s = true -> s = old ++ drop (String.length old) s.
Proof.
  induction old as [|a old IH]; intros s H; [reflexivity|].
  destruct s as [|b s]; [discriminate|].
  rewrite startswith_cons in H. apply andb_true_iff in H as [Hab Hs].
  apply Ascii.eqb_eq in Hab. subst b.
  rewrite append_cons. cbn [String.length drop]. f_equal. apply IH, Hs.
Qed.

Lemma replace_hit old new c s :
  PyStr.startswith old (String c s) = true ->
  PyStr.replace old new (String c s) =
  new ++ PyStr.replace old new (drop (String.length old - 1) s).
Proof.
  intros H. unfold PyStr.replace at 1.
  cbn [PyStr.replace_from]. rewrite H. f_equal. apply replace_from_skip.
Qed.

Lemma replace_miss old new c s :
  PyStr.startswith old (String c s) = false ->
  PyStr.replace old new (String c s) = String c (PyStr.replace old new s).
Proof.
  intros H. unfold PyStr.replace at 1.
  cbn [PyStr.replace_from]. rewrite H. reflexivity.
Qed.

(** Replacing a word by another one that drives the scanner to the same
    state leaves the outcome of the scan unchanged. *)
Lemma phrase_run_replace old new :
  old <> "" ->
  (forall k, phrase_run k (PyStr.lower old) = phrase_run k (PyStr.lower new)) ->
  forall n s, (String.length s <= n)%nat ->
  forall k, phrase_run k (PyStr.lower (PyStr.replace old new s)) =
            phrase_run k (PyStr.lower s).
Proof.
  intros Hold Hsame. induction n as [|n IH]; intros s Hlen k.
  - destruct s; [reflexivity|simpl in Hlen; lia].
  - destruct s as [|c s]; [reflexivity|].
    destruct (PyStr.startswith old (String c s)) eqn:Hsw.
    + rewrite replace_hit by assumption.
      rewrite (startswith_split _ _ Hsw) at 1.
      assert (Hdrop : drop (String.length old) (String c s) =
                      drop (String.length old - 1) s).
      { destruct old as [|a old]; [congruence|]. simpl. now rewrite Nat.sub_0_r. }
      rewrite Hdrop, !lower_app, !phrase_run_app, Hsame.
      apply IH. pose proof (drop_length (String.length old - 1) s).
      simpl in Hlen. lia.
    + rewrite replace_miss by assumption. simpl. apply IH. simpl in Hlen. lia.
Qed.

Lemma contains_phrase_run t :
  PyStr.contains quota_phrase t = Nat.eqb (phrase_run 0 t) 14.
Proof.
  rewrite (phrase_run_correct t 0) by lia. cbn [Nat.eqb drop orb].
  symmetry. apply contains_absorb.
Qed.

Ltac same_state :=
  let k := fresh "k" in
  intros k;
  do 14 (destruct k as [|k]; [vm_compute; reflexivity|]);
  rewrite !phrase_run_ge by lia; reflexivity.

Lemma replacements_same_state old new :
  In (old, new) _REPLACEMENTS ->
  old <> "" /\
  forall k, phrase_run k (PyStr.lower old) = phrase_run k (PyStr.lower new).
Proof.
  unfold _REPLACEMENTS.
  intros [H|[H|[H|[H|[H|[]]]]]]; injection H as <- <-;
    (split; [discriminate|same_state]).
Qed.

Lemma contains_phrase_replace old new s :
  In (old, new) _REPLACEMENTS ->
  PyStr.contains quota_phrase (PyStr.lower (PyStr.replace old new s)) =
  PyStr.contains quota_phrase (PyStr.lower s).
Proof.
  intros Hin. destruct (replacements_same_state _ _ Hin) as [Hne Hsame].
  rewrite !contains_phrase_run.
  now rewrite (phrase_run_replace old new Hne Hsame (String.length s) s).
Qed.

Lemma quota_phrase_preserved (message : string) :
  PyStr.contains "quota exceeded" (PyStr.lower (_replace_resource_names message)) =
  PyStr.contains "quota exceeded" (PyStr.lower message).
Proof.
  change "quota exceeded" with quota_phrase.
  unfold _replace_resource_names.
  assert (H : forall l, (forall p, In p l -> In p _REPLACEMENTS) -> forall m,
    PyStr.contains quota_phrase
      (PyStr.lower (fold_left (fun a x => PyStr.replace (fst x) (snd x) a) l m)) =
    PyStr.contains quota_phrase (PyStr.lower m)).
  { induction l as [|[old new] l IH]; intros Hl m; [reflexivity|].
    simpl. rewrite IH by (intros p Hp; apply Hl; now right).
    apply contains_phrase_replace, Hl. now left. }
  apply H. auto.
Qed.

Lemma translate_403 (message : string) :
  translate_status 403 message =
    if PyStr.contains "quota exceeded" (PyStr.lower message)
    then Errors QuotaExceededError quota_message
    else Errors PermissionDeniedError "Permission denied".
Proof. reflexivity. Qed.

Lemma translate_409 (message : string) :
  translate_status 409 message =
    if PyStr.contains "quota exceeded" (PyStr.lower message)
    then Errors QuotaExceededError quota_message
    else Errors InvalidOperationError message.
Proof. reflexivity. Qed.

(** ** The error translator *)

(** C1.  A failed response with status 409 is translated to
    [QuotaExceededError] when its text contains "quota exceeded" in any case
    and to [InvalidOperationError] otherwise; one with status 403 is
    translated to [QuotaExceededError] when its text contains the phrase and
    to [PermissionDeniedError] otherwise.  The text is the one the response
    carried: rewriting the resource names does not change the test. *)
Theorem convert_quota_exceeded (e : exn) (status_code : Z) (text : string) :
  response_of e = Some (status_code, text) ->
  exists message,
    status_and_message e = Some (status_code, message) /\
    (status_code = 409 ->
     PyStr.contains "quota exceeded" (PyStr.lower text) = true ->
     convert_exception e = Errors QuotaExceededError quota_message) /\
    (status_code = 409 ->
     PyStr.contains "quota exceeded" (PyStr.lower text) = false ->
     convert_exception e = Errors InvalidOperationError message) /\
    (status_code = 403 ->
     PyStr.contains "quota exceeded" (PyStr.lower text) = true ->
     convert_exception e = Errors QuotaExceededError quota_message) /\
    (status_code = 403 ->
     PyStr.contains "quota exceeded" (PyStr.lower text) = false ->
     convert_exception e = Errors PermissionDeniedError "Permission denied").
Proof.
  intros Hresp.
  destruct e; try discriminate; injection Hresp as <- <-;
    eexists; (split; [reflexivity|]);
    cbn [convert_exception status_and_message];
    rewrite ?quota_phrase_preserved;
    repeat split; intros -> Hphrase;
    rewrite ?translate_403, ?translate_409, ?quota_phrase_preserved, Hphrase;
    reflexivity.
Qed.

Lemma convert_quota_exceeded_witness :
  response_of (HttpException 409 "Quota exceeded for instances") =
    Some (409, "Quota exceeded for instances") /\
  PyStr.contains "quota exceeded" (PyStr.lower "Quota exceeded for instances") = true /\
  convert_exception (HttpException 409 "Quota exceeded for instances") =
    Errors QuotaExceededError quota_message.
Proof.
  split; [reflexivity|]. split; [vm_compute; reflexivity|].
  destruct (convert_quota_exceeded (HttpException 409 "Quota exceeded for instances")
              409 "Quota exceeded for instances" eq_refl) as (m & _ & H & _).
  apply H; [reflexivity|vm_compute; reflexivity].
Defined.

(** ** Authentication and scoping *)

(** C5, as stated, fails: a response with status 404 to the token request
    is reported as [CommunicationError], not as [AuthenticationError]. *)
Lemma authenticate_not_found_counterexample :
  ~ (forall (ks : identity_service) (self : Provider.t) (username password : string)
            (res : requests.Response unit),
       post_tokens ks (Provider.auth_url self ++ "/auth/tokens")
         (mkIdentity username (Provider.domain self) password)
         (Provider.verify_ssl self) = requests.Responded res ->
       requests.status_code res = 401 \/ requests.status_code res = 404 ->
       exists message,
         authenticate ks self username password =
           Raise (Errors AuthenticationError message)).
Proof.
  intros H.
  destruct (H (Sample.keystone 404 Sample.token_header (Return tt)) Sample.provider
              "alice" "secret" (requests.mkResponse 404 Sample.token_header tt)
              eq_refl (or_intror eq_refl)) as [message Hm].
  vm_compute in Hm. discriminate Hm.
Qed.

(** C5, amended.  When the identity service answers the token request:
    status 401 raises [AuthenticationError]; any other error status, 404
    included, raises [CommunicationError]; a response that is not an error
    and lacks the token header raises [CommunicationError]; otherwise the
    call returns an unscoped session that holds the token of the header. *)
Theorem authenticate_outcome (ks : identity_service) (self : Provider.t)
    (username password : string) (res : requests.Response unit) :
  post_tokens ks (Provider.auth_url self ++ "/auth/tokens")
    (mkIdentity username (Provider.domain self) password)
    (Provider.verify_ssl self) = requests.Responded res ->
  (requests.status_code res = 401 ->
   authenticate ks self username password =
     Raise (Errors AuthenticationError "Invalid username or password")) /\
  (requests.raise_for_status res = true -> requests.status_code res <> 401 ->
   authenticate ks self username password =
     Raise (Errors CommunicationError "Unexpected response from OpenStack")) /\
  (requests.raise_for_status res = false ->
   requests.header res "X-Subject-Token" = None ->
   authenticate ks self username password =
     Raise (Errors CommunicationError "Unable to extract token from response")) /\
  (requests.raise_for_status res = false ->
   forall token, requests.header res "X-Subject-Token" = Some token ->
   authenticate ks self username password =
     Return (UnscopedSession.mk (Provider.auth_url self) username token
               (Provider.interface self) (Provider.secondary_network_id self)
               (Provider.verify_ssl self))).
Proof.
  intros Hpost. unfold authenticate. rewrite Hpost.
  repeat split.
  - intros H401. unfold requests.raise_for_status. rewrite H401. reflexivity.
  - intros Herr Hne. rewrite Herr.
    destruct (Z.eqb_spec (requests.status_code res) 401); [contradiction|reflexivity].
  - intros Hok Hhead. rewrite Hok, Hhead. reflexivity.
  - intros Hok token Hhead. rewrite Hok, Hhead. reflexivity.
Qed.

Lemma authenticate_outcome_witness :
  authenticate (Sample.keystone 201 Sample.token_header (Return tt)) Sample.provider
    "alice" "secret" =
  Return (UnscopedSession.mk "https://keystone.example/v3" "alice" "token-1"
            "public" None true).
Proof.
  destruct (authenticate_outcome
              (Sample.keystone 201 Sample.token_header (Return tt)) Sample.provider
              "alice" "secret" (requests.mkResponse 201 Sample.token_header tt)
              eq_refl) as (_ & _ & _ & H).
  exact (H eq_refl "token-1" eq_refl).
Defined.

(** A connection error of the token request is raised by [requests.post],
    outside the [try] whose handler names it, and leaves [authenticate]
    as it is. *)
Lemma authenticate_connection_error (ks : identity_service) (self : Provider.t)
    (username password : string) :
  post_tokens ks (Provider.auth_url self ++ "/auth/tokens")
    (mkIdentity username (Provider.domain self) password)
    (Provider.verify_ssl self) = requests.ConnectionFailed ->
  authenticate ks self username password = Raise RequestsConnectionError.
Proof. intros H. unfold authenticate. rewrite H. reflexivity. Qed.

(** C2, as stated, fails: a scoping failure with a status other than 401 and
    403 does not leave [scoped_session] unchanged, the wrapper translates
    it. *)
Lemma scoped_session_unchanged_counterexample :
  ~ (forall (ks : identity_service) (self : UnscopedSession.t)
            (tenancy : Tenancy.t + string) (t : Tenancy.t)
            (status_code : Z) (details : string),
       resolve_tenancy ks self tenancy = Return t ->
       from_config ks (cloud_config self t) = Raise (HttpException status_code details) ->
       (status_code = 401 \/ status_code = 403 ->
        exists message,
          scoped_session ks self tenancy = Raise (Errors ObjectNotFoundError message)) /\
       (status_code <> 401 -> status_code <> 403 ->
        scoped_session ks self tenancy = Raise (HttpException status_code details))).
Proof.
  intros H.
  destruct (H (Sample.keystone 201 Sample.token_header (Raise (HttpException 500 "boom")))
              Sample.unscoped (inl Sample.tenancy) Sample.tenancy 500 "boom"
              eq_refl eq_refl) as [_ Hother].
  specialize (Hother ltac:(discriminate) ltac:(discriminate)).
  vm_compute in Hother. discriminate Hother.
Qed.

(** C2, amended.  When building the scoped connection fails with an SDK
    [HttpException]: a status of 401 or 403 makes [scoped_session] raise
    [ObjectNotFoundError] (so neither [AuthenticationError] nor
    [PermissionDeniedError]); with any other status the exception is raised
    again and the wrapper of [scoped_session] translates it like every other
    SDK exception. *)
Theorem scoped_session_scoping_failure (ks : identity_service)
    (self : UnscopedSession.t) (tenancy : Tenancy.t + string) (t : Tenancy.t)
    (status_code : Z) (details : string) :
  resolve_tenancy ks self tenancy = Return t ->
  from_config ks (cloud_config self t) = Raise (HttpException status_code details) ->
  (status_code = 401 \/ status_code = 403 ->
   scoped_session ks self tenancy =
     Raise (Errors ObjectNotFoundError
              ("Could not find tenancy with ID " ++ Tenancy.id t))) /\
  (status_code <> 401 -> status_code <> 403 ->
   scoped_session_body ks self tenancy = Raise (HttpException status_code details) /\
   scoped_session ks self tenancy =
     Raise (convert_exception (HttpException status_code details))).
Proof.
  intros Hres Hconf. unfold scoped_session, scoped_session_body.
  rewrite Hres, Hconf. split.
  - intros [-> | ->]; reflexivity.
  - intros H401 H403.
    destruct (Z.eqb_spec status_code 401); [contradiction|].
    destruct (Z.eqb_spec status_code 403); [contradiction|].
    split; reflexivity.
Qed.

Lemma scoped_session_scoping_failure_witness :
  scoped_session
    (Sample.keystone 201 Sample.token_header (Raise (HttpException 403 "Forbidden")))
    Sample.unscoped (inr "p1") =
  Raise (Errors ObjectNotFoundError "Could not find tenancy with ID p1").
Proof.
  apply (proj1 (scoped_session_scoping_failure
                  (Sample.keystone 201 Sample.token_header
                     (Raise (HttpException 403 "Forbidden")))
                  Sample.unscoped (inr "p1") Sample.tenancy 403 "Forbidden"
                  eq_refl eq_refl)).
  right. reflexivity.
Defined.

(** A failure of the raw session (a keystoneauth [HttpError]) while scoping
    is not caught by the handler of [scoped_session]; the wrapper reports
    its status as for any other call. *)
Lemma scoped_session_raw_session_failure (ks : identity_service)
    (self : UnscopedSession.t) (tenancy : Tenancy.t + string) (t : Tenancy.t)
    (message : string) :
  resolve_tenancy ks self tenancy = Return t ->
  from_config ks (cloud_config self t) = Raise (HttpError 401 message) ->
  scoped_session ks self tenancy =
    Raise (Errors AuthenticationError "Your session has expired").
Proof.
  intros Hres Hconf. unfold scoped_session, scoped_session_body.
  rewrite Hres, Hconf. reflexivity.
Qed.

(** ** Volume statuses *)

Lemma lookup_volume_status (s : string) :
  _VOLUME_STATUSES !! s =
    if decide (s = "creating") then Some Volume.CREATING
    else if decide (s = "available") then Some Volume.AVAILABLE
    else if decide (s = "attaching") then Some Volume.ATTACHING
    else if decide (s = "detaching") then Some Volume.DETACHING
    else if decide (s = "in-use") then Some Volume.IN_USE
    else if decide (s = "deleting") then Some Volume.DELETING
    else if decide (s = "error") then Some Volume.ERROR
    else if decide (s = "error_deleting") then Some Volume.ERROR
    else if decide (s = "error_backing-up") then Some Volume.ERROR
    else if decide (s = "error_restoring") then Some Volume.ERROR
    else if decide (s = "error_extending") then Some Volume.ERROR
    else None.
Proof.
  unfold _VOLUME_STATUSES.
  repeat (rewrite lookup_insert; case_decide; [subst; reflexivity|];
          rewrite decide_False by congruence).
  apply lookup_empty.
Qed.

(** C4, as stated, fails: a status that begins with "error_" and is not in
    the table is mapped to [OTHER], not to [ERROR]. *)
Lemma volume_status_error_prefix_counterexample :
  ~ (forall status : string,
       PyStr.startswith "error_" status = true ->
       volume_status status = Volume.ERROR).
Proof.
  intros H. specialize (H "error_managing" eq_refl).
  unfold volume_status in H. rewrite lookup_volume_status in H.
  vm_compute in H. discriminate H.
Qed.

(** C4, amended.  The status of a volume is one of the eight members of the
    closed set, whatever the text of the service.  It is [ERROR] exactly
    when the lower-cased text is "error" or one of the four variants of the
    table ("error_deleting", "error_backing-up", "error_restoring",
    "error_extending"), and it is [OTHER] for every text whose lower-cased
    form is not a key of the table, other "error_" variants included. *)
Theorem volume_status_closed_set (sdk_volume : SdkVolume.t) :
  let status := Volume.status (_from_sdk_volume sdk_volume) in
  let text := PyStr.lower (SdkVolume.status sdk_volume) in
  status = volume_status (SdkVolume.status sdk_volume) /\
  In status [ Volume.CREATING; Volume.AVAILABLE; Volume.ATTACHING; Volume.DETACHING;
              Volume.IN_USE; Volume.DELETING; Volume.ERROR; Volume.OTHER ] /\
  (status = Volume.ERROR <->
   In text [ "error"; "error_deleting"; "error_backing-up"; "error_restoring";
             "error_extending" ]) /\
  (_VOLUME_STATUSES !! text = None -> status = Volume.OTHER).
Proof.
  cbn zeta. change (Volume.status (_from_sdk_volume sdk_volume))
    with (volume_status (SdkVolume.status sdk_volume)).
  split; [reflexivity|]. split.
  { destruct (volume_status (SdkVolume.status sdk_volume)); simpl; tauto. }
  unfold volume_status. split.
  - rewrite lookup_volume_status. simpl In.
    generalize (PyStr.lower (SdkVolume.status sdk_volume)). intros text.
    repeat (case_decide;
            [subst text; simpl; split; intros Hx;
             [try discriminate Hx; tauto
             |try reflexivity;
              repeat (destruct Hx as [Hx|Hx]; try discriminate Hx);
              contradiction]|]).
    simpl. split; intros Hx; [discriminate Hx|].
    repeat (destruct Hx as [Hx|Hx]; [congruence|]). contradiction.
  - intros ->. reflexivity.
Qed.

Lemma volume_status_closed_set_witness :
  Volume.status
    (_from_sdk_volume (SdkVolume.mk "0123456789abcdef" None "error_managing" 5 [])) =
    Volume.OTHER /\
  Volume.status
    (_from_sdk_volume (SdkVolume.mk "vol-9" None "Error_Restoring" 5 [])) =
    Volume.ERROR.
Proof.
  split.
  - apply (proj2 (proj2 (proj2 (volume_status_closed_set
             (SdkVolume.mk "0123456789abcdef" None "error_managing" 5 []))))).
    rewrite lookup_volume_status. vm_compute. reflexivity.
  - apply (proj1 (proj2 (proj2 (volume_status_closed_set
             (SdkVolume.mk "vol-9" None "Error_Restoring" 5 []))))).
    vm_compute. tauto.
Defined.

(** ** Computations *)

Lemma bind_Return {A B} (m : M A) (k : A -> M B) (w w1 : world) (a : A) :
  m w = (Return a, w1) -> bind m k w = k a w1.
Proof. intros H. unfold bind. rewrite H. reflexivity. Qed.


Lemma bind_Return_inv {A B} (m : M A) (k : A -> M B) (w w' : world) (b : B) :
  bind m k w = (Return b, w') ->
  exists a w1, m w = (Return a, w1) /\ k a w1 = (Return b, w').
Proof.
  unfold bind. destruct (m w) as [[a|e] w1]; [eauto|discriminate].
Qed.

Lemma lift_Return_inv {A} (r : result A) (w w' : world) (a : A) :
  lift r w = (Return a, w') -> r = Return a /\ w' = w.
Proof. unfold lift. intros H. injection H as -> ->. split; reflexivity. Qed.

Lemma convert_Return_inv {A} (f : M A) (w w' : world) (a : A) :
  convert_sdk_exceptions f w = (Return a, w') -> f w = (Return a, w').
Proof.
  unfold convert_sdk_exceptions. destruct (f w) as [[a0|e] w1]; simpl; congruence.
Qed.

Lemma convert_Return {A} (f : M A) (w w' : world) (a : A) :
  f w = (Return a, w') -> convert_sdk_exceptions f w = (Return a, w').
Proof. intros H. unfold convert_sdk_exceptions. rewrite H. reflexivity. Qed.

Lemma convert_Raise {A} (f : M A) (w w' : world) (e : exn) :
  f w = (Raise e, w') ->
  convert_sdk_exceptions f w = (Raise (convert_exception e), w').
Proof. intros H. unfold convert_sdk_exceptions. rewrite H. reflexivity. Qed.

Lemma read_Return_inv {A} (c : api_call) (answer : cloud -> result A)
    (w w' : world) (a : A) :
  read c answer w = (Return a, w') ->
  answer (backend w) = Return a /\ w' = record_call c w.
Proof.
  unfold read, call. cbn [backend record_call].
  destruct (faults (backend w) c); [discriminate|].
  intros H. injection H as -> <-. destruct w; split; reflexivity.
Qed.

Lemma read_no_fault {A} (c : api_call) (answer : cloud -> result A) (w : world) :
  faults (backend w) c = None ->
  read c answer w = (answer (backend w), record_call c w).
Proof.
  intros H. unfold read, call. cbn [backend record_call]. rewrite H.
  destruct w; reflexivity.
Qed.

Lemma read_backend {A} (c : api_call) (answer : cloud -> result A)
    (w w' : world) (r : result A) :
  read c answer w = (r, w') -> w' = record_call c w.
Proof.
  unfold read, call. cbn [backend record_call].
  destruct (faults (backend w) c); intros H; injection H as _ <-;
    destruct w; reflexivity.
Qed.

Lemma filter_all {A} (p : A -> bool) (l : list A) :
  (forall x, p x = true) -> List.filter p l = l.
Proof.
  intros H. induction l as [|x l IH]; simpl; [reflexivity|].
  rewrite H, IH. reflexivity.
Qed.

Lemma select_ips_all (l : list FloatingIP.t) : select_ips None None l = l.
Proof. apply filter_all. reflexivity. Qed.

Ltac invert_bind H :=
  let a := fresh "a" in
  let w1 := fresh "w" in
  let H1 := fresh "Hstep" in
  apply bind_Return_inv in H as (a & w1 & H1 & H).

(** ** Quotas *)

(** C8.  A call to [quotas] that returns, returns six entries: cpus, ram
    in MB, machines, external_ips, storage in GB and volumes, in this order;
    the usage of external_ips is the number of floating IPs that the
    network service lists, not a counter that it reports. *)
Theorem quotas_six_entries (self : ScopedSession.t) (w w' : world)
    (qs : list Quota.t) :
  quotas self w = (Return qs, w') ->
  exists floatingip storage storage_used vols vols_used : json,
    qs = [ Quota.mk "cpus" None
             (JInt (total_cores (limits (backend w))))
             (JInt (total_cores_used (limits (backend w))));
           Quota.mk "ram" (Some "MB")
             (JInt (total_ram (limits (backend w))))
             (JInt (total_ram_used (limits (backend w))));
           Quota.mk "machines" None
             (JInt (instances (limits (backend w))))
             (JInt (instances_used (limits (backend w))));
           Quota.mk "external_ips" None floatingip
             (JInt (Z.of_nat (List.length (floating_ips (backend w)))));
           Quota.mk "storage" (Some "GB") storage storage_used;
           Quota.mk "volumes" None vols vols_used ].
Proof.
  intros H. unfold quotas in H. apply convert_Return_inv in H.
  invert_bind H. apply read_Return_inv in Hstep as [Hlim ->].
  injection Hlim as <-.
  invert_bind H. apply read_Return_inv in Hstep as [_ ->].
  invert_bind H. apply lift_Return_inv in Hstep as [_ ->].
  invert_bind H. apply read_Return_inv in Hstep as [_ ->].
  invert_bind H. apply lift_Return_inv in Hstep as [_ ->].
  invert_bind H. apply lift_Return_inv in Hstep as [_ ->].
  invert_bind H. apply read_Return_inv in Hstep as [Hips ->].
  injection Hips as <-.
  invert_bind H. apply read_Return_inv in Hstep as [_ ->].
  invert_bind H. apply lift_Return_inv in Hstep as [_ ->].
  invert_bind H. apply read_Return_inv in Hstep as [_ ->].
  invert_bind H. apply lift_Return_inv in Hstep as [_ ->].
  invert_bind H. apply lift_Return_inv in Hstep as [_ ->].
  invert_bind H. apply lift_Return_inv in Hstep as [_ ->].
  invert_bind H. apply lift_Return_inv in Hstep as [_ ->].
  unfold ret in H. injection H as <- _.
  cbn [backend record_call].
  rewrite select_ips_all.
  do 5 eexists. reflexivity.
Qed.

Lemma quotas_six_entries_witness :
  exists (qs : list Quota.t) (w' : world),
    quotas Sample.session Sample.the_world = (Return qs, w') /\
    List.map Quota.resource qs =
      [ "cpus"; "ram"; "machines"; "external_ips"; "storage"; "volumes" ] /\
    List.map Quota.units qs = [ None; Some "MB"; None; None; Some "GB"; None ] /\
    List.map Quota.used qs = [ JInt 4; JInt 8192; JInt 2; JInt 2; JInt 35; JInt 3 ].
Proof.
  destruct (quotas Sample.session Sample.the_world) as [[qs|e] w'] eqn:Hq;
    [|vm_compute in Hq; discriminate Hq].
  exists qs, w'. split; [reflexivity|].
  destruct (quotas_six_entries _ _ _ _ Hq) as (f & s & su & v & vu & ->).
  vm_compute in Hq. injection Hq as <- <- <- <- <- _.
  repeat split.
Defined.

(** ** Volumes *)

Lemma volumes_returns (w : world) :
  faults (backend w) block_store_volumes = None ->
  volumes w =
    (Return (List.map _from_sdk_volume (stored_volumes (backend w))),
     record_call block_store_volumes w).
Proof.
  intros H. unfold volumes. apply convert_Return.
  assert (Hr : list_volumes w =
                 (Return (stored_volumes (backend w)),
                  record_call block_store_volumes w))
    by exact (read_no_fault block_store_volumes
                (fun b => Return (stored_volumes b)) w H).
  rewrite (bind_Return _ _ _ _ _ Hr). reflexivity.
Qed.

Lemma Status_eqb_eq (a b : Volume.Status) : Volume.Status_eqb a b = true <-> a = b.
Proof. destruct a, b; simpl; split; congruence. Qed.

Lemma resolve_volume_calls (volume : Volume.t + string) (w w1 : world)
    (r : result Volume.t) :
  resolve_volume volume w = (r, w1) ->
  w1 = match volume with
       | inl _ => w
       | inr id => record_call (block_store_get_volume id) w
       end.
Proof.
  destruct volume as [v|id]; simpl.
  - unfold ret. congruence.
  - unfold find_volume, convert_sdk_exceptions, bind, get_volume.
    destruct (read _ _ w) as [[sdk|e] w2] eqn:Hread;
      apply read_backend in Hread; subst w2; simpl; congruence.
Qed.

(** C6.  Once the volume is at hand (it was passed, or it was looked up by
    its id), [attach_volume] returns it as it is and calls no service when it
    is attached to the requested machine, whatever its status; when it is
    not attached to that machine and its status is not [AVAILABLE], the call
    raises [InvalidOperationError] and requests no attachment.  For a volume
    that was passed, the world is left as it was. *)
Theorem attach_volume_idempotent (volume : Volume.t + string)
    (machine : Machine.t + string) (w w1 : world) (v : Volume.t) :
  resolve_volume volume w = (Return v, w1) ->
  (Volume.machine_id v = Some (machine_id_of machine) ->
   attach_volume volume machine w = (Return v, w1)) /\
  (Volume.machine_id v <> Some (machine_id_of machine) ->
   Volume.status v <> Volume.AVAILABLE ->
   attach_volume volume machine w =
     (Raise (Errors InvalidOperationError "Volume must be AVAILABLE before attaching."),
      w1)) /\
  w1 = match volume with
       | inl _ => w
       | inr id => record_call (block_store_get_volume id) w
       end.
Proof.
  intros Hres. split; [|split].
  - intros Hatt. unfold attach_volume. apply convert_Return.
    rewrite (bind_Return _ _ _ _ _ Hres). rewrite decide_True by assumption.
    reflexivity.
  - intros Hatt Hst. unfold attach_volume.
    change (Errors InvalidOperationError "Volume must be AVAILABLE before attaching.")
      with (convert_exception
              (Errors InvalidOperationError "Volume must be AVAILABLE before attaching.")).
    apply convert_Raise.
    rewrite (bind_Return _ _ _ _ _ Hres). rewrite decide_False by assumption.
    destruct (Volume.Status_eqb (Volume.status v) Volume.AVAILABLE) eqn:E.
    + apply Status_eqb_eq in E. contradiction.
    + reflexivity.
  - apply (resolve_volume_calls _ _ _ _ Hres).
Qed.

Lemma attach_volume_idempotent_witness :
  let in_use := Volume.mk "vol-1" "data" Volume.IN_USE 10 (Some "srv-1") (Some "/dev/vdb") in
  attach_volume (inl in_use) (inr "srv-1") Sample.the_world =
    (Return in_use, Sample.the_world) /\
  attach_volume (inr "vol-1") (inr "srv-2") Sample.the_world =
    (Raise (Errors InvalidOperationError "Volume must be AVAILABLE before attaching."),
     record_call (block_store_get_volume "vol-1") Sample.the_world).
Proof.
  cbn zeta. split.
  - apply (proj1 (attach_volume_idempotent (inl _) (inr "srv-1")
                    Sample.the_world Sample.the_world _ eq_refl)).
    reflexivity.
  - refine (proj1 (proj2 (attach_volume_idempotent (inr "vol-1") (inr "srv-2")
                    Sample.the_world _
                    (Volume.mk "vol-1" "data" Volume.IN_USE 10 (Some "srv-1")
                       (Some "/dev/vdb")) _)) _ _).
    + vm_compute. reflexivity.
    + simpl. congruence.
    + simpl. congruence.
Defined.

(** ** Machines *)

Section MachineProperties.

Variable Machine_Status_Type : list string.
Variable dateutil_parse : string -> option datetime.

(** A flag in the metadata decides alone: the image is not consulted. *)
Lemma resolve_nat_allowed_flag (sdk_server : SdkServer.t) (v : string) (w : world) :
  nat_allowed_metadata sdk_server = Some v ->
  resolve_nat_allowed sdk_server w = (flag_of_str v, w).
Proof.
  unfold nat_allowed_metadata, resolve_nat_allowed, try_except, lift,
    nat_allowed_of_metadata.
  destruct (SdkServer.metadata sdk_server) as [metadata|]; [|discriminate].
  intros ->. unfold flag_of_str. destruct (py_int v); reflexivity.
Qed.

(** Without a flag in the metadata the image decides. *)
Lemma resolve_nat_allowed_image (sdk_server : SdkServer.t) (image_id : string)
    (w w1 : world) (r : result Image.t) :
  nat_allowed_metadata sdk_server = None ->
  SdkServer.image sdk_server !! "id" = Some image_id ->
  find_image image_id w = (r, w1) ->
  resolve_nat_allowed sdk_server w =
    (match r with
     | Return image => Return (Image.nat_allowed image)
     | Raise (Errors ObjectNotFoundError _) => Return true
     | Raise e => Raise e
     end, w1).
Proof.
  intros Hflag Hid Hfind.
  unfold nat_allowed_metadata in Hflag.
  unfold resolve_nat_allowed, try_except at 1, lift, nat_allowed_of_metadata.
  assert (Hinner :
    try_except
      (image_id0 <- lift (dict_item (SdkServer.image sdk_server) "id");;
       image <- find_image image_id0;; ret (Image.nat_allowed image))
      (fun e' => match e' with
                 | Errors ObjectNotFoundError _ => Some (ret true)
                 | _ => None
                 end) w =
    (match r with
     | Return image => Return (Image.nat_allowed image)
     | Raise (Errors ObjectNotFoundError _) => Return true
     | Raise e => Raise e
     end, w1)).
  { unfold try_except, bind, lift, dict_item. rewrite Hid, Hfind.
    destruct r as [image|e]; [reflexivity|].
    destruct e as [c m| | | | | | | | | |]; try reflexivity.
    destruct c; reflexivity. }
  destruct (SdkServer.metadata sdk_server) as [metadata|].
  - rewrite Hflag. exact Hinner.
  - exact Hinner.
Qed.

(** What a machine that was built tells about the steps that built it. *)
Lemma from_sdk_server_Return_inv (sdk_server : SdkServer.t) (w w' : world)
    (machine : Machine.t) :
  _from_sdk_server Machine_Status_Type dateutil_parse sdk_server w = (Return machine, w') ->
  exists w1,
    resolve_nat_allowed sdk_server w = (Return (Machine.nat_allowed machine), w1) /\
    _POWER_STATES !! SdkServer.power_state sdk_server =
      Some (Machine.power_state machine).
Proof.
  intros H. unfold _from_sdk_server in H.
  invert_bind H. rename a into nat_allowed, w0 into w1.
  invert_bind H.
  invert_bind H. apply lift_Return_inv in Hstep1 as [_ ->].
  invert_bind H. apply lift_Return_inv in Hstep1 as [_ ->].
  invert_bind H. apply lift_Return_inv in Hstep1 as [Hpower ->].
  invert_bind H. apply lift_Return_inv in Hstep1 as [_ ->].
  invert_bind H. apply lift_Return_inv in Hstep1 as [_ ->].
  invert_bind H. apply lift_Return_inv in Hstep1 as [_ ->].
  invert_bind H. apply lift_Return_inv in Hstep1 as [_ ->].
  unfold ret in H. injection H as <- _. cbn [Machine.nat_allowed Machine.power_state].
  exists w1. split; [assumption|].
  destruct (_POWER_STATES !! SdkServer.power_state sdk_server); congruence.
Qed.

(** C3.  For a machine that [_from_sdk_server] builds: a flag in the
    metadata of the instance is the flag of the machine (its text read as an
    integer, as a truth value); without one, the flag of the source image is
    used when the image is found, and the flag is true when looking the image
    up raises [ObjectNotFoundError]. *)
Theorem nat_allowed_resolution (sdk_server : SdkServer.t) (w w' : world)
    (machine : Machine.t) :
  _from_sdk_server Machine_Status_Type dateutil_parse sdk_server w = (Return machine, w') ->
  (forall v, nat_allowed_metadata sdk_server = Some v ->
     exists n, py_int v = Some n /\ Machine.nat_allowed machine = py_bool n) /\
  (nat_allowed_metadata sdk_server = None ->
     forall image_id image w1,
       SdkServer.image sdk_server !! "id" = Some image_id ->
       find_image image_id w = (Return image, w1) ->
       Machine.nat_allowed machine = Image.nat_allowed image) /\
  (nat_allowed_metadata sdk_server = None ->
     forall image_id message w1,
       SdkServer.image sdk_server !! "id" = Some image_id ->
       find_image image_id w = (Raise (Errors ObjectNotFoundError message), w1) ->
       Machine.nat_allowed machine = true).
Proof.
  intros H. apply from_sdk_server_Return_inv in H as (w1 & Hnat & _).
  repeat split.
  - intros v Hv. rewrite (resolve_nat_allowed_flag _ _ _ Hv) in Hnat.
    unfold flag_of_str in Hnat. destruct (py_int v) as [n|]; [|discriminate].
    exists n. split; [reflexivity|]. congruence.
  - intros Hnone image_id image w2 Hid Hfind.
    rewrite (resolve_nat_allowed_image _ _ _ _ _ Hnone Hid Hfind) in Hnat.
    congruence.
  - intros Hnone image_id message w2 Hid Hfind.
    rewrite (resolve_nat_allowed_image _ _ _ _ _ Hnone Hid Hfind) in Hnat.
    congruence.
Qed.

(** [find_machine] returns what [_from_sdk_server] builds from the server
    that the compute service returns. *)
Lemma find_machine_Return_inv (id : string) (w w' : world) (machine : Machine.t) :
  find_machine Machine_Status_Type dateutil_parse id w = (Return machine, w') ->
  exists sdk_server,
    List.find (fun s => String.eqb (SdkServer.id s) id) (servers (backend w)) =
      Some sdk_server /\
    _from_sdk_server Machine_Status_Type dateutil_parse sdk_server (record_call (compute_get_server id) w) =
      (Return machine, w').
Proof.
  intros H. unfold find_machine in H. apply convert_Return_inv in H.
  invert_bind H. apply read_Return_inv in Hstep as [Hfind ->].
  exists a. split; [|assumption].
  destruct (List.find _ _); [congruence|discriminate].
Qed.

(** Every machine of the list that iterating over the servers produces was
    built by [_from_sdk_server] from the server at the same position. *)
Lemma for_each_Return_inv {A B} (f : A -> M B) (l : list A) :
  forall (w w' : world) (ys : list B),
    for_each f l w = (Return ys, w') ->
    Forall2 (fun x y => exists wi wi', f x wi = (Return y, wi')) l ys.
Proof.
  induction l as [|x l IH]; intros w w' ys H; simpl in H.
  - unfold ret in H. injection H as <- _. constructor.
  - invert_bind H. invert_bind H. unfold ret in H. injection H as <- _.
    constructor; [eauto|eapply IH; eassumption].
Qed.

Lemma machines_Return_inv (w w' : world) (ms : list Machine.t) :
  machines Machine_Status_Type dateutil_parse w = (Return ms, w') ->
  Forall2 (fun sdk_server machine =>
             exists wi wi', _from_sdk_server Machine_Status_Type dateutil_parse sdk_server wi = (Return machine, wi'))
    (servers (backend w)) ms.
Proof.
  intros H. unfold machines in H. apply convert_Return_inv in H.
  invert_bind H. apply read_Return_inv in Hstep as [Hservers ->].
  injection Hservers as <-. eapply for_each_Return_inv, H.
Qed.







End MachineProperties.

Lemma nat_allowed_resolution_witness :
  exists m1 m2 m3 w1 w2 w3,
    find_machine Sample.Machine_Status_Type Sample.dateutil_parse "srv-1"
      Sample.the_world = (Return m1, w1) /\ Machine.nat_allowed m1 = false /\
    find_machine Sample.Machine_Status_Type Sample.dateutil_parse "srv-2"
      Sample.the_world = (Return m2, w2) /\ Machine.nat_allowed m2 = false /\
    find_machine Sample.Machine_Status_Type Sample.dateutil_parse "srv-3"
      Sample.the_world = (Return m3, w3) /\ Machine.nat_allowed m3 = true.
Proof.
  destruct (find_machine Sample.Machine_Status_Type Sample.dateutil_parse "srv-1"
              Sample.the_world) as [[m1|e1] w1] eqn:H1;
    [|vm_compute in H1; discriminate H1].
  destruct (find_machine Sample.Machine_Status_Type Sample.dateutil_parse "srv-2"
              Sample.the_world) as [[m2|e2] w2] eqn:H2;
    [|vm_compute in H2; discriminate H2].
  destruct (find_machine Sample.Machine_Status_Type Sample.dateutil_parse "srv-3"
              Sample.the_world) as [[m3|e3] w3] eqn:H3;
    [|vm_compute in H3; discriminate H3].
  exists m1, m2, m3, w1, w2, w3.
  apply find_machine_Return_inv in H1 as (s1 & Hs1 & H1).
  apply find_machine_Return_inv in H2 as (s2 & Hs2 & H2).
  apply find_machine_Return_inv in H3 as (s3 & Hs3 & H3).
  vm_compute in Hs1. injection Hs1 as <-.
  vm_compute in Hs2. injection Hs2 as <-.
  vm_compute in Hs3. injection Hs3 as <-.
  split; [reflexivity|]. split.
  { destruct (proj1 (nat_allowed_resolution _ _ _ _ _ _ H1) "0" eq_refl)
      as (n & Hn & ->).
    vm_compute in Hn. injection Hn as <-. reflexivity. }
  split; [reflexivity|]. split.
  { refine (proj1 (proj2 (nat_allowed_resolution _ _ _ _ _ _ H2)) eq_refl "img-2"
              (Image.mk "img-2" "UNKNOWN" (Some "internal") false false
                 (Qmake 1048576 (1024 * 1024))) _ eq_refl _).
    vm_compute. reflexivity. }
  split; [reflexivity|].
  refine (proj2 (proj2 (nat_allowed_resolution _ _ _ _ _ _ H3)) eq_refl "img-gone"
            _ _ eq_refl _).
  vm_compute. reflexivity.
Defined.



(** ** External IPs *)

Lemma tenant_network_backend (w w1 : world) (r : result (option Network.t)) :
  _tenant_network w = (r, w1) -> backend w1 = backend w.
Proof.
  unfold _tenant_network. destruct (network_cache w) as [n|].
  - intros H. injection H as _ <-. reflexivity.
  - unfold bind.
    destruct (list_ports (Some "network:router_interface") None None w)
      as [[ps|e] w2] eqn:Hp; unfold list_ports in Hp;
      apply read_backend in Hp; subst w2.
    + destruct ps as [|port ps].
      * unfold raise. intros H. injection H as _ <-. reflexivity.
      * destruct (find_network (Port.network_id port) _) as [[n|e] w3] eqn:Hn;
          unfold find_network in Hn; apply read_backend in Hn; subst w3;
          intros H; injection H as _ <-; reflexivity.
    + intros H. injection H as _ <-. reflexivity.
Qed.

Lemma call_no_fault {A} (c : api_call) (answer : cloud -> result A * cloud)
    (w : world) :
  faults (backend w) c = None ->
  call c answer w =
    (fst (answer (backend w)), set_backend (snd (answer (backend w))) (record_call c w)).
Proof.
  intros H. unfold call. cbn [backend record_call]. rewrite H.
  destruct (answer (backend w)). reflexivity.
Qed.

Lemma filter_map_same {A} (p : A -> bool) (g : A -> A) (l : list A) :
  (forall x, p (g x) = p x) ->
  List.filter p (List.map g l) = List.map g (List.filter p l).
Proof.
  intros H. induction l as [|x l IH]; [reflexivity|].
  cbn [List.map List.filter]. rewrite H, IH.
  destruct (p x); reflexivity.
Qed.

Lemma select_ips_rebind (port_id : option string) (address : option string)
    (fip_id : string) (l : list FloatingIP.t) :
  select_ips None address (List.map (rebind fip_id port_id) l) =
  List.map (rebind fip_id port_id) (select_ips None address l).
Proof.
  unfold select_ips. apply filter_map_same. intros f.
  assert (Haddr : FloatingIP.floating_ip_address (rebind fip_id port_id f) =
                  FloatingIP.floating_ip_address f).
  { unfold rebind. destruct (String.eqb _ _); reflexivity. }
  rewrite Haddr. reflexivity.
Qed.

Lemma select_ips_In (port_id address : option string) (f : FloatingIP.t)
    (l : list FloatingIP.t) :
  In f (select_ips port_id address l) <->
  In f l /\ opt_matches port_id (FloatingIP.port_id f) = true /\
  opt_matches address (Some (FloatingIP.floating_ip_address f)) = true.
Proof.
  unfold select_ips. rewrite filter_In, andb_true_iff. reflexivity.
Qed.

Section ExternalIpProperties.

Variable Machine_Status_Type : list string.
Variable dateutil_parse : string -> option datetime.

(** C9.  Take a machine that may have an external IP and has a port on the
    tenant network, and an address that no floating IP has.  When the service
    calls succeed, [attach_external_ip] raises [ObjectNotFoundError].  If the
    network service lists a floating IP for that port, the first one listed,
    [current], has been detached in the cloud that the call leaves: the
    update that clears its port was sent before the lookup of the address,
    and all other floating IPs are as they were.  If [current] was the only
    floating IP of the port, no floating IP is bound to the port any more.
    If none was listed, the floating IPs are unchanged. *)
Theorem attach_external_ip_detaches_before_error
    (ip : ExternalIp.t + string) (machine_arg : Machine.t + string)
    (machine : Machine.t) (w0 w w1 : world) (net : Network.t)
    (port : Port.t) (rest : list Port.t) (bound : list FloatingIP.t) :
  resolve_machine Machine_Status_Type dateutil_parse machine_arg w0 = (Return machine, w) ->
  Machine.nat_allowed machine = true ->
  _tenant_network w = (Return (Some net), w1) ->
  (forall c, faults (backend w) c = None) ->
  select_ports None (Some (Machine.id machine)) (Some (Network.id net))
    (ports (backend w)) = port :: rest ->
  select_ips (Some (Port.id port)) None (floating_ips (backend w)) = bound ->
  select_ips None (Some (address_of ip)) (floating_ips (backend w)) = [] ->
  exists w',
    attach_external_ip Machine_Status_Type dateutil_parse ip machine_arg w0 =
      (Raise (Errors ObjectNotFoundError
                ("Could not find external IP '" ++ address_of ip ++ "'")), w') /\
    (bound = [] -> floating_ips (backend w') = floating_ips (backend w)) /\
    (forall current others, bound = current :: others ->
       In current (floating_ips (backend w)) /\
       FloatingIP.port_id current = Some (Port.id port) /\
       floating_ips (backend w') =
         List.map (rebind (FloatingIP.id current) None) (floating_ips (backend w)) /\
       In (FloatingIP.mk (FloatingIP.id current)
             (FloatingIP.floating_ip_address current) None)
          (floating_ips (backend w')) /\
       (exists earlier, calls w' =
          network_ips None (Some (address_of ip)) ::
          network_update_ip (FloatingIP.id current) None :: earlier) /\
       (others = [] ->
        forall f, In f (floating_ips (backend w')) ->
                  FloatingIP.port_id f <> Some (Port.id port))).
Proof.
  intros Hmachine Hnat Hnet Hfaults Hports Hbound Hnone.
  pose proof (tenant_network_backend _ _ _ Hnet) as Hb1.
  assert (Hprefix :
      attach_external_ip Machine_Status_Type dateutil_parse ip machine_arg w0 =
      convert_sdk_exceptions
        (match bound with
         | current :: _ => _ <- update_ip current None;; ret tt
         | [] => ret tt
         end;;;
         matching <- list_ips None (Some (address_of ip));;
         match matching with
         | [] => raise (Errors ObjectNotFoundError
                          ("Could not find external IP '" ++ address_of ip ++ "'"))
         | fip :: _ =>
             updated <- update_ip fip (Some (Port.id port));;
             _from_sdk_floatingip updated
         end)
        (record_call (network_ips (Some (Port.id port)) None)
           (record_call (network_ports None (Some (Machine.id machine))
                           (Some (Network.id net))) w1))).
  { unfold attach_external_ip, convert_sdk_exceptions.
    rewrite (bind_Return _ _ _ _ _ Hmachine), Hnat. cbn [negb].
    rewrite (bind_Return _ _ _ _ _ Hnet).
    unfold lift at 1. unfold bind at 1.
    unfold list_ports. unfold bind at 1.
    rewrite read_no_fault by (rewrite Hb1; apply Hfaults).
    cbn [backend record_call]. rewrite Hb1, Hports.
    unfold list_ips at 1. unfold bind at 1.
    rewrite read_no_fault by (cbn [backend record_call]; rewrite Hb1; apply Hfaults).
    cbn [backend record_call]. rewrite Hb1, Hbound. reflexivity. }
  rewrite Hprefix. clear Hprefix.
  destruct bound as [|current others].
  - eexists. split; [|split; [intros _|intros current others Hc; discriminate Hc]].
    + match goal with
      | |- _ = (Raise ?e, _) => change e with (convert_exception e)
      end.
      apply convert_Raise.
      unfold bind at 1. cbn [ret]. unfold list_ips, bind.
      rewrite read_no_fault by (cbn [backend record_call]; rewrite Hb1; apply Hfaults).
      cbn [backend record_call]. rewrite Hb1, Hnone. reflexivity.
    + cbn [backend record_call]. rewrite Hb1. reflexivity.
  - assert (Hin : In current (floating_ips (backend w)) /\
                  FloatingIP.port_id current = Some (Port.id port)).
    { assert (Hsel : In current (select_ips (Some (Port.id port)) None
                                   (floating_ips (backend w))))
        by (rewrite Hbound; left; reflexivity).
      apply select_ips_In in Hsel as (Hsel & Hport & _). split; [exact Hsel|].
      unfold opt_matches in Hport.
      destruct (FloatingIP.port_id current) as [p|]; [|discriminate].
      apply String.eqb_eq in Hport. congruence. }
    destruct Hin as [Hin Hport].
    eexists. split; [|split; [intros Hc; discriminate Hc|]].
    + match goal with
      | |- _ = (Raise ?e, _) => change e with (convert_exception e)
      end.
      apply convert_Raise.
      unfold bind at 1. unfold bind at 1. unfold update_ip.
      rewrite call_no_fault by (cbn [backend record_call]; rewrite Hb1; apply Hfaults).
      cbn [fst snd backend record_call set_backend ret].
      unfold list_ips, bind.
      rewrite read_no_fault
        by (cbn [backend set_floating_ips faults]; rewrite Hb1; apply Hfaults).
      cbn [backend record_call set_backend set_floating_ips floating_ips].
      rewrite Hb1, select_ips_rebind, Hnone. reflexivity.
    + intros current' others' Hc. injection Hc as <- <-.
      cbn [backend record_call set_backend set_floating_ips floating_ips calls].
      rewrite ?Hb1.
      split; [exact Hin|]. split; [exact Hport|]. split; [reflexivity|].
      split; [|split].
      * apply in_map_iff. exists current. split; [|exact Hin].
        unfold rebind. rewrite String.eqb_refl. reflexivity.
      * eexists. reflexivity.
      * intros -> f Hf Hfport.
        apply in_map_iff in Hf as (g & <- & Hg).
        unfold rebind in Hfport.
        destruct (String.eqb (FloatingIP.id g) (FloatingIP.id current)) eqn:E;
          [discriminate Hfport|].
        assert (Hsel : In g (select_ips (Some (Port.id port)) None
                               (floating_ips (backend w)))).
        { apply select_ips_In. split; [exact Hg|]. split; [|reflexivity].
          unfold opt_matches. rewrite Hfport. apply String.eqb_refl. }
        rewrite Hbound in Hsel. destruct Hsel as [->|[]].
        rewrite String.eqb_refl in E. discriminate E.
Qed.

End ExternalIpProperties.

Lemma attach_external_ip_detaches_before_error_witness :
  exists w',
    attach_external_ip Sample.Machine_Status_Type Sample.dateutil_parse
      (inr "10.0.0.1") (inl Sample.machine_4) Sample.the_world =
      (Raise (Errors ObjectNotFoundError "Could not find external IP '10.0.0.1'"), w') /\
    floating_ips (backend w') =
      [ FloatingIP.mk "fip-1" "172.16.0.9" None;
        FloatingIP.mk "fip-2" "172.16.0.10" None ].
Proof.
  destruct (attach_external_ip_detaches_before_error
              Sample.Machine_Status_Type Sample.dateutil_parse
              (inr "10.0.0.1") (inl Sample.machine_4) Sample.machine_4
              Sample.the_world Sample.the_world
              (mkWorld Sample.the_cloud ∅ (Some (Some (Network.mk "net-1" "tenant-net")))
                 [ network_find_network "net-1";
                   network_ports (Some "network:router_interface") None None ])
              (Network.mk "net-1" "tenant-net")
              (Port.mk "port-4" "compute:nova" "srv-4" "net-1") []
              [ FloatingIP.mk "fip-1" "172.16.0.9" (Some "port-4") ])
    as (w' & Hraise & _ & Hdetach).
  - reflexivity.
  - reflexivity.
  - vm_compute. reflexivity.
  - intros c. reflexivity.
  - vm_compute. reflexivity.
  - vm_compute. reflexivity.
  - vm_compute. reflexivity.
  - exists w'. split; [exact Hraise|].
    destruct (Hdetach _ _ eq_refl) as (_ & _ & Hips & _).
    rewrite Hips. vm_compute. reflexivity.
Defined.

(** * Further properties *)

(** ** Scanning for a word *)

Lemma get_drop (w : string) : forall k p,
  String.get k w = Some p -> drop k w = String p (drop (S k) w).
Proof.
  induction w as [|a w IH]; intros k p H; [destruct k; discriminate|].
  destruct k as [|k]; simpl in H.
  - injection H as ->. reflexivity.
  - cbn [drop]. rewrite (IH k p H). reflexivity.
Qed.

Lemma get_lt (w : string) : forall k,
  (k < String.length w)%nat -> exists p, String.get k w = Some p.
Proof.
  induction w as [|a w IH]; intros k H; simpl in H; [lia|].
  destruct k as [|k]; simpl; [eauto|]. apply IH. lia.
Qed.

Lemma get_occurs (q : ascii) (w : string) : forall k,
  String.get k w = Some q -> occurs q w = true.
Proof.
  induction w as [|a w IH]; intros k H; [destruct k; discriminate|].
  destruct k as [|k]; simpl in H.
  - injection H as ->. simpl. now rewrite Ascii.eqb_refl.
  - simpl. rewrite (IH k H). apply orb_true_r.
Qed.

Lemma drop_all (w : string) : drop (String.length w) w = "".
Proof. induction w as [|a w IH]; [reflexivity|exact IH]. Qed.

Lemma scan_ge (w t : string) : forall k,
  (String.length w <= k)%nat -> scan w k t = k.
Proof.
  induction t as [|c t IH]; intros k Hk; [reflexivity|].
  cbn [scan]. unfold scan_step.
  destruct (Nat.leb_spec (String.length w) k); [apply IH; assumption|lia].
Qed.

Lemma scan_app (w a : string) : forall k b,
  scan w k (a ++ b) = scan w (scan w k a) b.
Proof.
  induction a as [|c a IH]; intros k b; [reflexivity|].
  rewrite append_cons. cbn [scan]. apply IH.
Qed.

(** The scan decides containment. *)
Lemma scan_correct (w : string) :
  first_unique w = true ->
  forall t k, (k <= String.length w)%nat ->
  Nat.eqb (scan w k t) (String.length w) =
  Nat.eqb k (String.length w) || PyStr.startswith (drop k w) t || PyStr.contains w t.
Proof.
  intros Hu. destruct w as [|q rest]; [discriminate|].
  cbn [first_unique] in Hu. apply negb_true_iff in Hu.
  set (w := String q rest) in *. set (n := String.length w).
  assert (Hn : n = S (String.length rest)) by reflexivity.
  assert (H1n : (1 <= n)%nat) by (rewrite Hn; apply le_n_S, Nat.le_0_l).
  assert (H0n : (0 <= n)%nat) by apply Nat.le_0_l.
  induction t as [|c t IH]; intros k Hk.
  - cbn [scan]. destruct (Nat.eqb_spec k n) as [->|Hne]; [reflexivity|].
    assert (Hlt : (k < String.length w)%nat).
    { fold n. lia. }
    destruct (get_lt w k Hlt) as [p Hp].
    rewrite (get_drop _ _ _ Hp). reflexivity.
  - cbn [scan]. unfold scan_step. fold n.
    destruct (Nat.leb_spec n k) as [Hge|Hlt].
    + assert (k = n) by lia. subst k.
      rewrite (scan_ge w t n) by (fold n; lia). now rewrite Nat.eqb_refl.
    + destruct (get_lt w k Hlt) as [p Hp]. rewrite Hp.
      change (match w with
              | EmptyString => 0%nat
              | String q0 _ => if Ascii.eqb c q0 then 1%nat else 0%nat
              end) with (if Ascii.eqb c q then 1%nat else 0%nat).
      rewrite (get_drop _ _ _ Hp), contains_cons.
      rewrite (startswith_cons p).
      change (PyStr.startswith w (String c t))
        with (PyStr.startswith (String q rest) (String c t)).
      rewrite (startswith_cons q).
      assert (Hkn : Nat.eqb k n = false) by (apply Nat.eqb_neq; lia).
      rewrite Hkn. cbn [orb].
      destruct (Ascii.eqb_spec c p) as [->|Hcp].
      * rewrite IH by lia. rewrite Ascii.eqb_refl. cbn [andb].
        destruct (Nat.eqb_spec (S k) n) as [Hend|Hmid].
        { rewrite Hend. unfold n. rewrite drop_all, startswith_nil. reflexivity. }
        destruct k as [|k].
        { simpl in Hp. injection Hp as ->. rewrite Ascii.eqb_refl. cbn [andb drop].
          unfold w. cbn [drop].
          destruct (PyStr.startswith rest t); reflexivity. }
        assert (Hqp : Ascii.eqb q p = false).
        { apply Ascii.eqb_neq. intros ->. simpl in Hp.
          rewrite (get_occurs _ _ _ Hp) in Hu. discriminate. }
        rewrite Hqp. reflexivity.
      * assert (Hpc : Ascii.eqb p c = false) by (apply Ascii.eqb_neq; congruence).
        rewrite Hpc. cbn [andb orb].
        destruct (Ascii.eqb_spec c q) as [->|Hcq].
        { rewrite IH by exact H1n. rewrite Ascii.eqb_refl. cbn [andb].
          unfold w at 2. cbn [drop].
          destruct (Nat.eqb_spec 1 n) as [H1|H1]; [|reflexivity].
          assert (rest = "") by (destruct rest; [reflexivity|simpl in Hn; lia]).
          subst rest. rewrite startswith_nil. reflexivity. }
        assert (Hqc : Ascii.eqb q c = false) by (apply Ascii.eqb_neq; congruence).
        rewrite Hqc. cbn [andb orb].
        rewrite IH by exact H0n. cbn [drop].
        assert (H0 : Nat.eqb 0 n = false) by (rewrite Hn; reflexivity).
        rewrite H0. cbn [orb]. apply contains_absorb.
Qed.

Lemma contains_scan (w t : string) :
  first_unique w = true ->
  PyStr.contains w t = Nat.eqb (scan w 0 t) (String.length w).
Proof.
  intros Hu. rewrite (scan_correct w Hu t 0) by lia.
  destruct w as [|q rest]; [discriminate|].
  cbn [Nat.eqb String.length drop orb]. symmetry. apply contains_absorb.
Qed.

(** ** Resource names *)

Lemma scan_replace_same (w old new : string) :
  old <> "" ->
  (forall k, scan w k old = scan w k new) ->
  forall n s, (String.length s <= n)%nat ->
  forall k, scan w k (PyStr.replace old new s) = scan w k s.
Proof.
  intros Hold Hsame. induction n as [|n IH]; intros s Hlen k.
  - destruct s; [reflexivity|simpl in Hlen; lia].
  - destruct s as [|c s]; [reflexivity|].
    destruct (PyStr.startswith old (String c s)) eqn:Hsw.
    + rewrite replace_hit by assumption.
      rewrite (startswith_split _ _ Hsw) at 1.
      assert (Hdrop : drop (String.length old) (String c s) =
                      drop (String.length old - 1) s).
      { destruct old as [|a old]; [congruence|]. simpl. now rewrite Nat.sub_0_r. }
      rewrite Hdrop, !scan_app, Hsame.
      apply IH. pose proof (drop_length (String.length old - 1) s).
      simpl in Hlen. lia.
    + rewrite replace_miss by assumption. cbn [scan]. apply IH.
      simpl in Hlen. lia.
Qed.

(** One step of the scan for [old] over a character that [replace] copies:
    the occurrence that would start where the match began was ruled out, so
    the match cannot complete. *)
Lemma scan_step_copied (old : string) (k : nat) (c : ascii) (s : string) :
  first_unique old = true ->
  (k < String.length old)%nat ->
  k = 0%nat \/ PyStr.startswith (drop k old) (String c s) = false ->
  PyStr.startswith old (String c s) = false ->
  (scan_step old k c < String.length old)%nat /\
  (scan_step old k c = 0%nat \/
   PyStr.startswith (drop (scan_step old k c) old) s = false).
Proof.
  intros Hu Hk Hinv Hsw. destruct old as [|q rest]; [discriminate|].
  cbn [first_unique] in Hu. apply negb_true_iff in Hu.
  assert (Hend : forall j, PyStr.startswith (drop j (String q rest)) s = false ->
                           (j < String.length (String q rest))%nat).
  { intros j Hj. destruct (Nat.lt_ge_cases j (String.length (String q rest)))
      as [Hlt|Hge]; [exact Hlt|].
    assert (Hd : drop j (String q rest) = "").
    { clear -Hge. revert j Hge. generalize (String q rest) as w.
      induction w as [|a w IH]; intros [|j] H; simpl in *; try reflexivity; try lia.
      apply IH. lia. }
    rewrite Hd, startswith_nil in Hj. discriminate. }
  unfold scan_step.
  destruct (Nat.leb_spec (String.length (String q rest)) k); [lia|].
  destruct (get_lt _ k Hk) as [p Hp]. rewrite Hp.
  rewrite startswith_cons in Hsw.
  destruct (Ascii.eqb_spec c p) as [->|Hcp].
  - assert (Hnext : PyStr.startswith (drop (S k) (String q rest)) s = false).
    { destruct Hinv as [->|Hinv].
      - simpl in Hp. injection Hp as ->. rewrite Ascii.eqb_refl in Hsw. exact Hsw.
      - rewrite (get_drop _ _ _ Hp), startswith_cons, Ascii.eqb_refl in Hinv.
        exact Hinv. }
    split; [apply Hend, Hnext|right; exact Hnext].
  - destruct (Ascii.eqb_spec c q) as [->|Hcq].
    + rewrite Ascii.eqb_refl in Hsw. cbn [andb] in Hsw.
      split; [apply Hend; exact Hsw|right; exact Hsw].
    + split; [simpl; lia|left; reflexivity].
Qed.

(** After [replace], no occurrence of [old] is left, when [new] puts the scan
    for [old] back to its start. *)
Lemma scan_replace_removes (old new : string) :
  first_unique old = true ->
  (forall k, (k < String.length old)%nat -> scan old k new = 0%nat) ->
  forall n s, (String.length s <= n)%nat ->
  forall k, (k < String.length old)%nat ->
    k = 0%nat \/ PyStr.startswith (drop k old) s = false ->
    (scan old k (PyStr.replace old new s) < String.length old)%nat.
Proof.
  intros Hu Hreset. induction n as [|n IH]; intros s Hlen k Hk Hinv.
  - destruct s; [exact Hk|simpl in Hlen; lia].
  - destruct s as [|c s]; [exact Hk|].
    destruct (PyStr.startswith old (String c s)) eqn:Hsw.
    + rewrite replace_hit by assumption. rewrite scan_app, Hreset by assumption.
      apply IH.
      * pose proof (drop_length (String.length old - 1) s). simpl in Hlen. lia.
      * lia.
      * left. reflexivity.
    + rewrite replace_miss by assumption. cbn [scan].
      destruct (scan_step_copied old k c s Hu Hk Hinv Hsw) as [Hlt Hnext].
      apply IH; [simpl in Hlen; lia|exact Hlt|exact Hnext].
Qed.

Lemma replace_removes (old new s : string) :
  first_unique old = true ->
  (forall k, (k < String.length old)%nat -> scan old k new = 0%nat) ->
  PyStr.contains old (PyStr.replace old new s) = false.
Proof.
  intros Hu Hreset. rewrite (contains_scan _ _ Hu). apply Nat.eqb_neq.
  assert (H0 : (0 < String.length old)%nat)
    by (destruct old; [discriminate|simpl; lia]).
  pose proof (scan_replace_removes old new Hu Hreset (String.length s) s
                (le_n _) 0%nat H0 (or_introl eq_refl)).
  lia.
Qed.

Lemma replace_keeps_absent (w old new s : string) :
  first_unique w = true ->
  old <> "" ->
  (forall k, scan w k old = scan w k new) ->
  PyStr.contains w (PyStr.replace old new s) = PyStr.contains w s.
Proof.
  intros Hu Hold Hsame. rewrite !(contains_scan _ _ Hu).
  now rewrite (scan_replace_same w old new Hold Hsame (String.length s) s).
Qed.

Lemma replace_absent (old new : string) : forall s,
  PyStr.contains old s = false -> PyStr.replace old new s = s.
Proof.
  induction s as [|c s IH]; intros H; [reflexivity|].
  rewrite contains_cons in H. apply orb_false_iff in H as [Hsw Hrest].
  rewrite replace_miss by assumption. now rewrite IH.
Qed.

Lemma startswith_app (a b : string) : forall t,
  PyStr.startswith (a ++ b) t = true -> PyStr.startswith a t = true.
Proof.
  induction a as [|c a IH]; intros t H; [apply startswith_nil|].
  rewrite append_cons in H. destruct t as [|d t]; [discriminate|].
  rewrite startswith_cons in *. apply andb_true_iff in H as [Hc Ht].
  rewrite Hc. cbn [andb]. apply IH, Ht.
Qed.

Lemma contains_app (a b : string) : forall t,
  PyStr.contains a t = false -> PyStr.contains (a ++ b) t = false.
Proof.
  induction t as [|c t IH]; intros H.
  - destruct (PyStr.contains (a ++ b) "") eqn:E; [|reflexivity].
    assert (Hs : PyStr.startswith (a ++ b) "" = true).
    { simpl in E. now rewrite orb_false_r in E. }
    apply startswith_app in Hs. apply contains_startswith in Hs. congruence.
  - rewrite contains_cons in *. apply orb_false_iff in H as [Hsw Hrest].
    rewrite (IH Hrest), orb_false_r.
    destruct (PyStr.startswith (a ++ b) (String c t)) eqn:E; [|reflexivity].
    apply startswith_app in E. congruence.
Qed.

Ltac scan_same :=
  let k := fresh "k" in
  intros k;
  do 8 (destruct k as [|k]; [vm_compute; reflexivity|]);
  rewrite !scan_ge by (simpl; lia); reflexivity.

Ltac scan_reset :=
  let k := fresh "k" in
  let Hk := fresh "Hk" in
  intros k Hk;
  do 8 (destruct k as [|k]; [first [vm_compute; reflexivity | simpl in Hk; lia]|]);
  simpl in Hk; lia.

(** The words of the backend are gone from a rewritten message. *)
Lemma backend_words_absent (message : string) :
  PyStr.contains "instance" (_replace_resource_names message) = false /\
  PyStr.contains "Instance" (_replace_resource_names message) = false /\
  PyStr.contains "flavor" (_replace_resource_names message) = false /\
  PyStr.contains "Flavor" (_replace_resource_names message) = false.
Proof.
  unfold _replace_resource_names, _REPLACEMENTS. cbn [fold_left fst snd].
  repeat split.
  - rewrite !(replace_keeps_absent "instance") by
      first [reflexivity | discriminate | scan_same].
    apply replace_removes; [reflexivity|scan_reset].
  - rewrite !(replace_keeps_absent "Instance") by
      first [reflexivity | discriminate | scan_same].
    apply replace_removes; [reflexivity|scan_reset].
  - rewrite !(replace_keeps_absent "flavor") by
      first [reflexivity | discriminate | scan_same].
    apply replace_removes; [reflexivity|scan_reset].
  - apply replace_removes; [reflexivity|scan_reset].
Qed.

(** X1.  A message rewritten by [_replace_resource_names] contains none of
    the words that the list of replacements rewrites: no "instance", no
    "Instance", no "flavorRef", no "flavor" and no "Flavor" is left. *)
Theorem replace_resource_names_complete (message : string) :
  forall old new, In (old, new) _REPLACEMENTS ->
    PyStr.contains old (_replace_resource_names message) = false.
Proof.
  intros old new Hin.
  destruct (backend_words_absent message) as (H1 & H2 & H3 & H4).
  unfold _REPLACEMENTS in Hin.
  destruct Hin as [H|[H|[H|[H|[H|[]]]]]]; injection H as <- <-; try assumption.
  change "flavorRef" with ("flavor" ++ "Ref"). apply contains_app, H3.
Qed.

(** X2.  [_replace_resource_names] is idempotent: rewriting a rewritten
    message changes nothing. *)
Theorem replace_resource_names_idempotent (message : string) :
  _replace_resource_names (_replace_resource_names message) =
  _replace_resource_names message.
Proof.
  destruct (backend_words_absent message) as (H1 & H2 & H3 & H4).
  assert (H5 : PyStr.contains "flavorRef" (_replace_resource_names message) = false).
  { change "flavorRef" with ("flavor" ++ "Ref"). apply contains_app, H3. }
  generalize dependent (_replace_resource_names message). intros m H1 H2 H3 H4 H5.
  unfold _replace_resource_names, _REPLACEMENTS. cbn [fold_left fst snd].
  rewrite (replace_absent "instance" "machine" m H1).
  rewrite (replace_absent "Instance" "Machine" m H2).
  rewrite (replace_absent "flavorRef" "size" m H5).
  rewrite (replace_absent "flavor" "size" m H3).
  apply (replace_absent "Flavor" "Size" m H4).
Qed.

Lemma replace_resource_names_complete_witness :
  In ("flavorRef", "size") _REPLACEMENTS /\
  PyStr.contains "flavorRef"
    (_replace_resource_names "Instance abc: flavorRef f1 not found") = false.
Proof.
  split; [unfold _REPLACEMENTS; simpl; tauto|].
  apply (replace_resource_names_complete _ "flavorRef" "size").
  unfold _REPLACEMENTS. simpl. tauto.
Defined.

(** ** The error translator, continued *)

Lemma convert_exception_Errors (c : error_class) (m : string) :
  convert_exception (Errors c m) = Errors c m.
Proof. reflexivity. Qed.

Lemma translate_status_Errors (status_code : Z) (message : string) :
  exists c m, translate_status status_code message = Errors c m.
Proof.
  unfold translate_status.
  repeat match goal with
  | |- context [if ?b then _ else _] => destruct b
  end; eauto.
Qed.

Lemma convert_exception_backend (e : exn) :
  is_backend_exception e = true -> exists c m, convert_exception e = Errors c m.
Proof.
  destruct e; try discriminate; intros _; cbn [convert_exception status_and_message];
    eauto using translate_status_Errors.
Qed.

(** X3.  The translator turns every exception of the SDK or of keystoneauth
    into an error of the provider, and leaves every other exception as it
    is; so translating twice, as nested wrapped calls do, is the same as
    translating once. *)
Theorem convert_exception_closed (e : exn) :
  (is_backend_exception e = true -> exists c m, convert_exception e = Errors c m) /\
  (is_backend_exception e = false -> convert_exception e = e) /\
  is_backend_exception (convert_exception e) = false /\
  convert_exception (convert_exception e) = convert_exception e.
Proof.
  split; [apply convert_exception_backend|].
  split; [destruct e; try discriminate; reflexivity|].
  destruct (is_backend_exception e) eqn:Hb.
  - destruct (convert_exception_backend e Hb) as (c & m & ->). split; reflexivity.
  - destruct e; try discriminate; split; reflexivity.
Qed.

Lemma convert_exception_closed_witness :
  exists c m, convert_exception (HttpException 502 "Bad Gateway") = Errors c m.
Proof.
  apply (proj1 (convert_exception_closed (HttpException 502 "Bad Gateway"))).
  reflexivity.
Defined.

(** X4.  The message of the error that the translator makes from an SDK
    exception never shows a word of the backend: whatever the status and the
    details, it contains none of the words that [_REPLACEMENTS] rewrites. *)
Theorem convert_exception_message_rewritten (e : exn) (c : error_class) (m : string) :
  (exists details, e = ResourceNotFound details) \/
  (exists status_code details, e = HttpException status_code details) ->
  convert_exception e = Errors c m ->
  forall old new, In (old, new) _REPLACEMENTS -> PyStr.contains old m = false.
Proof.
  intros He Hconv old new Hin.
  assert (Hfixed : forall text : string,
            (forall o n, In (o, n) _REPLACEMENTS -> PyStr.contains o text = false) ->
            text = m -> PyStr.contains old m = false).
  { intros text H <-. exact (H old new Hin). }
  assert (Hrw : forall d, _replace_resource_names d = m ->
                          PyStr.contains old m = false).
  { intros d <-.
    destruct (backend_words_absent d) as (H1 & H2 & H3 & H4).
    unfold _REPLACEMENTS in Hin.
    destruct Hin as [H|[H|[H|[H|[H|[]]]]]]; injection H as <- <-; try assumption.
    change "flavorRef" with ("flavor" ++ "Ref"). apply contains_app, H3. }
  assert (Hconst : forall text : string,
            PyStr.contains "instance" text = false ->
            PyStr.contains "Instance" text = false ->
            PyStr.contains "flavor" text = false ->
            PyStr.contains "Flavor" text = false ->
            text = m -> PyStr.contains old m = false).
  { intros text H1 H2 H3 H4 <-. unfold _REPLACEMENTS in Hin.
    destruct Hin as [H|[H|[H|[H|[H|[]]]]]]; injection H as <- <-; try assumption.
    change "flavorRef" with ("flavor" ++ "Ref"). apply contains_app, H3. }
  destruct He as [[details ->]|(status_code & details & ->)].
  - cbn [convert_exception] in Hconv. injection Hconv as _ Hm. exact (Hrw _ Hm).
  - cbn [convert_exception status_and_message] in Hconv.
    unfold translate_status in Hconv.
    repeat match type of Hconv with
    | (if ?b then _ else _) = _ => destruct b
    end; injection Hconv as _ Hm;
      first [exact (Hrw _ Hm)
            | refine (Hconst _ _ _ _ _ Hm); vm_compute; reflexivity].
Qed.

Lemma convert_exception_message_rewritten_witness :
  PyStr.contains "instance" "No valid host was found for machine abc" = false.
Proof.
  apply (convert_exception_message_rewritten
           (HttpException 400 "No valid host was found for instance abc")
           BadInputError "No valid host was found for machine abc")
    with (new := "machine").
  - right. eexists _, _. reflexivity.
  - vm_compute. reflexivity.
  - unfold _REPLACEMENTS. simpl. left. reflexivity.
Defined.

(** ** Tenancies *)

Lemma enabled_tenancies_Return (projects : list Project.t) : forall ts,
  enabled_tenancies projects = Return ts ->
  List.map (fun t => (Some (Tenancy.id t), Some (Tenancy.name t))) ts =
  List.map (fun p => (Project.id p, Project.name p)) (List.filter is_enabled projects).
Proof.
  induction projects as [|p rest IH]; intros ts H; simpl in H.
  - injection H as <-. reflexivity.
  - cbn [List.filter]. unfold is_enabled at 1.
    destruct (Project.enabled p) as [[|]|]; [|auto|discriminate].
    destruct (Project.id p) as [i|] eqn:Hi; [|discriminate].
    destruct (Project.name p) as [n|] eqn:Hn; [|discriminate].
    destruct (enabled_tenancies rest) as [ts'|e]; [|discriminate].
    injection H as <-. cbn [List.map]. rewrite Hi, Hn, (IH ts' eq_refl).
    reflexivity.
Qed.

Lemma enabled_tenancies_Raise (projects : list Project.t) : forall e,
  enabled_tenancies projects = Raise e -> exists k, e = KeyError k.
Proof.
  induction projects as [|p rest IH]; intros e H; simpl in H; [discriminate|].
  destruct (Project.enabled p) as [[|]|].
  - destruct (Project.id p); [|injection H as <-; eauto].
    destruct (Project.name p); [|injection H as <-; eauto].
    destruct (enabled_tenancies rest) as [ts'|e']; [discriminate|].
    injection H as <-. apply IH. reflexivity.
  - apply IH, H.
  - injection H as <-. eauto.
Qed.

(** X5.  When [tenancies] returns, it returns the projects of the response
    that are enabled, and only those, in the order of the response, each
    with its id and its name. *)
Theorem tenancies_enabled_only (ks : identity_service) (self : UnscopedSession.t)
    (ts : list Tenancy.t) :
  tenancies ks self = Return ts ->
  exists res projects,
    get_projects ks (UnscopedSession.auth_url self ++ "/auth/projects")
      (UnscopedSession.token self) (UnscopedSession.verify_ssl self) =
      requests.Responded res /\
    requests.body res = Some projects /\
    List.map (fun t => (Some (Tenancy.id t), Some (Tenancy.name t))) ts =
    List.map (fun p => (Project.id p, Project.name p))
      (List.filter is_enabled projects).
Proof.
  unfold tenancies. intros H.
  destruct (get_projects ks _ _ _) as [|res]; [discriminate|].
  exists res.
  destruct (requests.raise_for_status res).
  { repeat match type of H with
    | (if ?b then _ else _) = _ => destruct b
    end; discriminate. }
  destruct (requests.body res) as [projects|]; [|discriminate].
  exists projects. split; [reflexivity|]. split; [reflexivity|].
  destruct (enabled_tenancies projects) as [ts'|e] eqn:He.
  - injection H as <-. apply enabled_tenancies_Return, He.
  - destruct e; discriminate.
Qed.

Lemma tenancies_enabled_only_witness :
  tenancies (Sample.keystone 201 Sample.token_header (Return tt)) Sample.unscoped =
    Return [ Sample.tenancy ] /\
  List.map (fun t => (Some (Tenancy.id t), Some (Tenancy.name t))) [ Sample.tenancy ] =
    [ (Some "p1", Some "project-one") ].
Proof.
  split; [reflexivity|].
  destruct (tenancies_enabled_only
              (Sample.keystone 201 Sample.token_header (Return tt)) Sample.unscoped
              [ Sample.tenancy ] eq_refl) as (res & projects & Hres & Hbody & ->).
  injection Hres as <-. injection Hbody as <-. reflexivity.
Defined.

(** X6.  [tenancies] never lets a [KeyError] out: when the response is not
    an error, a body without [projects] or an enabled entry without [id] or
    [name], or any entry without [enabled] before the end of the list, makes
    it raise [CommunicationError]. *)
Theorem tenancies_missing_key (ks : identity_service) (self : UnscopedSession.t)
    (res : requests.Response (option (list Project.t))) :
  get_projects ks (UnscopedSession.auth_url self ++ "/auth/projects")
    (UnscopedSession.token self) (UnscopedSession.verify_ssl self) =
    requests.Responded res ->
  requests.raise_for_status res = false ->
  (forall k, tenancies ks self <> Raise (KeyError k)) /\
  ((requests.body res = None \/
    exists projects e, requests.body res = Some projects /\
                       enabled_tenancies projects = Raise e) ->
   tenancies ks self =
     Raise (Errors CommunicationError
              "Unable to extract tenancy information from response")).
Proof.
  intros Hget Hok. unfold tenancies. rewrite Hget, Hok. split.
  - intros k. destruct (requests.body res) as [projects|]; [|discriminate].
    destruct (enabled_tenancies projects) as [ts|e] eqn:He; [discriminate|].
    destruct (enabled_tenancies_Raise _ _ He) as [k' ->]. discriminate.
  - intros [->|(projects & e & -> & He)]; [reflexivity|].
    rewrite He. destruct (enabled_tenancies_Raise _ _ He) as [k' ->]. reflexivity.
Qed.

Lemma tenancies_missing_key_witness :
  tenancies keystone_without_name Sample.unscoped =
    Raise (Errors CommunicationError
             "Unable to extract tenancy information from response").
Proof.
  refine (proj2 (tenancies_missing_key keystone_without_name Sample.unscoped
                   (requests.mkResponse 200 ∅
                      (Some [ Project.mk (Some "p1") None (Some true) ]))
                   eq_refl eq_refl) _).
  right. eexists _, _. split; reflexivity.
Defined.

(** X7.  A scoped session that [scoped_session] returns for an id is bound
    to that id: the id is the id of one of the enabled tenancies of the user,
    the session carries this id, the name of that tenancy and the user name
    of the unscoped session.  For an id that is not among the tenancies the
    call raises [ObjectNotFoundError]. *)
Theorem scoped_session_by_id (ks : identity_service) (self : UnscopedSession.t)
    (tenancy_id : string) (ts : list Tenancy.t) :
  tenancies ks self = Return ts ->
  (forall session,
     scoped_session ks self (inr tenancy_id) = Return session ->
     ScopedSession.tenancy_id session = tenancy_id /\
     ScopedSession.username session = UnscopedSession.username self /\
     In (Tenancy.mk tenancy_id (ScopedSession.tenancy_name session)) ts) /\
  (~ In tenancy_id (List.map Tenancy.id ts) ->
   scoped_session ks self (inr tenancy_id) =
     Raise (Errors ObjectNotFoundError
              ("Could not find tenancy with ID " ++ tenancy_id))).
Proof.
  intros Hts. unfold scoped_session, scoped_session_body, resolve_tenancy.
  rewrite Hts. split.
  - intros session H.
    destruct (List.find _ ts) as [t|] eqn:Hfind; [|discriminate].
    apply find_some in Hfind as [Hin Heq]. apply String.eqb_eq in Heq.
    destruct (from_config ks (cloud_config self t)) as [conn|e].
    + injection H as <-. cbn. repeat split; try assumption.
      destruct t as [i n]. cbn in *. subst i. exact Hin.
    + exfalso. destruct e; cbn [convert_result] in H; try discriminate H.
      destruct ((status_code =? 401) || (status_code =? 403))%Z;
        cbn [convert_result] in H; discriminate H.
  - intros Hnot.
    destruct (List.find _ ts) as [t|] eqn:Hfind; [|reflexivity].
    apply find_some in Hfind as [Hin Heq]. apply String.eqb_eq in Heq.
    exfalso. apply Hnot. rewrite <- Heq. apply in_map, Hin.
Qed.

Lemma scoped_session_by_id_witness :
  scoped_session (Sample.keystone 201 Sample.token_header (Return tt))
    Sample.unscoped (inr "p0") =
  Raise (Errors ObjectNotFoundError "Could not find tenancy with ID p0").
Proof.
  refine (proj2 (scoped_session_by_id
                   (Sample.keystone 201 Sample.token_header (Return tt))
                   Sample.unscoped "p0" [ Sample.tenancy ] eq_refl) _).
  simpl. intros [H|[]]. discriminate H.
Defined.

(** ** Memoized lookups *)

Lemma find_image_cached (id : string) (image : Image.t) (w : world) :
  image_cache w !! id = Some image -> find_image id w = (Return image, w).
Proof.
  intros H. unfold find_image, convert_sdk_exceptions. rewrite H. reflexivity.
Qed.

(** X8.  [find_image] is memoized by [functools.lru_cache], whose table is
    bounded and shared by the sessions, so that an entry may be evicted
    between two calls.  A call that returns an image leaves it in the cache
    under the id, so that the call that follows at once returns the same
    image.  A call that finds an entry for the id returns its image without
    calling the image service, whatever has become of the image in the
    cloud; a call that finds none, because the id was never looked up or its
    entry is gone, asks the image service.  A call that raises leaves the
    cache as it was. *)
Theorem find_image_memoized (id : string) (w w1 : world) :
  (forall image,
     find_image id w = (Return image, w1) ->
     image_cache w1 !! id = Some image /\
     find_image id w1 = (Return image, w1)) /\
  (forall image w2,
     image_cache w2 !! id = Some image -> find_image id w2 = (Return image, w2)) /\
  (forall r,
     image_cache w !! id = None -> find_image id w = (r, w1) ->
     calls w1 = image_get id :: calls w) /\
  (forall e, find_image id w = (Raise e, w1) -> image_cache w1 = image_cache w).
Proof.
  split; [|split; [|split]].
  - intros image H.
    assert (Hc : image_cache w1 !! id = Some image).
    { unfold find_image, convert_sdk_exceptions in H.
      destruct (image_cache w !! id) as [cached|] eqn:Hcache.
      - cbn in H. injection H as <- <-. exact Hcache.
      - destruct ((sdk_image <- get_image id;; lift (_from_sdk_image sdk_image)) w)
          as [[image'|e] w'] eqn:Hbody; cbn in H; [|discriminate].
        injection H as <- <-. cbn [image_cache set_image_cache].
        apply lookup_insert_eq. }
    split; [exact Hc|apply find_image_cached, Hc].
  - intros image w2. apply find_image_cached.
  - intros r Hcache H. unfold find_image, convert_sdk_exceptions in H.
    rewrite Hcache in H. unfold bind, get_image in H.
    destruct (read (image_get id) _ w) as [[sdk|e1] w'] eqn:Hread;
      apply read_backend in Hread; subst w'.
    + unfold lift in H. destruct (_from_sdk_image sdk); cbn in H;
        injection H as _ <-; reflexivity.
    + cbn in H. injection H as _ <-. reflexivity.
  - intros e H. unfold find_image, convert_sdk_exceptions in H.
    destruct (image_cache w !! id) as [cached|] eqn:Hcache; [discriminate|].
    unfold bind, get_image in H.
    destruct (read (image_get id) _ w) as [[sdk|e1] w'] eqn:Hread;
      apply read_backend in Hread; subst w'.
    + unfold lift in H. destruct (_from_sdk_image sdk); cbn in H; [discriminate|].
      injection H as _ <-. reflexivity.
    + cbn in H. injection H as _ <-. reflexivity.
Qed.

Lemma find_image_memoized_witness :
  exists image w1,
    find_image "img-1" Sample.the_world = (Return image, w1) /\
    find_image "img-1" w1 = (Return image, w1) /\
    calls w1 = [ image_get "img-1" ].
Proof.
  destruct (find_image "img-1" Sample.the_world) as [[image|e] w1] eqn:H;
    [|vm_compute in H; discriminate H].
  exists image, w1. split; [reflexivity|].
  split.
  - exact (proj2 (proj1 (find_image_memoized "img-1" Sample.the_world w1) image H)).
  - vm_compute in H. injection H as _ <-. reflexivity.
Defined.

(** X9.  [_tenant_network] is memoized by [functools.lru_cache], whose
    table is bounded and shared by the sessions, so that the entry may be
    evicted between two calls.  A call that returns leaves the network in
    the cache, so that the call that follows at once returns the same
    network.  A call that finds the entry returns it without calling the
    network service; a call that finds none first lists the ports of router
    interfaces.  When the network service lists no such port, the call
    raises [ImproperlyConfiguredError] and nothing is memoized. *)
Theorem tenant_network_memoized (w w1 : world) :
  (forall network,
     _tenant_network w = (Return network, w1) ->
     network_cache w1 = Some network /\
     _tenant_network w1 = (Return network, w1)) /\
  (forall network w2,
     network_cache w2 = Some network -> _tenant_network w2 = (Return network, w2)) /\
  (forall r,
     network_cache w = None -> _tenant_network w = (r, w1) ->
     exists later,
       calls w1 =
         (later ++ network_ports (Some "network:router_interface") None None ::
            calls w)%list) /\
  (network_cache w = None ->
   faults (backend w) (network_ports (Some "network:router_interface") None None) = None ->
   select_ports (Some "network:router_interface") None None (ports (backend w)) = [] ->
   exists w',
     _tenant_network w =
       (Raise (Errors ImproperlyConfiguredError "Could not find tenancy network"), w') /\
     network_cache w' = None).
Proof.
  assert (Hhit : forall network w2,
            network_cache w2 = Some network ->
            _tenant_network w2 = (Return network, w2)).
  { intros network w2 Hc. unfold _tenant_network. rewrite Hc. reflexivity. }
  split; [|split; [|split]].
  - intros network H.
    assert (Hc : network_cache w1 = Some network).
    { unfold _tenant_network in H.
      destruct (network_cache w) as [cached|] eqn:Hcache.
      - injection H as <- <-. exact Hcache.
      - match type of H with
        | (match ?body with _ => _ end) = _ =>
            destruct body as [[n|e] w']; [|discriminate]
        end.
        injection H as <- <-. reflexivity. }
    split; [exact Hc|exact (Hhit _ _ Hc)].
  - exact Hhit.
  - intros r Hcache H. unfold _tenant_network in H. rewrite Hcache in H.
    unfold bind, list_ports in H.
    destruct (read (network_ports (Some "network:router_interface") None None) _ w)
      as [[router_ports|e] w'] eqn:Hread; apply read_backend in Hread; subst w'.
    + destruct router_ports as [|port rest].
      * cbn in H. injection H as _ <-. exists []. reflexivity.
      * unfold find_network in H.
        destruct (read (network_find_network (Port.network_id port)) _ _)
          as [[network|e] w'] eqn:Hfind; apply read_backend in Hfind; subst w';
          injection H as _ <-;
          exists [ network_find_network (Port.network_id port) ]; reflexivity.
    + injection H as _ <-. exists []. reflexivity.
  - intros Hcache Hfault Hports. eexists.
    unfold _tenant_network. rewrite Hcache. unfold bind, list_ports.
    rewrite read_no_fault by exact Hfault. rewrite Hports.
    split; [reflexivity|]. cbn. exact Hcache.
Qed.

Lemma tenant_network_memoized_witness :
  exists network w1,
    _tenant_network Sample.the_world = (Return network, w1) /\
    _tenant_network w1 = (Return network, w1) /\
    network = Some (Network.mk "net-1" "tenant-net").
Proof.
  destruct (_tenant_network Sample.the_world) as [[network|e] w1] eqn:H;
    [|vm_compute in H; discriminate H].
  exists network, w1. split; [reflexivity|]. split.
  - exact (proj2 (proj1 (tenant_network_memoized Sample.the_world w1) network H)).
  - vm_compute in H. injection H as <- _. reflexivity.
Defined.

(** ** Images *)

(** X10.  An image is converted with NAT allowed unless its flag says
    otherwise: the flag of the converted image is false exactly when the
    image carries a flag whose text reads as the integer zero.  The
    conversion fails only with the [ValueError] of a flag that is no
    integer, or with the [TypeError] of a missing size. *)
Theorem from_sdk_image_nat_allowed (sdk_image : SdkImage.t) :
  (forall image,
     _from_sdk_image sdk_image = Return image ->
     (Image.nat_allowed image = false <->
      exists v, SdkImage.jasmin_nat_allowed sdk_image = Some v /\ py_int v = Some 0)) /\
  (forall e,
     _from_sdk_image sdk_image = Raise e ->
     (exists v m, SdkImage.jasmin_nat_allowed sdk_image = Some v /\
                  py_int v = None /\ e = ValueError m) \/
     (exists m, SdkImage.size sdk_image = None /\ e = TypeError m)).
Proof.
  unfold _from_sdk_image, flag_of_str, str_or.
  destruct (SdkImage.jasmin_nat_allowed sdk_image) as [[|a v]|]; cbn [PyStr.truthy].
  - change (py_int "1") with (Some 1). split.
    + intros image H. destruct (SdkImage.size sdk_image); [|discriminate].
      injection H as <-. cbn. split; [discriminate|].
      intros (v & Hv & Hint). injection Hv as <-. discriminate Hint.
    + intros e H. destruct (SdkImage.size sdk_image) eqn:Hs; [discriminate|].
      injection H as <-. right. eauto.
  - destruct (py_int (String a v)) as [n|] eqn:Hint.
    + split.
      * intros image H. destruct (SdkImage.size sdk_image); [|discriminate].
        injection H as <-. cbn [Image.nat_allowed]. unfold py_bool. split.
        -- intros Hb. apply negb_false_iff, Z.eqb_eq in Hb. subst n. eauto.
        -- intros (v' & Hv & Hint'). injection Hv as <-.
           rewrite Hint in Hint'. injection Hint' as ->. reflexivity.
      * intros e H. destruct (SdkImage.size sdk_image) eqn:Hs; [discriminate|].
        injection H as <-. right. eauto.
    + split; [discriminate|]. intros e H. injection H as <-. left. eauto.
  - change (py_int "1") with (Some 1). split.
    + intros image H. destruct (SdkImage.size sdk_image); [|discriminate].
      injection H as <-. cbn. split; [discriminate|].
      intros (v & Hv & _). discriminate Hv.
    + intros e H. destruct (SdkImage.size sdk_image) eqn:Hs; [discriminate|].
      injection H as <-. right. eauto.
Qed.

Lemma from_sdk_image_nat_allowed_witness :
  exists image,
    _from_sdk_image Sample.image_no_nat = Return image /\
    Image.nat_allowed image = false.
Proof.
  destruct (_from_sdk_image Sample.image_no_nat) as [image|e] eqn:H;
    [|vm_compute in H; discriminate H].
  exists image. split; [reflexivity|].
  apply (proj1 (from_sdk_image_nat_allowed Sample.image_no_nat) image H).
  exists "0". split; reflexivity.
Defined.

(** ** Machines, continued *)

Section MoreMachineProperties.

Variable Machine_Status_Type : list string.
Variable dateutil_parse : string -> option datetime.

(** The fields of a machine that was built, read off the steps that built
    it. *)
Lemma from_sdk_server_fields (sdk_server : SdkServer.t) (w w' : world)
    (machine : Machine.t) :
  _from_sdk_server Machine_Status_Type dateutil_parse sdk_server w = (Return machine, w') ->
  exists network,
    ip_of_type sdk_server network "fixed" = Return (Machine.internal_ip machine) /\
    ip_of_type sdk_server network "floating" = Return (Machine.external_ip machine) /\
    Machine.id machine = SdkServer.id sdk_server /\
    Machine.name machine = SdkServer.name sdk_server /\
    SdkServer.image sdk_server !! "id" = Some (Machine.image_id machine) /\
    SdkServer.flavor sdk_server !! "id" = Some (Machine.size_id machine) /\
    Machine.status_name (Machine.status machine) = SdkServer.status sdk_server /\
    Machine.type (Machine.status machine) =
      status_type Machine_Status_Type (SdkServer.status sdk_server) /\
    Machine.details (Machine.status machine) =
      match default ∅ (SdkServer.fault sdk_server) !! "message" with
      | Some f => if PyStr.truthy f then Some (_replace_resource_names f) else None
      | None => None
      end /\
    Machine.owner machine = SdkServer.user_id sdk_server /\
    dateutil_parse (SdkServer.created_at sdk_server) = Some (Machine.created machine).
Proof.
  intros H. unfold _from_sdk_server in H.
  invert_bind H. invert_bind H. rename a0 into network.
  invert_bind H. apply lift_Return_inv in Hstep1 as [Himg ->].
  invert_bind H. apply lift_Return_inv in Hstep1 as [Hflv ->].
  invert_bind H. apply lift_Return_inv in Hstep1 as [_ ->].
  invert_bind H. apply lift_Return_inv in Hstep1 as [Hfixed ->].
  invert_bind H. apply lift_Return_inv in Hstep1 as [Hfloat ->].
  invert_bind H. apply lift_Return_inv in Hstep1 as [_ ->].
  invert_bind H. apply lift_Return_inv in Hstep1 as [Hdate ->].
  unfold ret in H. injection H as <- _. cbn.
  exists network. unfold dict_item in Himg, Hflv.
  destruct (SdkServer.image sdk_server !! "id"); [|discriminate].
  destruct (SdkServer.flavor sdk_server !! "id"); [|discriminate].
  destruct (dateutil_parse (SdkServer.created_at sdk_server)); [|discriminate].
  injection Himg as <-. injection Hflv as <-. injection Hdate as <-.
  repeat split; assumption.
Qed.

Lemma find_address_spec (type a : string) (l : list Address) :
  addr <$> List.find (fun x => (version x =? 4)%Z && String.eqb (ip_type x) type) l =
    Some a ->
  exists address,
    In address l /\ addr address = a /\ version address = 4 /\ ip_type address = type.
Proof.
  intros Hfind.
  destruct (List.find _ l) as [address|] eqn:Hf; cbn in Hfind; [|discriminate Hfind].
  injection Hfind as <-. apply find_some in Hf as [Hin Hmatch].
  apply andb_true_iff in Hmatch as [Hv Ht].
  apply Z.eqb_eq in Hv. apply String.eqb_eq in Ht. eauto.
Qed.

(** The tenant network that a machine was built with: the one that
    [_tenant_network] returned after the NAT flag had been resolved. *)
Lemma from_sdk_server_network (sdk_server : SdkServer.t) (w w' : world)
    (machine : Machine.t) :
  _from_sdk_server Machine_Status_Type dateutil_parse sdk_server w = (Return machine, w') ->
  exists nat_allowed w1 network,
    resolve_nat_allowed sdk_server w = (Return nat_allowed, w1) /\
    _tenant_network w1 = (Return network, w') /\
    ip_of_type sdk_server network "fixed" = Return (Machine.internal_ip machine) /\
    ip_of_type sdk_server network "floating" = Return (Machine.external_ip machine).
Proof.
  intros H. unfold _from_sdk_server in H.
  apply bind_Return_inv in H as (nat_allowed & w1 & Hnat & H).
  apply bind_Return_inv in H as (network & w2 & Hnet & H).
  invert_bind H. apply lift_Return_inv in Hstep as [_ ->].
  invert_bind H. apply lift_Return_inv in Hstep as [_ ->].
  invert_bind H. apply lift_Return_inv in Hstep as [_ ->].
  invert_bind H. apply lift_Return_inv in Hstep as [Hfixed ->].
  invert_bind H. apply lift_Return_inv in Hstep as [Hfloat ->].
  invert_bind H. apply lift_Return_inv in Hstep as [_ ->].
  invert_bind H. apply lift_Return_inv in Hstep as [_ ->].
  unfold ret in H. injection H as <- <-. cbn.
  exists nat_allowed, w1, network. repeat split; assumption.
Qed.

(** X11.  The fixed and the floating IP of a machine are read from the
    addresses that the server has on the tenant network only, the network
    that [_tenant_network] returns while the machine is built: each is the
    address of the first IPv4 entry of the right type that the server has
    under the name of that network, and both are absent when the server has
    no address under that name, whatever addresses it has on other
    networks. *)
Theorem machine_ips_on_tenant_network (sdk_server : SdkServer.t) (w w' : world)
    (machine : Machine.t) :
  _from_sdk_server Machine_Status_Type dateutil_parse sdk_server w = (Return machine, w') ->
  exists nat_allowed w1 net,
    resolve_nat_allowed sdk_server w = (Return nat_allowed, w1) /\
    _tenant_network w1 = (Return (Some net), w') /\
    Machine.internal_ip machine =
      addr <$> List.find (fun a => (version a =? 4)%Z && String.eqb (ip_type a) "fixed")
                 (default [] (SdkServer.addresses sdk_server !! Network.name net)) /\
    Machine.external_ip machine =
      addr <$> List.find (fun a => (version a =? 4)%Z && String.eqb (ip_type a) "floating")
                 (default [] (SdkServer.addresses sdk_server !! Network.name net)) /\
    (forall a, Machine.internal_ip machine = Some a ->
       exists address,
         In address (default [] (SdkServer.addresses sdk_server !! Network.name net)) /\
         addr address = a /\ version address = 4 /\ ip_type address = "fixed") /\
    (forall a, Machine.external_ip machine = Some a ->
       exists address,
         In address (default [] (SdkServer.addresses sdk_server !! Network.name net)) /\
         addr address = a /\ version address = 4 /\ ip_type address = "floating") /\
    (SdkServer.addresses sdk_server !! Network.name net = None ->
     Machine.internal_ip machine = None /\ Machine.external_ip machine = None).
Proof.
  intros H.
  apply from_sdk_server_network in H
    as (nat_allowed & w1 & network & Hnat & Hnet & Hfixed & Hfloat).
  unfold ip_of_type in Hfixed, Hfloat.
  destruct network as [net|]; [|discriminate]. exists nat_allowed, w1, net.
  injection Hfixed as Hfixed. injection Hfloat as Hfloat.
  split; [exact Hnat|]. split; [exact Hnet|].
  split; [symmetry; exact Hfixed|]. split; [symmetry; exact Hfloat|].
  split; [intros a Ha; apply find_address_spec; congruence|].
  split; [intros a Ha; apply find_address_spec; congruence|].
  intros Hnone. rewrite Hnone in Hfixed, Hfloat. cbn in Hfixed, Hfloat.
  split; congruence.
Qed.

(** X12.  When [machines] returns, it returns one machine for each server
    that the compute service lists, in the same order and with the same
    ids and names. *)
Theorem machines_in_order (w w' : world) (ms : list Machine.t) :
  machines Machine_Status_Type dateutil_parse w = (Return ms, w') ->
  List.map Machine.id ms = List.map SdkServer.id (servers (backend w)) /\
  List.map Machine.name ms = List.map SdkServer.name (servers (backend w)).
Proof.
  intros H. apply machines_Return_inv in H.
  induction H as [|sdk m l l' Hb _ IH]; [split; reflexivity|].
  destruct Hb as (wi & wi' & Hb).
  apply from_sdk_server_fields in Hb as (network & _ & _ & Hid & Hname & _).
  destruct IH as [IH1 IH2]. cbn [List.map]. rewrite Hid, Hname, IH1, IH2.
  split; reflexivity.
Qed.

(** X13.  The status of a machine keeps the status text of the server; its
    type is that text when it names a member of the enumeration and [OTHER]
    otherwise; and the fault message, when there is one, is shown with the
    resource names rewritten, so that no word of the backend is left in
    it. *)
Theorem machine_status_normalized (sdk_server : SdkServer.t) (w w' : world)
    (machine : Machine.t) :
  _from_sdk_server Machine_Status_Type dateutil_parse sdk_server w = (Return machine, w') ->
  Machine.status_name (Machine.status machine) = SdkServer.status sdk_server /\
  (In (SdkServer.status sdk_server) Machine_Status_Type ->
   Machine.type (Machine.status machine) = SdkServer.status sdk_server) /\
  (~ In (SdkServer.status sdk_server) Machine_Status_Type ->
   Machine.type (Machine.status machine) = "OTHER") /\
  (forall details, Machine.details (Machine.status machine) = Some details ->
     forall old new, In (old, new) _REPLACEMENTS ->
                     PyStr.contains old details = false).
Proof.
  intros H. apply from_sdk_server_fields in H
    as (network & _ & _ & _ & _ & _ & _ & Hname & Htype & Hdetails & _).
  split; [exact Hname|]. rewrite Htype. unfold status_type.
  assert (Hex : existsb (String.eqb (SdkServer.status sdk_server)) Machine_Status_Type
                = true <-> In (SdkServer.status sdk_server) Machine_Status_Type).
  { rewrite existsb_exists. split.
    - intros (x & Hin & Heq). apply String.eqb_eq in Heq. now subst.
    - intros Hin. eexists. split; [exact Hin|apply String.eqb_refl]. }
  split; [|split].
  - intros Hin. apply Hex in Hin. now rewrite Hin.
  - intros Hnot. destruct (existsb _ _) eqn:E; [|reflexivity].
    exfalso. apply Hnot, Hex. reflexivity.
  - intros details Hd old new Hin. rewrite Hdetails in Hd.
    destruct (default ∅ (SdkServer.fault sdk_server) !! "message") as [f|];
      [|discriminate].
    destruct (PyStr.truthy f); [|discriminate]. injection Hd as <-.
    destruct (backend_words_absent f) as (H1 & H2 & H3 & H4).
    unfold _REPLACEMENTS in Hin.
    destruct Hin as [E|[E|[E|[E|[E|[]]]]]]; injection E as <- <-; try assumption.
    change "flavorRef" with ("flavor" ++ "Ref"). apply contains_app, H3.
Qed.

End MoreMachineProperties.

(** ** External IPs, continued *)

Lemma rebind_id (fip_id : string) (p : option string) (f : FloatingIP.t) :
  FloatingIP.id (rebind fip_id p f) = FloatingIP.id f.
Proof. unfold rebind. destruct (String.eqb _ _); reflexivity. Qed.

Lemma rebind_address (fip_id : string) (p : option string) (f : FloatingIP.t) :
  FloatingIP.floating_ip_address (rebind fip_id p f) = FloatingIP.floating_ip_address f.
Proof. unfold rebind. destruct (String.eqb _ _); reflexivity. Qed.

Lemma select_ips_address (address : string) (f : FloatingIP.t) (l : list FloatingIP.t) :
  In f (select_ips None (Some address) l) ->
  FloatingIP.floating_ip_address f = address.
Proof.
  intros H. apply select_ips_In in H as (_ & _ & H).
  cbn in H. apply String.eqb_eq in H. congruence.
Qed.

(** X14.  [detach_external_ip] looks the floating IP up by its address and
    clears its port: when the calls succeed it returns the external IP with
    no machine, and in the cloud the floating IP is bound to no port, whether
    or not it was bound before; no port is looked up.  The other floating IPs
    are as they were. *)
Theorem detach_external_ip_unbinds (ip : ExternalIp.t + string) (w : world)
    (fip : FloatingIP.t) (rest : list FloatingIP.t) :
  faults (backend w) (network_ips None (Some (address_of ip))) = None ->
  faults (backend w) (network_update_ip (FloatingIP.id fip) None) = None ->
  select_ips None (Some (address_of ip)) (floating_ips (backend w)) = fip :: rest ->
  exists w',
    detach_external_ip ip w = (Return (ExternalIp.mk (address_of ip) None), w') /\
    floating_ips (backend w') =
      List.map (rebind (FloatingIP.id fip) None) (floating_ips (backend w)) /\
    In (FloatingIP.mk (FloatingIP.id fip) (address_of ip) None)
       (floating_ips (backend w')) /\
    calls w' = network_update_ip (FloatingIP.id fip) None ::
               network_ips None (Some (address_of ip)) :: calls w /\
    (forall f, In f (floating_ips (backend w)) ->
               FloatingIP.id f <> FloatingIP.id fip ->
               In f (floating_ips (backend w'))).
Proof.
  intros Hf1 Hf2 Hsel.
  assert (Hin : In fip (select_ips None (Some (address_of ip))
                          (floating_ips (backend w))))
    by (rewrite Hsel; left; reflexivity).
  pose proof (select_ips_address _ _ _ Hin) as Haddr.
  apply select_ips_In in Hin as (Hin & _).
  eexists. split.
  - unfold detach_external_ip. apply convert_Return.
    unfold list_ips. unfold bind at 1.
    rewrite read_no_fault by exact Hf1. rewrite Hsel.
    unfold bind, update_ip.
    rewrite call_no_fault by exact Hf2.
    cbn [fst snd]. unfold _from_sdk_floatingip. cbn [FloatingIP.port_id].
    cbn [FloatingIP.floating_ip_address ret]. rewrite Haddr. reflexivity.
  - cbn [backend record_call set_backend set_floating_ips floating_ips calls].
    split; [reflexivity|]. split; [|split; [reflexivity|]].
    + apply in_map_iff. exists fip. split; [|exact Hin].
      unfold rebind. rewrite String.eqb_refl, Haddr. reflexivity.
    + intros f Hfin Hne. apply in_map_iff. exists f. split; [|exact Hfin].
      unfold rebind. destruct (String.eqb_spec (FloatingIP.id f) (FloatingIP.id fip));
        [contradiction|reflexivity].
Qed.

Lemma detach_external_ip_unbinds_witness :
  exists w',
    detach_external_ip (inr "172.16.0.10") Sample.the_world =
      (Return (ExternalIp.mk "172.16.0.10" None), w') /\
    floating_ips (backend w') = floating_ips (backend Sample.the_world).
Proof.
  destruct (detach_external_ip_unbinds (inr "172.16.0.10") Sample.the_world
              (FloatingIP.mk "fip-2" "172.16.0.10" None) [] eq_refl eq_refl)
    as (w' & Hres & Hips & _).
  - vm_compute. reflexivity.
  - exists w'. split; [exact Hres|]. rewrite Hips. vm_compute. reflexivity.
Defined.

(** X15.  For an address that no floating IP has, [detach_external_ip] and
    [find_external_ip] raise [ObjectNotFoundError] after the one listing: no
    update is sent and the cloud is left as it was. *)
Theorem external_ip_not_found (ip : ExternalIp.t + string) (w : world) :
  faults (backend w) (network_ips None (Some (address_of ip))) = None ->
  select_ips None (Some (address_of ip)) (floating_ips (backend w)) = [] ->
  detach_external_ip ip w =
    (Raise (Errors ObjectNotFoundError
              ("Could not find external IP '" ++ address_of ip ++ "'")),
     record_call (network_ips None (Some (address_of ip))) w) /\
  find_external_ip (address_of ip) w =
    (Raise (Errors ObjectNotFoundError
              ("Could not find external IP '" ++ address_of ip ++ "'")),
     record_call (network_ips None (Some (address_of ip))) w) /\
  backend (record_call (network_ips None (Some (address_of ip))) w) = backend w.
Proof.
  intros Hf Hsel. split; [|split; [|reflexivity]].
  - unfold detach_external_ip, convert_sdk_exceptions, list_ips, bind.
    rewrite read_no_fault by exact Hf. rewrite Hsel. reflexivity.
  - unfold find_external_ip, convert_sdk_exceptions, list_ips, bind.
    rewrite read_no_fault by exact Hf. rewrite Hsel. reflexivity.
Qed.

Lemma external_ip_not_found_witness :
  find_external_ip "10.9.9.9" Sample.the_world =
    (Raise (Errors ObjectNotFoundError "Could not find external IP '10.9.9.9'"),
     record_call (network_ips None (Some "10.9.9.9")) Sample.the_world).
Proof.
  exact (proj1 (proj2 (external_ip_not_found (inr "10.9.9.9") Sample.the_world
                         eq_refl eq_refl))).
Defined.

(** X16.  [find_external_ip] returns the floating IP that has the address
    asked for: with no machine when it is bound to no port, and with the
    device of its port when it is bound to one. *)
Theorem find_external_ip_machine (address : string) (w : world)
    (fip : FloatingIP.t) (rest : list FloatingIP.t) :
  faults (backend w) (network_ips None (Some address)) = None ->
  select_ips None (Some address) (floating_ips (backend w)) = fip :: rest ->
  (FloatingIP.port_id fip = None ->
   find_external_ip address w =
     (Return (ExternalIp.mk address None),
      record_call (network_ips None (Some address)) w)) /\
  (forall port_id port,
     FloatingIP.port_id fip = Some port_id ->
     PyStr.truthy port_id = true ->
     faults (backend w) (network_find_port port_id) = None ->
     List.find (fun p => String.eqb (Port.id p) port_id) (ports (backend w)) = Some port ->
     find_external_ip address w =
       (Return (ExternalIp.mk address (Some (Port.device_id port))),
        record_call (network_find_port port_id)
          (record_call (network_ips None (Some address)) w))).
Proof.
  intros Hf Hsel.
  assert (Hin : In fip (select_ips None (Some address) (floating_ips (backend w))))
    by (rewrite Hsel; left; reflexivity).
  pose proof (select_ips_address _ _ _ Hin) as Haddr.
  split.
  - intros Hnone. unfold find_external_ip. apply convert_Return.
    unfold list_ips, bind. rewrite read_no_fault by exact Hf. rewrite Hsel.
    unfold _from_sdk_floatingip. rewrite Hnone, Haddr. reflexivity.
  - intros port_id port Hport Htruthy Hfp Hfind.
    unfold find_external_ip. apply convert_Return.
    unfold list_ips. unfold bind at 1. rewrite read_no_fault by exact Hf.
    rewrite Hsel. unfold _from_sdk_floatingip. rewrite Hport, Htruthy.
    unfold find_port, bind. rewrite read_no_fault by exact Hfp.
    cbn [backend record_call]. rewrite Hfind, Haddr. reflexivity.
Qed.

Lemma find_external_ip_machine_witness :
  find_external_ip "172.16.0.9" Sample.the_world =
    (Return (ExternalIp.mk "172.16.0.9" (Some "srv-4")),
     record_call (network_find_port "port-4")
       (record_call (network_ips None (Some "172.16.0.9")) Sample.the_world)).
Proof.
  refine (proj2 (find_external_ip_machine "172.16.0.9" Sample.the_world
                   (FloatingIP.mk "fip-1" "172.16.0.9" (Some "port-4")) []
                   eq_refl _) "port-4" (Port.mk "port-4" "compute:nova" "srv-4" "net-1")
            eq_refl eq_refl eq_refl _).
  - vm_compute. reflexivity.
  - vm_compute. reflexivity.
Defined.

Lemma bind_assoc {A B C} (m : M A) (f : A -> M B) (g : B -> M C) (w : world) :
  bind (bind m f) g w = bind m (fun x => bind (f x) g) w.
Proof. unfold bind. destruct (m w) as [[a|e] w1]; reflexivity. Qed.

Section AttachExternalIp.

Variable Machine_Status_Type : list string.
Variable dateutil_parse : string -> option datetime.

(** X17.  [attach_external_ip] refuses a machine that may not have an
    external IP before it calls the network service: once the machine is at
    hand, the call raises [InvalidOperationError] and the world is the one
    that resolving the machine left. *)
Theorem attach_external_ip_nat_refused (ip : ExternalIp.t + string)
    (machine_arg : Machine.t + string) (machine : Machine.t) (w0 w : world) :
  resolve_machine Machine_Status_Type dateutil_parse machine_arg w0 = (Return machine, w) ->
  Machine.nat_allowed machine = false ->
  attach_external_ip Machine_Status_Type dateutil_parse ip machine_arg w0 =
    (Raise (Errors InvalidOperationError
              "Machine is not allowed to have an external IP address."), w) /\
  (forall m, machine_arg = inl m -> w = w0).
Proof.
  intros Hres Hnat. split.
  - unfold attach_external_ip, convert_sdk_exceptions.
    rewrite (bind_Return _ _ _ _ _ Hres), Hnat. reflexivity.
  - intros m ->. cbn in Hres. unfold ret in Hres. congruence.
Qed.

(** The part of [attach_external_ip] that runs once the port of the machine
    is known. *)
Lemma attach_external_ip_at_port (ip : ExternalIp.t + string)
    (machine_arg : Machine.t + string) (machine : Machine.t) (w0 w w1 : world)
    (net : Network.t) (machine_ports : list Port.t) :
  resolve_machine Machine_Status_Type dateutil_parse machine_arg w0 = (Return machine, w) ->
  Machine.nat_allowed machine = true ->
  _tenant_network w = (Return (Some net), w1) ->
  (forall c, faults (backend w) c = None) ->
  select_ports None (Some (Machine.id machine)) (Some (Network.id net))
    (ports (backend w)) = machine_ports ->
  attach_external_ip Machine_Status_Type dateutil_parse ip machine_arg w0 =
  convert_sdk_exceptions
    (match machine_ports with
     | [] => raise (Errors ImproperlyConfiguredError
                      "Machine is not connected to tenancy network.")
     | port :: _ =>
         bound <- list_ips (Some (Port.id port)) None;;
         match bound with
         | current :: _ => _ <- update_ip current None;; ret tt
         | [] => ret tt
         end;;;
         matching <- list_ips None (Some (address_of ip));;
         match matching with
         | [] => raise (Errors ObjectNotFoundError
                          ("Could not find external IP '" ++ address_of ip ++ "'"))
         | fip :: _ =>
             updated <- update_ip fip (Some (Port.id port));;
             _from_sdk_floatingip updated
         end
     end)
    (record_call (network_ports None (Some (Machine.id machine))
                    (Some (Network.id net))) w1).
Proof.
  intros Hmachine Hnat Hnet Hfaults Hports.
  pose proof (tenant_network_backend _ _ _ Hnet) as Hb1.
  unfold attach_external_ip, convert_sdk_exceptions.
  rewrite (bind_Return _ _ _ _ _ Hmachine), Hnat. cbn [negb].
  rewrite (bind_Return _ _ _ _ _ Hnet).
  unfold lift at 1. unfold bind at 1.
  unfold list_ports. unfold bind at 1.
  rewrite read_no_fault by (rewrite Hb1; apply Hfaults).
  rewrite Hb1, Hports. reflexivity.
Qed.

(** X18.  For a machine without a port on the tenant network,
    [attach_external_ip] raises [ImproperlyConfiguredError] and leaves every
    floating IP as it was. *)
Theorem attach_external_ip_no_port (ip : ExternalIp.t + string)
    (machine_arg : Machine.t + string) (machine : Machine.t) (w0 w w1 : world)
    (net : Network.t) :
  resolve_machine Machine_Status_Type dateutil_parse machine_arg w0 = (Return machine, w) ->
  Machine.nat_allowed machine = true ->
  _tenant_network w = (Return (Some net), w1) ->
  (forall c, faults (backend w) c = None) ->
  select_ports None (Some (Machine.id machine)) (Some (Network.id net))
    (ports (backend w)) = [] ->
  exists w',
    attach_external_ip Machine_Status_Type dateutil_parse ip machine_arg w0 =
      (Raise (Errors ImproperlyConfiguredError
                "Machine is not connected to tenancy network."), w') /\
    floating_ips (backend w') = floating_ips (backend w).
Proof.
  intros Hmachine Hnat Hnet Hfaults Hports.
  rewrite (attach_external_ip_at_port ip _ _ _ _ _ _ _ Hmachine Hnat Hnet Hfaults Hports).
  eexists. split; [reflexivity|].
  cbn [backend record_call]. now rewrite (tenant_network_backend _ _ _ Hnet).
Qed.

(** X19.  A successful [attach_external_ip] binds the floating IP with the
    address asked for to the port of the machine, after it has detached the
    floating IP that was bound to this port.  When at most one floating IP
    was bound to the port before, the one asked for is the only one bound
    to it afterwards. *)
Theorem attach_external_ip_exclusive (ip : ExternalIp.t + string)
    (machine_arg : Machine.t + string) (machine : Machine.t) (w0 w w1 : world)
    (net : Network.t) (port : Port.t) (rest : list Port.t)
    (bound : list FloatingIP.t) (fip : FloatingIP.t) (more : list FloatingIP.t) :
  resolve_machine Machine_Status_Type dateutil_parse machine_arg w0 = (Return machine, w) ->
  Machine.nat_allowed machine = true ->
  _tenant_network w = (Return (Some net), w1) ->
  (forall c, faults (backend w) c = None) ->
  select_ports None (Some (Machine.id machine)) (Some (Network.id net))
    (ports (backend w)) = port :: rest ->
  select_ips (Some (Port.id port)) None (floating_ips (backend w)) = bound ->
  (List.length bound <= 1)%nat ->
  select_ips None (Some (address_of ip)) (floating_ips (backend w)) = fip :: more ->
  exists external_ip w',
    attach_external_ip Machine_Status_Type dateutil_parse ip machine_arg w0 =
      (Return external_ip, w') /\
    ExternalIp.external_ip external_ip = address_of ip /\
    In (FloatingIP.mk (FloatingIP.id fip) (address_of ip) (Some (Port.id port)))
       (floating_ips (backend w')) /\
    (forall f, In f (floating_ips (backend w')) ->
               FloatingIP.port_id f = Some (Port.id port) ->
               FloatingIP.id f = FloatingIP.id fip) /\
    List.map FloatingIP.id (floating_ips (backend w')) =
      List.map FloatingIP.id (floating_ips (backend w)).
Proof.
  intros Hmachine Hnat Hnet Hfaults Hports Hbound Hlen Hsel.
  pose proof (tenant_network_backend _ _ _ Hnet) as Hb1.
  rewrite (attach_external_ip_at_port ip _ _ _ _ _ _ _ Hmachine Hnat Hnet Hfaults Hports).
  assert (Hfin : In fip (floating_ips (backend w)) /\
                 FloatingIP.floating_ip_address fip = address_of ip).
  { assert (Hin : In fip (select_ips None (Some (address_of ip))
                            (floating_ips (backend w))))
      by (rewrite Hsel; left; reflexivity).
    split; [apply select_ips_In in Hin as (Hin & _); exact Hin
           |exact (select_ips_address _ _ _ Hin)]. }
  destruct Hfin as [Hfin Haddr].
  assert (Hport_in : exists p,
            List.find (fun p => String.eqb (Port.id p) (Port.id port))
              (ports (backend w)) = Some p).
  { assert (Hp : In port (ports (backend w))).
    { assert (Hp' : In port (select_ports None (Some (Machine.id machine))
                               (Some (Network.id net)) (ports (backend w))))
        by (rewrite Hports; left; reflexivity).
      unfold select_ports in Hp'. apply filter_In in Hp'. tauto. }
    destruct (List.find (fun p => String.eqb (Port.id p) (Port.id port))
                (ports (backend w))) as [p|] eqn:E; [eauto|].
    exfalso. apply (find_none _ _ E) in Hp. rewrite String.eqb_refl in Hp.
    discriminate. }
  destruct Hport_in as [p Hp].
  (* the floating IPs once the port has been cleared *)
  set (cleared := match bound with
                  | current :: _ =>
                      List.map (rebind (FloatingIP.id current) None)
                        (floating_ips (backend w))
                  | [] => floating_ips (backend w)
                  end).
  assert (Hcleared_sel :
            select_ips None (Some (address_of ip)) cleared =
            match bound with
            | current :: _ => rebind (FloatingIP.id current) None fip ::
                              List.map (rebind (FloatingIP.id current) None) more
            | [] => fip :: more
            end).
  { unfold cleared. destruct bound as [|current others]; [exact Hsel|].
    rewrite select_ips_rebind, Hsel. reflexivity. }
  assert (Hcleared_free : forall g, In g cleared ->
            FloatingIP.port_id g <> Some (Port.id port)).
  { unfold cleared. intros g Hg Hgp. destruct bound as [|current others].
    - assert (Hs : In g (select_ips (Some (Port.id port)) None
                           (floating_ips (backend w)))).
      { apply select_ips_In. split; [exact Hg|]. split; [|reflexivity].
        unfold opt_matches. rewrite Hgp. apply String.eqb_refl. }
      rewrite Hbound in Hs. destruct Hs.
    - destruct others; [|simpl in Hlen; lia].
      apply in_map_iff in Hg as (g0 & <- & Hg0). unfold rebind in Hgp.
      destruct (String.eqb (FloatingIP.id g0) (FloatingIP.id current)) eqn:E;
        [discriminate Hgp|].
      assert (Hs : In g0 (select_ips (Some (Port.id port)) None
                            (floating_ips (backend w)))).
      { apply select_ips_In. split; [exact Hg0|]. split; [|reflexivity].
        unfold opt_matches. rewrite Hgp. apply String.eqb_refl. }
      rewrite Hbound in Hs. destruct Hs as [->|[]].
      rewrite String.eqb_refl in E. discriminate E. }
  assert (Hcleared_ids : List.map FloatingIP.id cleared =
                         List.map FloatingIP.id (floating_ips (backend w))).
  { unfold cleared. destruct bound as [|current others]; [reflexivity|].
    rewrite map_map. apply map_ext. intros f. apply rebind_id. }
  assert (Hcleared_in : exists fip',
            In fip' cleared /\ FloatingIP.id fip' = FloatingIP.id fip /\
            FloatingIP.floating_ip_address fip' = address_of ip /\
            exists more', select_ips None (Some (address_of ip)) cleared = fip' :: more').
  { rewrite Hcleared_sel. unfold cleared. destruct bound as [|current others].
    - exists fip. repeat split; eauto.
    - exists (rebind (FloatingIP.id current) None fip).
      rewrite rebind_id, rebind_address. repeat split; eauto.
      apply in_map, Hfin. }
  destruct Hcleared_in as (fip' & Hin' & Hid' & Haddr' & more' & Hsel').
  (* the run *)
  assert (Hrun : exists w2,
            (bound0 <- list_ips (Some (Port.id port)) None;;
             match bound0 with
             | current :: _ => _ <- update_ip current None;; ret tt
             | [] => ret tt
             end)
              (record_call (network_ports None (Some (Machine.id machine))
                              (Some (Network.id net))) w1) = (Return tt, w2) /\
            floating_ips (backend w2) = cleared /\
            faults (backend w2) = faults (backend w) /\
            ports (backend w2) = ports (backend w)).
  { unfold list_ips. unfold bind at 1.
    rewrite read_no_fault by (cbn [backend record_call]; rewrite Hb1; apply Hfaults).
    cbn [backend record_call]. rewrite Hb1, Hbound. unfold cleared.
    destruct bound as [|current others].
    - eexists. split; [reflexivity|]. cbn [backend record_call].
      rewrite Hb1. repeat split.
    - unfold bind, update_ip.
      rewrite call_no_fault by (cbn [backend record_call]; rewrite Hb1; apply Hfaults).
      eexists. split; [reflexivity|].
      cbn [fst snd backend record_call set_backend set_floating_ips floating_ips
           faults ports].
      rewrite Hb1. repeat split. }
  destruct Hrun as (w2 & Hrun & Hips2 & Hfaults2 & Hports2).
  set (program := (bound0 <- list_ips (Some (Port.id port)) None;; _)) in Hrun |- *.
  assert (Hresult : exists e w',
            (program;;;
             matching <- list_ips None (Some (address_of ip));;
             match matching with
             | [] => raise (Errors ObjectNotFoundError
                              ("Could not find external IP '" ++ address_of ip ++ "'"))
             | fip0 :: _ =>
                 updated <- update_ip fip0 (Some (Port.id port));;
                 _from_sdk_floatingip updated
             end)
              (record_call (network_ports None (Some (Machine.id machine))
                              (Some (Network.id net))) w1) = (Return e, w') /\
            ExternalIp.external_ip e = address_of ip /\
            floating_ips (backend w') =
              List.map (rebind (FloatingIP.id fip') (Some (Port.id port))) cleared).
  { rewrite (bind_Return _ _ _ _ _ Hrun).
    unfold list_ips. unfold bind at 1.
    rewrite read_no_fault by (rewrite Hfaults2; apply Hfaults).
    rewrite Hips2, Hsel'. unfold bind at 1. unfold update_ip.
    rewrite call_no_fault
      by (cbn [backend record_call]; rewrite Hfaults2; apply Hfaults).
    cbn [fst snd]. unfold _from_sdk_floatingip.
    cbn [FloatingIP.port_id FloatingIP.floating_ip_address].
    destruct (PyStr.truthy (Port.id port)).
    - unfold find_port, bind.
      rewrite read_no_fault
        by (cbn [backend record_call set_backend set_floating_ips faults];
            rewrite Hfaults2; apply Hfaults).
      cbn [backend record_call set_backend set_floating_ips ports].
      rewrite Hports2, Hp. eexists _, _. split; [reflexivity|].
      cbn [ExternalIp.external_ip backend record_call set_backend set_floating_ips
           floating_ips].
      rewrite Hips2. split; [exact Haddr'|reflexivity].
    - eexists _, _. split; [reflexivity|].
      cbn [ExternalIp.external_ip backend record_call set_backend set_floating_ips
           floating_ips].
      rewrite Hips2. split; [exact Haddr'|reflexivity]. }
  destruct Hresult as (e & w' & Hres & Hext & Hfinal).
  subst program. rewrite bind_assoc in Hres.
  exists e, w'. split; [apply convert_Return; exact Hres|].
  split; [exact Hext|]. rewrite Hfinal. split; [|split].
  - apply in_map_iff. exists fip'. split; [|exact Hin'].
    unfold rebind. rewrite String.eqb_refl, Hid', Haddr'. reflexivity.
  - intros f Hf Hfp. apply in_map_iff in Hf as (g & <- & Hg).
    rewrite rebind_id. unfold rebind in Hfp.
    destruct (String.eqb_spec (FloatingIP.id g) (FloatingIP.id fip')) as [E|E];
      [congruence|].
    exfalso. exact (Hcleared_free g Hg Hfp).
  - rewrite map_map. rewrite <- Hcleared_ids. apply map_ext. intros f.
    apply rebind_id.
Qed.

End AttachExternalIp.

Lemma machine_ips_on_tenant_network_witness :
  exists machine w',
    find_machine Sample.Machine_Status_Type Sample.dateutil_parse "srv-1"
      Sample.the_world = (Return machine, w') /\
    Machine.internal_ip machine = Some "192.168.0.5" /\
    exists w1 address,
      _tenant_network w1 = (Return (Some (Network.mk "net-1" "tenant-net")), w') /\
      In address (default []
        (SdkServer.addresses (Sample.server "srv-1" "img-1" 1 (Sample.flagged "0"))
           !! "tenant-net")) /\
      addr address = "192.168.0.5" /\ ip_type address = "fixed".
Proof.
  destruct (find_machine Sample.Machine_Status_Type Sample.dateutil_parse "srv-1"
              Sample.the_world) as [[machine|e] w'] eqn:H;
    [|vm_compute in H; discriminate H].
  exists machine, w'. split; [reflexivity|].
  pose proof H as Hv. vm_compute in Hv. injection Hv as Hm Hw.
  apply find_machine_Return_inv in H as (sdk & Hsdk & H).
  vm_compute in Hsdk. injection Hsdk as <-.
  destruct (machine_ips_on_tenant_network _ _ _ _ _ _ H)
    as (nat_allowed & w1 & net & Hnat & Hnet & _ & _ & Hfixed & _).
  assert (Hip : Machine.internal_ip machine = Some "192.168.0.5")
    by (rewrite <- Hm; reflexivity).
  split; [exact Hip|].
  assert (Hw1 : w1 = record_call (compute_get_server "srv-1") Sample.the_world).
  { vm_compute in Hnat. injection Hnat as _ <-. reflexivity. }
  assert (Hname : net = Network.mk "net-1" "tenant-net").
  { rewrite Hw1 in Hnet. vm_compute in Hnet. injection Hnet as <- _. reflexivity. }
  rewrite Hname in Hnet, Hfixed.
  destruct (Hfixed _ Hip) as (address & Hin & Ha & _ & Ht).
  exists w1, address. auto.
Defined.

Lemma machines_in_order_witness :
  exists ms w',
    machines Sample.Machine_Status_Type Sample.dateutil_parse Demo.world_of_three =
      (Return ms, w') /\
    List.map Machine.id ms = [ "srv-1"; "srv-2"; "srv-3" ].
Proof.
  destruct (machines Sample.Machine_Status_Type Sample.dateutil_parse
              Demo.world_of_three) as [[ms|e] w'] eqn:H;
    [|vm_compute in H; discriminate H].
  exists ms, w'. split; [reflexivity|].
  rewrite (proj1 (machines_in_order _ _ _ _ _ H)). reflexivity.
Defined.

Lemma machine_status_normalized_witness :
  exists machine w',
    find_machine Sample.Machine_Status_Type Sample.dateutil_parse "srv-1"
      Sample.the_world = (Return machine, w') /\
    Machine.type (Machine.status machine) = "ACTIVE".
Proof.
  destruct (find_machine Sample.Machine_Status_Type Sample.dateutil_parse "srv-1"
              Sample.the_world) as [[machine|e] w'] eqn:H;
    [|vm_compute in H; discriminate H].
  exists machine, w'. split; [reflexivity|].
  apply find_machine_Return_inv in H as (sdk & Hsdk & H).
  vm_compute in Hsdk. injection Hsdk as <-.
  apply (proj1 (proj2 (machine_status_normalized _ _ _ _ _ _ H))).
  unfold Sample.Machine_Status_Type. simpl. tauto.
Defined.

Lemma attach_external_ip_nat_refused_witness :
  attach_external_ip Sample.Machine_Status_Type Sample.dateutil_parse
    (inr "172.16.0.10") (inl Demo.machine_1) Sample.the_world =
  (Raise (Errors InvalidOperationError
            "Machine is not allowed to have an external IP address."),
   Sample.the_world).
Proof.
  exact (proj1 (attach_external_ip_nat_refused Sample.Machine_Status_Type
                  Sample.dateutil_parse (inr "172.16.0.10") (inl Demo.machine_1)
                  Demo.machine_1 Sample.the_world Sample.the_world eq_refl eq_refl)).
Defined.

Lemma attach_external_ip_no_port_witness :
  exists w',
    attach_external_ip Sample.Machine_Status_Type Sample.dateutil_parse
      (inr "172.16.0.10") (inl Demo.machine_2) Sample.the_world =
    (Raise (Errors ImproperlyConfiguredError
              "Machine is not connected to tenancy network."), w') /\
    floating_ips (backend w') = Sample.floating_ips.
Proof.
  refine (attach_external_ip_no_port Sample.Machine_Status_Type
            Sample.dateutil_parse (inr "172.16.0.10") (inl Demo.machine_2)
            Demo.machine_2 Sample.the_world Sample.the_world
            Demo.world_with_network (Network.mk "net-1" "tenant-net")
            eq_refl eq_refl _ (fun c => eq_refl) _).
  - vm_compute. reflexivity.
  - vm_compute. reflexivity.
Defined.

Lemma attach_external_ip_exclusive_witness :
  exists external_ip w',
    attach_external_ip Sample.Machine_Status_Type Sample.dateutil_parse
      (inr "172.16.0.10") (inl Sample.machine_4) Sample.the_world =
      (Return external_ip, w') /\
    ExternalIp.external_ip external_ip = "172.16.0.10" /\
    In (FloatingIP.mk "fip-2" "172.16.0.10" (Some "port-4"))
       (floating_ips (backend w')).
Proof.
  destruct (attach_external_ip_exclusive Sample.Machine_Status_Type
              Sample.dateutil_parse (inr "172.16.0.10") (inl Sample.machine_4)
              Sample.machine_4 Sample.the_world Sample.the_world
              Demo.world_with_network (Network.mk "net-1" "tenant-net")
              (Port.mk "port-4" "compute:nova" "srv-4" "net-1") []
              [ FloatingIP.mk "fip-1" "172.16.0.9" (Some "port-4") ]
              (FloatingIP.mk "fip-2" "172.16.0.10" None) [])
    as (e & w' & Hres & Hext & Hin & _).
  - reflexivity.
  - reflexivity.
  - vm_compute. reflexivity.
  - intros c. reflexivity.
  - vm_compute. reflexivity.
  - vm_compute. reflexivity.
  - simpl. lia.
  - vm_compute. reflexivity.
  - exists e, w'. auto.
Defined.

(** ** Volumes, continued *)

Lemma take_length (n : nat) : forall s, (String.length (PyStr.take n s) <= n)%nat.
Proof.
  induction n as [|n IH]; intros [|c s]; simpl; try lia.
  specialize (IH s). lia.
Qed.

Lemma take_prefix (n : nat) : forall s, PyStr.startswith (PyStr.take n s) s = true.
Proof.
  induction n as [|n IH]; intros [|c s]; simpl; try reflexivity.
  rewrite Ascii.eqb_refl. apply IH.
Qed.

(** X20.  A volume takes its name from the service when it has one, and
    otherwise a prefix of at most thirteen characters of its id.  It is
    attached to a machine exactly when the service lists an attachment, and
    then the machine and the device are those of the first attachment. *)
Theorem from_sdk_volume_fields (sdk_volume : SdkVolume.t) :
  let volume := _from_sdk_volume sdk_volume in
  Volume.id volume = SdkVolume.id sdk_volume /\
  (forall name, SdkVolume.name sdk_volume = Some name -> name <> "" ->
     Volume.name volume = name) /\
  (SdkVolume.name sdk_volume = None \/ SdkVolume.name sdk_volume = Some "" ->
     (String.length (Volume.name volume) <= 13)%nat /\
     PyStr.startswith (Volume.name volume) (SdkVolume.id sdk_volume) = true) /\
  (SdkVolume.attachments sdk_volume = [] ->
     Volume.machine_id volume = None /\ Volume.device volume = None) /\
  (forall a rest, SdkVolume.attachments sdk_volume = a :: rest ->
     Volume.machine_id volume = Some (server_id a) /\
     Volume.device volume = Some (device a)).
Proof.
  cbn zeta. unfold _from_sdk_volume. cbn [Volume.id Volume.name Volume.machine_id
                                          Volume.device].
  split; [reflexivity|]. split; [|split; [|split]].
  - intros name -> Hne. unfold str_or. destruct name; [contradiction|reflexivity].
  - intros [->| ->]; cbn [str_or PyStr.truthy];
      (split; [apply take_length|apply take_prefix]).
  - intros ->. split; reflexivity.
  - intros a rest ->. split; reflexivity.
Qed.

Lemma from_sdk_volume_fields_witness :
  Volume.name (_from_sdk_volume (SdkVolume.mk "0123456789abcdef" None "available" 5 [])) =
    "0123456789abc" /\
  (String.length "0123456789abc" <= 13)%nat.
Proof.
  split; [reflexivity|].
  exact (proj1 (proj1 (proj2 (proj2 (from_sdk_volume_fields
           (SdkVolume.mk "0123456789abcdef" None "available" 5 []))))
           (or_introl eq_refl))).
Defined.

(** ** The requests that change machines, volumes and addresses *)

Lemma bindx_Return {A B} (m : Mx A) (k : A -> Mx B) (x x1 : xworld) (a : A) :
  m x = (Return a, x1) -> bindx m k x = k a x1.
Proof. intros H. unfold bindx. rewrite H. reflexivity. Qed.

Lemma bindx_Raise {A B} (m : Mx A) (k : A -> Mx B) (x x1 : xworld) (e : exn) :
  m x = (Raise e, x1) -> bindx m k x = (Raise e, x1).
Proof. intros H. unfold bindx. rewrite H. reflexivity. Qed.

Lemma convertx_Return {A} (f : Mx A) (x x' : xworld) (a : A) :
  f x = (Return a, x') -> convert_sdk_exceptionsx f x = (Return a, x').
Proof. intros H. unfold convert_sdk_exceptionsx. rewrite H. reflexivity. Qed.

Lemma convertx_Raise {A} (f : Mx A) (x x' : xworld) (e : exn) :
  f x = (Raise e, x') ->
  convert_sdk_exceptionsx f x = (Raise (convert_exception e), x').
Proof. intros H. unfold convert_sdk_exceptionsx. rewrite H. reflexivity. Qed.

Lemma liftx_run {A} (m : M A) (x : xworld) (r : result A) (w : world) :
  m (base x) = (r, w) -> liftx m x = (r, set_base w x).
Proof. intros H. unfold liftx. rewrite H. reflexivity. Qed.

Lemma ask_accepted {A} (q : request) (answer : services -> result A) (x : xworld) :
  refused (other x) q = None ->
  ask q answer x = (answer (other x), record_request q x).
Proof. intros H. unfold ask. cbn. rewrite H. reflexivity. Qed.

Lemma ask_refused {A} (q : request) (answer : services -> result A) (x : xworld)
    (e : exn) :
  refused (other x) q = Some e ->
  ask q answer x = (Raise e, record_request q x).
Proof. intros H. unfold ask. cbn. rewrite H. reflexivity. Qed.

Lemma order_accepted {A} (q : request) (answer : services -> result A) (x : xworld) :
  refused (other x) q = None ->
  order q answer x =
    (answer (other x),
     set_base (set_backend (accept (other x) q (backend (base x))) (base x))
       (record_request q x)).
Proof. intros H. unfold order. cbn. rewrite H. reflexivity. Qed.

Lemma order_refused {A} (q : request) (answer : services -> result A) (x : xworld)
    (e : exn) :
  refused (other x) q = Some e ->
  order q answer x = (Raise e, record_request q x).
Proof. intros H. unfold order. cbn. rewrite H. reflexivity. Qed.

Lemma resolve_volume_backend (volume : Volume.t + string) (w w1 : world)
    (r : result Volume.t) :
  resolve_volume volume w = (r, w1) -> backend w1 = backend w.
Proof.
  intros H. rewrite (resolve_volume_calls _ _ _ _ H).
  destruct volume; reflexivity.
Qed.

(** X21.  [sizes] leaves the disabled flavors out: when the compute service
    answers, the sizes returned are those of the flavors that are not
    disabled, and of no other, one size for each, with the id and the name
    of its flavor. *)
Theorem sizes_enabled_only (x : xworld) :
  refused (other x) compute_flavors = None ->
  exists l,
    sizes x = (Return l, record_request compute_flavors x) /\
    (forall size, In size l <->
       exists f, In f (flavors (other x)) /\ SdkFlavor.is_disabled f = false /\
                 size = _from_sdk_flavor f) /\
    (List.length l <= List.length (flavors (other x)))%nat.
Proof.
  intros Hok. eexists. split; [|split].
  - unfold sizes. apply convertx_Return.
    rewrite (bindx_Return _ _ _ _ _
               (ask_accepted compute_flavors (fun s => Return (flavors s)) x Hok)).
    reflexivity.
  - intros size. rewrite in_map_iff. split.
    + intros (f & <- & Hin). apply filter_In in Hin as [Hin Hd].
      exists f. split; [exact Hin|]. split; [|reflexivity].
      destruct (SdkFlavor.is_disabled f); [discriminate Hd|reflexivity].
    + intros (f & Hin & Hd & ->). exists f. split; [reflexivity|].
      apply filter_In. split; [exact Hin|]. rewrite Hd. reflexivity.
  - rewrite length_map. apply filter_length_le.
Qed.

(** X22.  [delete_volume] refuses a volume that is neither available nor in
    error: it raises [InvalidOperationError] with the name of the status,
    makes no request to delete, and leaves the cloud as it is. *)
Theorem delete_volume_busy (volume : Volume.t + string) (v : Volume.t)
    (w : world) (x : xworld) :
  resolve_volume volume (base x) = (Return v, w) ->
  Volume.status v <> Volume.AVAILABLE ->
  Volume.status v <> Volume.ERROR ->
  exists x',
    delete_volume volume x =
      (Raise (Errors InvalidOperationError
                ("Cannot delete volume with status " ++
                 Status_name (Volume.status v) ++ ".")), x') /\
    requests x' = requests x /\
    backend (base x') = backend (base x).
Proof.
  intros Hres Ha He. exists (set_base w x). split; [|split].
  - unfold delete_volume, convert_sdk_exceptionsx.
    rewrite (bindx_Return _ _ _ _ _ (liftx_run _ _ _ _ Hres)).
    destruct (Volume.status v); try congruence; reflexivity.
  - reflexivity.
  - cbn. exact (resolve_volume_backend _ _ _ _ Hres).
Qed.

(** X25.  [detach_volume] is idempotent: a volume that is attached to no
    machine is returned as it is, and no request to detach is made. *)
Theorem detach_volume_detached (volume : Volume.t + string) (v : Volume.t)
    (w : world) (x : xworld) :
  resolve_volume volume (base x) = (Return v, w) ->
  Volume.machine_id v = None \/ Volume.machine_id v = Some "" ->
  exists x',
    detach_volume volume x = (Return v, x') /\
    requests x' = requests x /\
    backend (base x') = backend (base x).
Proof.
  intros Hres Hm. exists (set_base w x). split; [|split].
  - unfold detach_volume, convert_sdk_exceptionsx.
    rewrite (bindx_Return _ _ _ _ _ (liftx_run _ _ _ _ Hres)).
    destruct Hm as [-> | ->]; reflexivity.
  - reflexivity.
  - cbn. exact (resolve_volume_backend _ _ _ _ Hres).
Qed.

(** X28.  [allocate_external_ip] asks for an address on the external network
    of the first router only: after listing the routers it makes at most one
    more request, to create an address on the network that the gateway of
    the first router names; without a router it raises
    [ImproperlyConfiguredError] and creates nothing. *)
Theorem allocate_external_ip_network (x : xworld) (r : result ExternalIp.t)
    (x' : xworld) :
  allocate_external_ip x = (r, x') ->
  (requests x' = network_routers :: requests x /\
   (refused (other x) network_routers = None -> routers (other x) = [] ->
    r = Raise (Errors ImproperlyConfiguredError "Could not find tenancy router."))) \/
  (exists router rest info extnet,
     routers (other x) = router :: rest /\
     Router.external_gateway_info router = Some info /\
     info !! "network_id" = Some extnet /\
     requests x' = network_create_ip extnet :: network_routers :: requests x).
Proof.
  unfold allocate_external_ip, convert_sdk_exceptionsx.
  destruct (refused (other x) network_routers) as [e|] eqn:Hr.
  - rewrite (bindx_Raise _ _ _ _ _
               (ask_refused network_routers (fun s => Return (routers s)) x e Hr)).
    intros H. injection H as <- <-. left. split; [reflexivity|]. discriminate.
  - rewrite (bindx_Return _ _ _ _ _
               (ask_accepted network_routers (fun s => Return (routers s)) x Hr)).
    destruct (routers (other x)) as [|router rest] eqn:Hrs.
    + intros H. injection H as <- <-. left. split; [reflexivity|].
      intros _ _. reflexivity.
    + destruct (Router.external_gateway_info router) as [info|] eqn:Hinfo.
      * unfold dict_item.
        destruct (info !! "network_id") as [extnet|] eqn:Hnet.
        -- intros H. right. exists router, rest, info, extnet.
           repeat (split; [reflexivity || assumption|]).
           unfold bindx at 1 in H. cbn in H.
           unfold bindx, order, liftx in H. cbn in H.
           destruct (refused (other x) (network_create_ip extnet)).
           ++ injection H as <- <-. reflexivity.
           ++ cbn in H.
              destruct (_from_sdk_floatingip _ _) as [r0 w0].
              destruct r0; injection H as <- <-; reflexivity.
        -- intros H. unfold bindx in H. cbn in H. injection H as <- <-.
           left. split; [reflexivity|]. discriminate.
      * intros H. unfold bindx in H. cbn in H. injection H as <- <-.
        left. split; [reflexivity|]. discriminate.
Qed.


Lemma find_volume_missing (id : string) (w : world) :
  faults (backend w) (block_store_get_volume id) = None ->
  List.find (fun v => String.eqb (SdkVolume.id v) id) (stored_volumes (backend w)) = None ->
  exists message,
    find_volume id w =
      (Raise (Errors ObjectNotFoundError message), record_call (block_store_get_volume id) w).
Proof.
  intros Hf Hfind. eexists. unfold find_volume, convert_sdk_exceptions, bind, get_volume.
  rewrite read_no_fault by exact Hf. rewrite Hfind. reflexivity.
Qed.

Lemma find_machine_missing (Machine_Status_Type : list string)
    (dateutil_parse : string -> option datetime) (id : string) (w : world) :
  faults (backend w) (compute_get_server id) = None ->
  List.find (fun s => String.eqb (SdkServer.id s) id) (servers (backend w)) = None ->
  exists message,
    find_machine Machine_Status_Type dateutil_parse id w =
      (Raise (Errors ObjectNotFoundError message), record_call (compute_get_server id) w).
Proof.
  intros Hf Hfind. eexists. unfold find_machine, convert_sdk_exceptions, bind, get_server.
  rewrite read_no_fault by exact Hf. rewrite Hfind. reflexivity.
Qed.

(** X23.  [delete_volume] answers a deletion that has been carried out with
    [None]: for a volume that is available or in error, when the block store
    accepts the request and no longer has the volume afterwards, the call
    returns [None], not an error, after one request to delete the volume. *)
Theorem delete_volume_gone (volume : Volume.t + string) (v : Volume.t)
    (w : world) (x : xworld) :
  resolve_volume volume (base x) = (Return v, w) ->
  Volume.status v = Volume.AVAILABLE \/ Volume.status v = Volume.ERROR ->
  refused (other x) (block_store_delete_volume (Volume.id v)) = None ->
  faults (accept (other x) (block_store_delete_volume (Volume.id v)) (backend w))
    (block_store_get_volume (Volume.id v)) = None ->
  List.find (fun s => String.eqb (SdkVolume.id s) (Volume.id v))
    (stored_volumes
       (accept (other x) (block_store_delete_volume (Volume.id v)) (backend w))) = None ->
  exists x',
    delete_volume volume x = (Return None, x') /\
    requests x' = block_store_delete_volume (Volume.id v) :: requests x.
Proof.
  intros Hres Hst Hok Hf Hgone.
  unfold delete_volume, convert_sdk_exceptionsx.
  rewrite (bindx_Return _ _ _ _ _ (liftx_run _ _ _ _ Hres)).
  assert (Hguard : negb (Volume.Status_eqb (Volume.status v) Volume.AVAILABLE ||
                         Volume.Status_eqb (Volume.status v) Volume.ERROR) = false)
    by (destruct Hst as [-> | ->]; reflexivity).
  rewrite Hguard.
  rewrite (bindx_Return _ _ _ _ _
             (order_accepted (block_store_delete_volume (Volume.id v))
                (fun _ => Return tt) (set_base w x) Hok)).
  unfold find_volume_or_none, try_exceptx.
  destruct (find_volume_missing (Volume.id v)
              (set_backend (accept (other x) (block_store_delete_volume (Volume.id v))
                              (backend w)) w) Hf Hgone) as [message Hmiss].
  unfold bindx at 1.
  erewrite liftx_run by exact Hmiss.
  eexists. split; reflexivity.
Qed.

(** X24.  [delete_machine] answers a deletion that has been carried out with
    [None]: when the compute service accepts the request and no longer has
    the server afterwards, the call returns [None], not an error, after one
    request to delete the server. *)
Theorem delete_machine_gone (Machine_Status_Type : list string)
    (dateutil_parse : string -> option datetime)
    (machine : Machine.t + string) (x : xworld) :
  refused (other x) (compute_delete_server (machine_id_of machine)) = None ->
  faults (accept (other x) (compute_delete_server (machine_id_of machine))
            (backend (base x)))
    (compute_get_server (machine_id_of machine)) = None ->
  List.find (fun s => String.eqb (SdkServer.id s) (machine_id_of machine))
    (servers (accept (other x) (compute_delete_server (machine_id_of machine))
                (backend (base x)))) = None ->
  exists x',
    delete_machine Machine_Status_Type dateutil_parse machine x = (Return None, x') /\
    requests x' = compute_delete_server (machine_id_of machine) :: requests x.
Proof.
  intros Hok Hf Hgone.
  unfold delete_machine, convert_sdk_exceptionsx.
  rewrite (bindx_Return _ _ _ _ _
             (order_accepted (compute_delete_server (machine_id_of machine))
                (fun _ => Return tt) x Hok)).
  unfold try_exceptx.
  destruct (find_machine_missing Machine_Status_Type dateutil_parse
              (machine_id_of machine)
              (set_backend (accept (other x) (compute_delete_server (machine_id_of machine))
                              (backend (base x))) (base x)) Hf Hgone)
    as [message Hmiss].
  unfold bindx at 1.
  erewrite liftx_run by exact Hmiss.
  eexists. split; reflexivity.
Qed.

(** X26.  [create_machine] reports an image that cannot be found as bad
    input: when looking the image up raises [ObjectNotFoundError], the call
    raises [BadInputError] and asks the compute service for nothing. *)
Theorem create_machine_invalid_image (Machine_Status_Type : list string)
    (dateutil_parse : string -> option datetime)
    (fingerprint : string -> result string)
    (self : ScopedSession.t) (name id : string) (size : Size.t + string)
    (ssh_key : option string) (x : xworld) (message : string) (w : world) :
  find_image id (base x) = (Raise (Errors ObjectNotFoundError message), w) ->
  exists x',
    create_machine Machine_Status_Type dateutil_parse fingerprint self name
      (inr id) size ssh_key x =
      (Raise (Errors BadInputError "Invalid image provided"), x') /\
    requests x' = requests x.
Proof.
  intros Hfind. unfold create_machine, convert_sdk_exceptionsx.
  unfold bindx at 1. unfold try_exceptx.
  rewrite (liftx_run _ _ _ _ Hfind). cbn.
  eexists. split; reflexivity.
Qed.


Lemma find_app_last {A} (f : A -> bool) (l : list A) (a : A) :
  List.find f l = None -> f a = true -> List.find f (l ++ [a])%list = Some a.
Proof.
  intros Hnone Ha. induction l as [|b l IH]; cbn in *.
  - rewrite Ha. reflexivity.
  - destruct (f b); [discriminate Hnone|]. apply IH. exact Hnone.
Qed.

(** X29.  [_get_or_create_keypair] makes one key pair for a key: when the
    digest of the key can be taken and the compute service refuses nothing,
    the call returns a key pair named after the user and the digest, and a
    second call with the same key returns the same key pair after asking for
    it only, without creating another. *)
Theorem get_or_create_keypair_once (fingerprint : string -> result string)
    (self : ScopedSession.t) (ssh_key digest : string) (x : xworld) :
  fingerprint ssh_key = Return digest ->
  refused (other x)
    (compute_find_keypair (ScopedSession.username self ++ "-" ++ digest)) = None ->
  refused (other x)
    (compute_create_keypair (ScopedSession.username self ++ "-" ++ digest) ssh_key) = None ->
  exists keypair x1,
    _get_or_create_keypair fingerprint self ssh_key x = (Return keypair, x1) /\
    Keypair.name keypair = ScopedSession.username self ++ "-" ++ digest /\
    _get_or_create_keypair fingerprint self ssh_key x1 =
      (Return keypair,
       record_request
         (compute_find_keypair (ScopedSession.username self ++ "-" ++ digest)) x1).
Proof.
  intros Hd Hfind Hcreate.
  set (key_name := ScopedSession.username self ++ "-" ++ digest) in *.
  assert (Hrun : forall y,
            _get_or_create_keypair fingerprint self ssh_key y =
            try_exceptx (find_keypair key_name)
              (fun e => match e with
                        | ResourceNotFound _ => Some (create_keypair key_name ssh_key)
                        | _ => None
                        end) y).
  { intros y. unfold _get_or_create_keypair, bindx. rewrite Hd. reflexivity. }
  rewrite Hrun.
  destruct (List.find (fun k => String.eqb (Keypair.name k) key_name)
              (keypairs (other x))) as [k|] eqn:Hk.
  - exists k, (record_request (compute_find_keypair key_name) x).
    assert (Hfirst : forall y, other y = other x ->
              try_exceptx (find_keypair key_name)
                (fun e => match e with
                          | ResourceNotFound _ => Some (create_keypair key_name ssh_key)
                          | _ => None
                          end) y =
              (Return k, record_request (compute_find_keypair key_name) y)).
    { intros y Hy. unfold try_exceptx, find_keypair.
      rewrite ask_accepted by (rewrite Hy; exact Hfind).
      rewrite Hy, Hk. reflexivity. }
    split; [apply Hfirst; reflexivity|]. split.
    + apply find_some in Hk as [_ Hk]. apply String.eqb_eq in Hk. exact Hk.
    + rewrite Hrun. apply Hfirst. reflexivity.
  - exists (Keypair.mk key_name ssh_key).
    eexists. split; [|split].
    + unfold try_exceptx, find_keypair.
      rewrite ask_accepted by exact Hfind. rewrite Hk.
      unfold not_found, create_keypair. cbn. rewrite Hcreate. reflexivity.
    + reflexivity.
    + rewrite Hrun. unfold try_exceptx, find_keypair.
      rewrite ask_accepted by exact Hfind. cbn.
      rewrite (find_app_last _ _ (Keypair.mk key_name ssh_key) Hk)
        by (cbn; apply String.eqb_refl).
      reflexivity.
Qed.


Lemma bindx_Return_inv {A B} (m : Mx A) (k : A -> Mx B) (x x' : xworld) (b : B) :
  bindx m k x = (Return b, x') ->
  exists a x1, m x = (Return a, x1) /\ k a x1 = (Return b, x').
Proof.
  unfold bindx. destruct (m x) as [[a|e] x1]; intros H.
  - exists a, x1. split; [reflexivity|exact H].
  - discriminate H.
Qed.

Lemma liftx_inv {A} (m : M A) (x x' : xworld) (r : result A) :
  liftx m x = (r, x') -> exists w, m (base x) = (r, w) /\ x' = set_base w x.
Proof.
  unfold liftx. destruct (m (base x)) as [r0 w]. intros H. injection H as <- <-.
  exists w. split; reflexivity.
Qed.

Lemma order_Return_inv {A} (q : request) (answer : services -> result A)
    (x x' : xworld) (a : A) :
  order q answer x = (Return a, x') ->
  answer (other x) = Return a /\
  x' = set_base (set_backend (accept (other x) q (backend (base x))) (base x))
         (record_request q x).
Proof.
  unfold order. cbn. destruct (refused (other x) q); intros H.
  - discriminate H.
  - injection H as -> <-. split; reflexivity.
Qed.

Lemma keypair_services (fingerprint : string -> result string)
    (self : ScopedSession.t) (ssh_key : string) (x x' : xworld)
    (r : result Keypair.t) :
  _get_or_create_keypair fingerprint self ssh_key x = (r, x') ->
  accept (other x') = accept (other x) /\ new_id (other x') = new_id (other x) /\
  base x' = base x.
Proof.
  unfold _get_or_create_keypair, bindx.
  destruct (fingerprint ssh_key) as [digest|e].
  - unfold try_exceptx, find_keypair, ask. cbn.
    destruct (refused (other x) _) as [e|].
    + destruct e; intros H; try (injection H as <- <-; repeat split; reflexivity).
      revert H. unfold create_keypair. cbn.
      destruct (refused (other x) _); intros H; injection H as <- <-;
        repeat split; reflexivity.
    + destruct (List.find _ _).
      * intros H. injection H as <- <-. repeat split; reflexivity.
      * unfold not_found, create_keypair. cbn.
        destruct (refused (other x) _); intros H; injection H as <- <-;
          repeat split; reflexivity.
  - intros H. injection H as <- <-. repeat split; reflexivity.
Qed.

Lemma keeps_metadata_ext (s s' : services) :
  accept s' = accept s -> new_id s' = new_id s ->
  keeps_metadata s -> keeps_metadata s'.
Proof.
  intros Ha Hn H. unfold keeps_metadata. rewrite Ha, Hn. exact H.
Qed.

Lemma flag_of_str_bit (b : bool) :
  flag_of_str (if b then "1" else "0") = Return b.
Proof. destruct b; reflexivity. Qed.

(** X27.  The NAT flag of an image survives the creation of a machine:
    [create_machine] writes the flag of the image into the metadata of the
    server as "1" or "0", and the machine is read back from that metadata; so
    with a compute service that keeps the metadata of the servers it
    creates, the machine that [create_machine] returns allows NAT exactly
    when the image does. *)
Theorem create_machine_nat_allowed (Machine_Status_Type : list string)
    (dateutil_parse : string -> option datetime)
    (fingerprint : string -> result string)
    (self : ScopedSession.t) (name : string) (image : Image.t + string)
    (size : Size.t + string) (ssh_key : option string)
    (x x' : xworld) (machine : Machine.t) (found : Image.t) :
  keeps_metadata (other x) ->
  match image with
  | inl given => given = found
  | inr id => exists w, find_image id (base x) = (Return found, w)
  end ->
  create_machine Machine_Status_Type dateutil_parse fingerprint self name
    image size ssh_key x = (Return machine, x') ->
  Machine.nat_allowed machine = Image.nat_allowed found.
Proof.
  intros Hkeep Himage Hrun.
  unfold create_machine, convert_sdk_exceptionsx in Hrun.
  match type of Hrun with (let (_, _) := ?body x in _) = _ =>
    destruct (body x) as [[m0|e0] x0] eqn:Hbody end;
    cbn in Hrun; [|discriminate Hrun].
  injection Hrun as -> ->.
  apply bindx_Return_inv in Hbody as (img & x1 & Himg & Hbody).
  assert (Hx1 : img = found /\ other x1 = other x).
  { destruct image as [given|id].
    - cbn in Himg. injection Himg as <- <-. split; [exact Himage|reflexivity].
    - destruct Himage as [w Hw]. unfold try_exceptx in Himg.
      rewrite (liftx_run _ _ _ _ Hw) in Himg. injection Himg as <- <-.
      split; reflexivity. }
  destruct Hx1 as [-> Hx1].
  apply bindx_Return_inv in Hbody as (tenant_net & x2 & Hnet & Hbody).
  apply liftx_inv in Hnet as (w2 & _ & ->).
  apply bindx_Return_inv in Hbody as (tenant_net_id & x3 & Hid & Hbody).
  assert (Hx3 : other x3 = other x1).
  { destruct tenant_net; [injection Hid as _ <-; reflexivity|discriminate Hid]. }
  apply bindx_Return_inv in Hbody as (networks & x4 & Hnets & Hbody).
  assert (Hx4 : other x4 = other x3).
  { destruct (ScopedSession.secondary_network_id self) as [secondary|].
    - destruct (PyStr.truthy secondary).
      + apply bindx_Return_inv in Hnets as (n & y & Hn & Hy).
        apply liftx_inv in Hn as (wn & _ & ->).
        injection Hy as _ <-. reflexivity.
      + injection Hnets as _ <-. reflexivity.
    - injection Hnets as _ <-. reflexivity. }
  apply bindx_Return_inv in Hbody as (keypair & x5 & Hkey & Hbody).
  assert (Hx5 : accept (other x5) = accept (other x4) /\
                new_id (other x5) = new_id (other x4)).
  { destruct ssh_key as [k|].
    - destruct (PyStr.truthy k).
      + apply bindx_Return_inv in Hkey as (kp & y & Hkp & Hy).
        apply keypair_services in Hkp as (Ha & Hn & _).
        injection Hy as _ <-. split; assumption.
      + injection Hkey as _ <-. split; reflexivity.
    - injection Hkey as _ <-. split; reflexivity. }
  destruct Hx5 as [Haccept Hnew].
  rewrite Hx4, Hx3 in Haccept, Hnew. cbn in Haccept, Hnew.
  rewrite Hx1 in Haccept, Hnew.
  pose proof (keeps_metadata_ext _ _ Haccept Hnew Hkeep) as Hkeep5.
  cbv zeta in Hbody.
  apply bindx_Return_inv in Hbody as (server_id & x6 & Horder & Hfind).
  apply order_Return_inv in Horder as [Hsid ->].
  injection Hsid as <-.
  apply liftx_inv in Hfind as (w7 & Hfind & _).
  apply find_machine_Return_inv in Hfind as (sdk_server & Hserver & Hconv).
  cbn in Hserver.
  apply Hkeep5 in Hserver.
  apply from_sdk_server_Return_inv in Hconv as (w8 & Hnat & _).
  rewrite (resolve_nat_allowed_flag sdk_server
             (if Image.nat_allowed found then "1" else "0")) in Hnat.
  - rewrite flag_of_str_bit in Hnat. injection Hnat as <- _. reflexivity.
  - unfold nat_allowed_metadata. rewrite Hserver. apply lookup_insert_eq.
Qed.


(** ** The form authenticators *)

(** X30.  [OpenStackFormAuthenticator.authenticate] gives a token for the
    status 201 only, and then the token of the header [X-Subject-Token]; it
    gives [None] for 401 and 404, and also for every other status that is
    not an error status, such as 200, where [raise_for_status] raises
    nothing and the method ends without a value. *)
Theorem form_authenticate_outcome
    (post : string -> FormAuthenticator.identity -> requests.outcome unit)
    (self : FormAuthenticator.authenticator) (form_data : gmap string string)
    (id : FormAuthenticator.identity) (response : requests.Response unit) :
  FormAuthenticator.get_identity self form_data = FormAuthenticator.Returned id ->
  post (FormAuthenticator.token_url self) id = requests.Responded response ->
  (forall token,
     FormAuthenticator.authenticate post self form_data =
       FormAuthenticator.Returned (Some token) <->
     requests.status_code response = 201%Z /\
     requests.header response "X-Subject-Token" = Some token) /\
  (FormAuthenticator.authenticate post self form_data =
     FormAuthenticator.Returned None <->
   requests.status_code response = 401%Z \/
   requests.status_code response = 404%Z \/
   (requests.status_code response <> 201%Z /\
    (requests.status_code response < 400 \/ 600 <= requests.status_code response)%Z)).
Proof.
  intros Hid Hpost. unfold FormAuthenticator.authenticate.
  rewrite Hid, Hpost. unfold requests.raise_for_status.
  destruct (Z.eqb_spec (requests.status_code response) 201) as [E201|N201].
  - split.
    + intros token. destruct (requests.header response "X-Subject-Token") as [t|].
      * split.
        -- intros H. injection H as <-. split; [exact E201|reflexivity].
        -- intros [_ H]. injection H as <-. reflexivity.
      * split; [discriminate|]. intros [_ H]. discriminate H.
    + destruct (requests.header response "X-Subject-Token") as [t|].
      * split; [discriminate|]. intros [H | [H | [H _]]]; lia.
      * split; [discriminate|]. intros [H | [H | [H _]]]; lia.
  - destruct (Z.eqb_spec (requests.status_code response) 401) as [E401|N401];
      [|destruct (Z.eqb_spec (requests.status_code response) 404) as [E404|N404]];
      cbn [orb].
    + split.
      * intros token. split; [discriminate|]. intros [H _]. lia.
      * split; [intros _; left; exact E401|reflexivity].
    + split.
      * intros token. split; [discriminate|]. intros [H _]. lia.
      * split; [intros _; right; left; exact E404|reflexivity].
    + destruct (Z.leb_spec 400 (requests.status_code response)) as [Hge|Hlt];
        [destruct (Z.ltb_spec (requests.status_code response) 600) as [Hlt|Hge']|];
        cbn [andb].
      * split.
        -- intros token. split; [discriminate|]. intros [H _]. lia.
        -- split; [discriminate|]. intros [H | [H | [_ [H | H]]]]; lia.
      * split.
        -- intros token. split; [discriminate|]. intros [H _]. lia.
        -- split; [|reflexivity]. intros _. right. right. split; [exact N201|].
           right. exact Hge'.
      * split.
        -- intros token. split; [discriminate|]. intros [H _]. lia.
        -- split; [|reflexivity]. intros _. right. right. split; [exact N201|].
           left. exact Hlt.
Qed.

Lemma form_authenticate_outcome_witness :
  FormAuthenticator.authenticate (Site.post 200)
    (FormAuthenticator.PasswordAuthenticator "https://keystone.example/v3/" "default" true)
    Site.form_data = FormAuthenticator.Returned None.
Proof.
  apply (proj2 (form_authenticate_outcome (Site.post 200)
                  (FormAuthenticator.PasswordAuthenticator
                     "https://keystone.example/v3/" "default" true)
                  Site.form_data
                  (FormAuthenticator.password "default" "alice" "secret")
                  (requests.mkResponse 200 {[ "x-subject-token" := "token-1" ]} tt)
                  eq_refl eq_refl)).
  right. right. cbn. split; [discriminate|]. left. reflexivity.
Defined.

(** ** Services for the small cloud: the cases above at work *)

Lemma site_keeps_metadata : keeps_metadata Site.the_services.
Proof.
  unfold keeps_metadata. intros name image_id flavor_id networks metadata key_name
    c sdk_server H.
  cbn in H. injection H as <-. reflexivity.
Qed.

Lemma sizes_enabled_only_witness :
  exists l, sizes Site.the_world =
              (Return l, record_request compute_flavors Site.the_world) /\
            (List.length l <= 3)%nat.
Proof.
  destruct (sizes_enabled_only Site.the_world eq_refl) as (l & H & _ & Hlen).
  exists l. split; [exact H|exact Hlen].
Defined.

Lemma delete_volume_busy_witness :
  exists message x',
    delete_volume (inr "vol-1") Site.the_world =
      (Raise (Errors InvalidOperationError message), x') /\
    requests x' = [].
Proof.
  destruct (resolve_volume (inr "vol-1") (base Site.the_world)) as [[v|e] w] eqn:H;
    [|vm_compute in H; discriminate H].
  assert (Hs : Volume.status v = Volume.IN_USE)
    by (vm_compute in H; injection H as <- _; reflexivity).
  destruct (delete_volume_busy (inr "vol-1") v w Site.the_world H) as (x' & Hrun & Hreq & _);
    [rewrite Hs; discriminate | rewrite Hs; discriminate |].
  eexists _, x'. split; [exact Hrun|exact Hreq].
Defined.

Lemma detach_volume_detached_witness :
  exists v x', detach_volume (inr "vol-3") Site.the_world = (Return v, x') /\
               requests x' = [].
Proof.
  destruct (resolve_volume (inr "vol-3") (base Site.the_world)) as [[v|e] w] eqn:H;
    [|vm_compute in H; discriminate H].
  assert (Hm : Volume.machine_id v = None)
    by (vm_compute in H; injection H as <- _; reflexivity).
  destruct (detach_volume_detached (inr "vol-3") v w Site.the_world H (or_introl Hm))
    as (x' & Hrun & Hreq & _).
  exists v, x'. split; [exact Hrun|exact Hreq].
Defined.

Lemma delete_volume_gone_witness :
  exists x', delete_volume (inr "vol-3") Site.the_world = (Return None, x') /\
             requests x' = [ block_store_delete_volume "vol-3" ].
Proof.
  destruct (resolve_volume (inr "vol-3") (base Site.the_world)) as [[v|e] w] eqn:H;
    [|vm_compute in H; discriminate H].
  pose proof H as Hres. vm_compute in H. injection H as Hv Hw. subst v w.
  destruct (delete_volume_gone (inr "vol-3") _ _ Site.the_world Hres) as (x' & Hrun & Hreq);
    [left; reflexivity | reflexivity | reflexivity | reflexivity |].
  exists x'. split; [exact Hrun|exact Hreq].
Defined.

Lemma delete_machine_gone_witness :
  exists x',
    delete_machine Sample.Machine_Status_Type Sample.dateutil_parse (inr "srv-1")
      Site.the_world = (Return None, x') /\
    requests x' = [ compute_delete_server "srv-1" ].
Proof.
  destruct (delete_machine_gone Sample.Machine_Status_Type Sample.dateutil_parse
              (inr "srv-1") Site.the_world) as (x' & Hrun & Hreq);
    [reflexivity | reflexivity | reflexivity |].
  exists x'. split; [exact Hrun|exact Hreq].
Defined.

Lemma create_machine_invalid_image_witness :
  exists x',
    create_machine Sample.Machine_Status_Type Sample.dateutil_parse Site.fingerprint
      Sample.session "web" (inr "img-gone") (inr "flavor-1") None Site.the_world =
      (Raise (Errors BadInputError "Invalid image provided"), x') /\
    requests x' = [].
Proof.
  assert (H : exists message w,
            find_image "img-gone" (base Site.the_world) =
              (Raise (Errors ObjectNotFoundError message), w))
    by (eexists _, _; vm_compute; reflexivity).
  destruct H as (message & w & H).
  exact (create_machine_invalid_image Sample.Machine_Status_Type Sample.dateutil_parse
           Site.fingerprint Sample.session "web" "img-gone" (inr "flavor-1") None
           Site.the_world message w H).
Defined.

Lemma create_machine_nat_allowed_witness :
  exists machine x',
    create_machine Sample.Machine_Status_Type Sample.dateutil_parse Site.fingerprint
      Sample.session "web" (inr "img-2") (inr "flavor-1")
      (Some "ssh-rsa YQ== alice") Site.the_world = (Return machine, x') /\
    Machine.nat_allowed machine = false.
Proof.
  destruct (create_machine Sample.Machine_Status_Type Sample.dateutil_parse
              Site.fingerprint Sample.session "web" (inr "img-2") (inr "flavor-1")
              (Some "ssh-rsa YQ== alice") Site.the_world) as [[machine|e] x'] eqn:H;
    [|vm_compute in H; discriminate H].
  destruct (find_image "img-2" (base Site.the_world)) as [[found|e] w] eqn:Hfound;
    [|vm_compute in Hfound; discriminate Hfound].
  assert (Hflag : Image.nat_allowed found = false)
    by (vm_compute in Hfound; injection Hfound as <- _; reflexivity).
  exists machine, x'. split; [reflexivity|].
  rewrite <- Hflag.
  exact (create_machine_nat_allowed Sample.Machine_Status_Type Sample.dateutil_parse
           Site.fingerprint Sample.session "web" (inr "img-2") (inr "flavor-1")
           (Some "ssh-rsa YQ== alice") Site.the_world x' machine found
           site_keeps_metadata (ex_intro _ w Hfound) H).
Defined.

Lemma allocate_external_ip_network_witness :
  exists r x',
    allocate_external_ip Site.the_world = (r, x') /\
    requests x' = [ network_create_ip "ext-net"; network_routers ].
Proof.
  destruct (allocate_external_ip Site.the_world) as [r x'] eqn:H.
  exists r, x'. split; [reflexivity|].
  destruct (allocate_external_ip_network _ _ _ H)
    as [[_ Hnone] | (router & rest & info & extnet & Hr & Hinfo & Hnet & Hreq)].
  - specialize (Hnone eq_refl). vm_compute in H. injection H as <- <-. reflexivity.
  - cbn in Hr. injection Hr as <- <-. cbn in Hinfo. injection Hinfo as <-.
    vm_compute in Hnet. injection Hnet as <-. exact Hreq.
Defined.

Lemma get_or_create_keypair_once_witness :
  exists keypair x1,
    _get_or_create_keypair Site.fingerprint Sample.session "ssh-rsa YQ== alice"
      Site.the_world = (Return keypair, x1) /\
    Keypair.name keypair = "alice-0cc175b9c0f1b6a831c399e269772661" /\
    List.length (keypairs (other x1)) = 1%nat.
Proof.
  destruct (get_or_create_keypair_once Site.fingerprint Sample.session
              "ssh-rsa YQ== alice" "0cc175b9c0f1b6a831c399e269772661" Site.the_world
              eq_refl eq_refl eq_refl) as (keypair & x1 & Hrun & Hname & _).
  exists keypair, x1. split; [exact Hrun|]. split; [exact Hname|].
  vm_compute in Hrun. injection Hrun as _ <-. reflexivity.
Defined.

